(** * The resume editor's version-tracked editing workflow

    A shallow embedding of [frontend/src/Editor.js]: the component state
    declared with [useState], the handlers [saveResume], [handleTitleSave],
    [updatePdfPreview], [handleUndo], [handleExtractAndGenerate],
    [handleSendMessage] and [fetchResumeData], and the parts of the browser
    and of the hosted services those handlers talk to.

    Conventions of the embedding.
    - A JavaScript string is a [string]; one character stands for one code
      unit, so [String.length] is the [.length] of the source.
    - Version numbers are JavaScript numbers holding integers; they are
      modelled in [Z], which agrees with the source below 2^53.
    - A handler is an action on the session.  The values a handler reads
      from its closure are the state of the render that created it, bound
      once at the start of the action ([render]); a setter called with a
      function ([setX(prev => ...)]) reads the latest state instead.
    - The answer of every awaited external call is an argument of the
      handler, so that each [try]/[catch]/[finally] of the source is a case
      analysis on that answer.  Calls started without [await] are run to
      completion in the order in which the source starts them, and a
      handler has finished before the next user action starts.
    - The state cells [templates] and [isLoadingTemplates] belong to the
      template gallery; none of the handlers above reads or writes them,
      and they are kept in a record of their own ([Gallery]). *)

From Stdlib Require Import ZArith Ascii String Lia.
From stdpp Require Import gmap strings list.

Local Open Scope string_scope.
Local Open Scope list_scope.
Local Open Scope Z_scope.

(** ** JavaScript string and array primitives used by the editor *)

Module Js.

(** WhiteSpace and LineTerminator code units below 256, as removed by
    [String.prototype.trim]. *)
Definition is_space (c : ascii) : bool :=
  let n := N_of_ascii c in
  ((n =? 9) || (n =? 10) || (n =? 11) || (n =? 12) || (n =? 13)
   || (n =? 32) || (n =? 160))%N.

Fixpoint trimStart (s : string) : string :=
  match s with
  | EmptyString => EmptyString
  | String c r => if is_space c then trimStart r else s
  end.

Fixpoint trimEnd (s : string) : string :=
  match s with
  | EmptyString => EmptyString
  | String c r =>
      match trimEnd r with
      | EmptyString => if is_space c then EmptyString else String c EmptyString
      | r' => String c r'
      end
  end.

Definition trim (s : string) : string := trimEnd (trimStart s).

(** Truthiness of a string: only the empty string is falsy. *)
Definition truthy (s : string) : bool :=
  match s with EmptyString => false | String _ _ => true end.

(** Truthiness of a possibly absent string ([null]/[undefined] are falsy). *)
Definition truthy_opt (o : option string) : bool :=
  match o with Some s => truthy s | None => false end.

(** [a || b] on strings. *)
Definition or_else (a : option string) (b : string) : string :=
  match a with
  | Some s => if truthy s then s else b
  | None => b
  end.

(** [arr.slice(start)]: a negative [start] counts from the end, and the
    resulting index is clamped to the array. *)
Definition slice_from {A : Type} (start : Z) (l : list A) : list A :=
  let len := Z.of_nat (length l) in
  let k := if start <? 0 then Z.max (len + start) 0 else Z.min start len in
  drop (Z.to_nat k) l.

(** [arr.findIndex(p)]: index of the first element satisfying [p], or -1. *)
Fixpoint findIndex_from {A : Type} (p : A -> bool) (i : Z) (l : list A) : Z :=
  match l with
  | [] => -1
  | x :: r => if p x then i else findIndex_from p (i + 1) r
  end.

Definition findIndex {A : Type} (p : A -> bool) (l : list A) : Z :=
  findIndex_from p 0 l.

(** [arr.find(p)]: the first element satisfying [p], or [undefined]. *)
Fixpoint find {A : Type} (p : A -> bool) (l : list A) : option A :=
  match l with
  | [] => None
  | x :: r => if p x then Some x else find p r
  end.

(** [arr[i]] for an integer index: [undefined] out of range. *)
Definition index {A : Type} (l : list A) (i : Z) : option A :=
  if i <? 0 then None else l !! Z.to_nat i.

(** [s.replace(/\.[^/.]+$/, "")]: the match starts at the first dot that is
    followed, up to the end of the string, by one or more characters other
    than a slash and a dot. *)
Fixpoint no_slash_dot (s : string) : bool :=
  match s with
  | EmptyString => true
  | String c r =>
      negb (Ascii.eqb c "/"%char) && negb (Ascii.eqb c "."%char) && no_slash_dot r
  end.

Fixpoint strip_extension (s : string) : string :=
  match s with
  | EmptyString => EmptyString
  | String c r =>
      if Ascii.eqb c "."%char && truthy r && no_slash_dot r
      then EmptyString
      else String c (strip_extension r)
  end.

(** [s.replace(/_/g, " ")]. *)
Fixpoint underscores_to_spaces (s : string) : string :=
  match s with
  | EmptyString => EmptyString
  | String c r =>
      String (if Ascii.eqb c "_"%char then " "%char else c) (underscores_to_spaces r)
  end.

End Js.

(** ** Data model *)

(** An element of [codeHistory]: the object [{ id, code }].  The fields are
    prefixed because [id] is also the name of the route parameter. *)
Record VersionEntry := { vid : Z; vcode : string }.

(** An element of [chatMessages]: [{ role, content, codeVersionId }], where
    an object built without [codeVersionId] has none. *)
Record ChatMessage := {
  role : string;
  content : string;
  codeVersionId : option Z
}.

(** The uploaded file and the chosen template, as far as the editor reads
    them. *)
Record File := { name : string }.
Record Template := { template_id : string }.

(** A row of the [resumes] table. *)
Record ResumeRow := {
  title : option string;
  html_content : option string;
  version : Z;
  updated_at : Z
}.

(** The object passed to [.update(...)]. *)
Record Updates := {
  u_html_content : option string;
  u_version : option Z;
  u_updated_at : Z;
  u_title : option string
}.

Definition apply_updates (u : Updates) (r : ResumeRow) : ResumeRow :=
  {| title := match u_title u with Some t => Some t | None => title r end;
     html_content :=
       match u_html_content u with Some h => Some h | None => html_content r end;
     version := match u_version u with Some v => v | None => version r end;
     updated_at := u_updated_at u |}.

(** Request bodies of the backend endpoints. *)
Record HistoryItem := { h_role : string; h_content : string }.

Record ModifyRequest := {
  rq_html_code : string;
  rq_prompt : string;
  rq_history : list HistoryItem;
  rq_extracted_data : string
}.

Inductive Body :=
| ModifyBody (r : ModifyRequest)
| ProcessBody (file : File) (tid : string)
| PreviewBody (html : string).

(** Response bodies. *)
Record ModifyResponse := {
  mr_success : bool;
  mr_html_code : string;
  mr_reply_text : string
}.

Record ProcessResponse := {
  pr_success : bool;
  pr_html_code : string;
  pr_extracted_data : option string;
  pr_error : option string
}.

(** What [await supabase...single()] destructures into [{ data, error }],
    and what [await supabase...update(...)] destructures into [{ error }]. *)
Record SelectResult := { sel_data : option ResumeRow; sel_error : bool }.
Record UpdateResult := { upd_error : bool }.

(** The answer of an awaited call: it throws or it returns a value. *)
Inductive Answer (A : Type) :=
| Threw
| Returned (a : A).
Arguments Threw {A}.
Arguments Returned {A} a.

(** Object URLs are handles; a PDF is its byte string. *)
Definition BlobUrl := nat.
Definition Blob := string.

(** What a handler does that is visible outside the component state. *)
Inductive Event :=
| Api (method endpoint : string) (body : Body)
| DbUpdate (row : string) (u : Updates)
| Called_saveResume (newHtml : string) (newVersion : Z) (newTitle : option string)
| Called_updatePdfPreview (codeToRender : string)
| Revoked (u : BlobUrl)
| Created (u : BlobUrl)
| ConsoleError (msg : string)
| Alert (msg : string).

(** The [useState] cells of the component. *)
#[projections(primitive)]
Record EditorState := {
  step : Z;
  isFetchingInitialData : bool;
  selectedTemplate : option Template;
  resumeFile : option File;
  htmlCode : string;
  extractedContext : string;
  pdfUrl : option BlobUrl;
  resumeTitle : string;
  chatMessages : list ChatMessage;
  userPrompt : string;
  codeHistory : list VersionEntry;
  currentCodeVersionId : Z;
  isProcessing : bool;
  isGenerationDone : bool;
  isGeneratingPreview : bool;
  isModifying : bool;
  isSaving : bool
}.

(** The values given to [useState]. *)
Definition initial_state : EditorState :=
  {| step := 1; isFetchingInitialData := true;
     selectedTemplate := None; resumeFile := None;
     htmlCode := ""; extractedContext := ""; pdfUrl := None;
     resumeTitle := "Untitled Resume";
     chatMessages := []; userPrompt := "";
     codeHistory := []; currentCodeVersionId := 1;
     isProcessing := false; isGenerationDone := false;
     isGeneratingPreview := false; isModifying := false; isSaving := false |}.

(** The world around the component: the [resumes] table, the object URLs
    the browser keeps alive, the next URL it will hand out, and the events
    so far (oldest first). *)
#[projections(primitive)]
Record World := {
  db : gmap string ResumeRow;
  blobs : gmap BlobUrl Blob;
  nextUrl : BlobUrl;
  log : list Event
}.

#[projections(primitive)]
Record Session := { ui : EditorState; world : World }.

(** ** Actions on the session *)

Definition Act (A : Type) : Type := Session -> A * Session.

Definition ret {A : Type} (a : A) : Act A := fun s => (a, s).

Definition bind {A B : Type} (m : Act A) (k : A -> Act B) : Act B :=
  fun s => let (a, s') := m s in k a s'.

Declare Scope act_scope.
Delimit Scope act_scope with act.
Bind Scope act_scope with Act.

Notation "x <- m ;; k" := (bind m (fun x => k))
  (at level 100, m at next level, right associativity) : act_scope.
Notation "m ;; k" := (bind m (fun _ => k))
  (at level 100, right associativity) : act_scope.

Local Open Scope act_scope.

(** Final session of an action. *)
Definition exec {A : Type} (m : Act A) (s : Session) : Session := snd (m s).

(** The state of the render whose closures are running. *)
Definition render : Act EditorState := fun s => (ui s, s).

Definition modify_ui (f : EditorState -> EditorState) : Act unit :=
  fun s => (tt, {| ui := f (ui s); world := world s |}).

Definition modify_world (f : World -> World) : Act unit :=
  fun s => (tt, {| ui := ui s; world := f (world s) |}).

Definition emit (e : Event) : Act unit :=
  modify_world (fun w =>
    {| db := db w; blobs := blobs w; nextUrl := nextUrl w; log := log w ++ [e] |}).

Definition console_error (msg : string) : Act unit := emit (ConsoleError msg).
Definition alert (msg : string) : Act unit := emit (Alert msg).

(** ** The setters returned by [useState]

    [upd_X f] is [setX(prev => f prev)] and [setX v] is [setX(v)]. *)

Definition upd_step (f : Z -> Z) : Act unit :=
  modify_ui (fun s =>
    {| step := f (step s); isFetchingInitialData := isFetchingInitialData s;
       selectedTemplate := selectedTemplate s; resumeFile := resumeFile s;
       htmlCode := htmlCode s; extractedContext := extractedContext s;
       pdfUrl := pdfUrl s; resumeTitle := resumeTitle s;
       chatMessages := chatMessages s; userPrompt := userPrompt s;
       codeHistory := codeHistory s;
       currentCodeVersionId := currentCodeVersionId s;
       isProcessing := isProcessing s;
       isGenerationDone := isGenerationDone s;
       isGeneratingPreview := isGeneratingPreview s;
       isModifying := isModifying s; isSaving := isSaving s |}).

Definition setStep (v : Z) : Act unit := upd_step (fun _ => v).

Definition upd_isFetchingInitialData (f : bool -> bool) : Act unit :=
  modify_ui (fun s =>
    {| step := step s; isFetchingInitialData := f (isFetchingInitialData s);
       selectedTemplate := selectedTemplate s; resumeFile := resumeFile s;
       htmlCode := htmlCode s; extractedContext := extractedContext s;
       pdfUrl := pdfUrl s; resumeTitle := resumeTitle s;
       chatMessages := chatMessages s; userPrompt := userPrompt s;
       codeHistory := codeHistory s;
       currentCodeVersionId := currentCodeVersionId s;
       isProcessing := isProcessing s;
       isGenerationDone := isGenerationDone s;
       isGeneratingPreview := isGeneratingPreview s;
       isModifying := isModifying s; isSaving := isSaving s |}).

Definition setIsFetchingInitialData (v : bool) : Act unit := upd_isFetchingInitialData (fun _ => v).

Definition upd_htmlCode (f : string -> string) : Act unit :=
  modify_ui (fun s =>
    {| step := step s; isFetchingInitialData := isFetchingInitialData s;
       selectedTemplate := selectedTemplate s; resumeFile := resumeFile s;
       htmlCode := f (htmlCode s); extractedContext := extractedContext s;
       pdfUrl := pdfUrl s; resumeTitle := resumeTitle s;
       chatMessages := chatMessages s; userPrompt := userPrompt s;
       codeHistory := codeHistory s;
       currentCodeVersionId := currentCodeVersionId s;
       isProcessing := isProcessing s;
       isGenerationDone := isGenerationDone s;
       isGeneratingPreview := isGeneratingPreview s;
       isModifying := isModifying s; isSaving := isSaving s |}).

Definition setHtmlCode (v : string) : Act unit := upd_htmlCode (fun _ => v).

Definition upd_extractedContext (f : string -> string) : Act unit :=
  modify_ui (fun s =>
    {| step := step s; isFetchingInitialData := isFetchingInitialData s;
       selectedTemplate := selectedTemplate s; resumeFile := resumeFile s;
       htmlCode := htmlCode s; extractedContext := f (extractedContext s);
       pdfUrl := pdfUrl s; resumeTitle := resumeTitle s;
       chatMessages := chatMessages s; userPrompt := userPrompt s;
       codeHistory := codeHistory s;
       currentCodeVersionId := currentCodeVersionId s;
       isProcessing := isProcessing s;
       isGenerationDone := isGenerationDone s;
       isGeneratingPreview := isGeneratingPreview s;
       isModifying := isModifying s; isSaving := isSaving s |}).

Definition setExtractedContext (v : string) : Act unit := upd_extractedContext (fun _ => v).

Definition upd_pdfUrl (f : option BlobUrl -> option BlobUrl) : Act unit :=
  modify_ui (fun s =>
    {| step := step s; isFetchingInitialData := isFetchingInitialData s;
       selectedTemplate := selectedTemplate s; resumeFile := resumeFile s;
       htmlCode := htmlCode s; extractedContext := extractedContext s;
       pdfUrl := f (pdfUrl s); resumeTitle := resumeTitle s;
       chatMessages := chatMessages s; userPrompt := userPrompt s;
       codeHistory := codeHistory s;
       currentCodeVersionId := currentCodeVersionId s;
       isProcessing := isProcessing s;
       isGenerationDone := isGenerationDone s;
       isGeneratingPreview := isGeneratingPreview s;
       isModifying := isModifying s; isSaving := isSaving s |}).

Definition setPdfUrl (v : option BlobUrl) : Act unit := upd_pdfUrl (fun _ => v).

Definition upd_resumeTitle (f : string -> string) : Act unit :=
  modify_ui (fun s =>
    {| step := step s; isFetchingInitialData := isFetchingInitialData s;
       selectedTemplate := selectedTemplate s; resumeFile := resumeFile s;
       htmlCode := htmlCode s; extractedContext := extractedContext s;
       pdfUrl := pdfUrl s; resumeTitle := f (resumeTitle s);
       chatMessages := chatMessages s; userPrompt := userPrompt s;
       codeHistory := codeHistory s;
       currentCodeVersionId := currentCodeVersionId s;
       isProcessing := isProcessing s;
       isGenerationDone := isGenerationDone s;
       isGeneratingPreview := isGeneratingPreview s;
       isModifying := isModifying s; isSaving := isSaving s |}).

Definition setResumeTitle (v : string) : Act unit := upd_resumeTitle (fun _ => v).

Definition upd_chatMessages (f : list ChatMessage -> list ChatMessage) : Act unit :=
  modify_ui (fun s =>
    {| step := step s; isFetchingInitialData := isFetchingInitialData s;
       selectedTemplate := selectedTemplate s; resumeFile := resumeFile s;
       htmlCode := htmlCode s; extractedContext := extractedContext s;
       pdfUrl := pdfUrl s; resumeTitle := resumeTitle s;
       chatMessages := f (chatMessages s); userPrompt := userPrompt s;
       codeHistory := codeHistory s;
       currentCodeVersionId := currentCodeVersionId s;
       isProcessing := isProcessing s;
       isGenerationDone := isGenerationDone s;
       isGeneratingPreview := isGeneratingPreview s;
       isModifying := isModifying s; isSaving := isSaving s |}).

Definition setChatMessages (v : list ChatMessage) : Act unit := upd_chatMessages (fun _ => v).

Definition upd_userPrompt (f : string -> string) : Act unit :=
  modify_ui (fun s =>
    {| step := step s; isFetchingInitialData := isFetchingInitialData s;
       selectedTemplate := selectedTemplate s; resumeFile := resumeFile s;
       htmlCode := htmlCode s; extractedContext := extractedContext s;
       pdfUrl := pdfUrl s; resumeTitle := resumeTitle s;
       chatMessages := chatMessages s; userPrompt := f (userPrompt s);
       codeHistory := codeHistory s;
       currentCodeVersionId := currentCodeVersionId s;
       isProcessing := isProcessing s;
       isGenerationDone := isGenerationDone s;
       isGeneratingPreview := isGeneratingPreview s;
       isModifying := isModifying s; isSaving := isSaving s |}).

Definition setUserPrompt (v : string) : Act unit := upd_userPrompt (fun _ => v).

Definition upd_codeHistory (f : list VersionEntry -> list VersionEntry) : Act unit :=
  modify_ui (fun s =>
    {| step := step s; isFetchingInitialData := isFetchingInitialData s;
       selectedTemplate := selectedTemplate s; resumeFile := resumeFile s;
       htmlCode := htmlCode s; extractedContext := extractedContext s;
       pdfUrl := pdfUrl s; resumeTitle := resumeTitle s;
       chatMessages := chatMessages s; userPrompt := userPrompt s;
       codeHistory := f (codeHistory s);
       currentCodeVersionId := currentCodeVersionId s;
       isProcessing := isProcessing s;
       isGenerationDone := isGenerationDone s;
       isGeneratingPreview := isGeneratingPreview s;
       isModifying := isModifying s; isSaving := isSaving s |}).

Definition setCodeHistory (v : list VersionEntry) : Act unit := upd_codeHistory (fun _ => v).

Definition upd_currentCodeVersionId (f : Z -> Z) : Act unit :=
  modify_ui (fun s =>
    {| step := step s; isFetchingInitialData := isFetchingInitialData s;
       selectedTemplate := selectedTemplate s; resumeFile := resumeFile s;
       htmlCode := htmlCode s; extractedContext := extractedContext s;
       pdfUrl := pdfUrl s; resumeTitle := resumeTitle s;
       chatMessages := chatMessages s; userPrompt := userPrompt s;
       codeHistory := codeHistory s;
       currentCodeVersionId := f (currentCodeVersionId s);
       isProcessing := isProcessing s;
       isGenerationDone := isGenerationDone s;
       isGeneratingPreview := isGeneratingPreview s;
       isModifying := isModifying s; isSaving := isSaving s |}).

Definition setCurrentCodeVersionId (v : Z) : Act unit := upd_currentCodeVersionId (fun _ => v).

Definition upd_isProcessing (f : bool -> bool) : Act unit :=
  modify_ui (fun s =>
    {| step := step s; isFetchingInitialData := isFetchingInitialData s;
       selectedTemplate := selectedTemplate s; resumeFile := resumeFile s;
       htmlCode := htmlCode s; extractedContext := extractedContext s;
       pdfUrl := pdfUrl s; resumeTitle := resumeTitle s;
       chatMessages := chatMessages s; userPrompt := userPrompt s;
       codeHistory := codeHistory s;
       currentCodeVersionId := currentCodeVersionId s;
       isProcessing := f (isProcessing s);
       isGenerationDone := isGenerationDone s;
       isGeneratingPreview := isGeneratingPreview s;
       isModifying := isModifying s; isSaving := isSaving s |}).

Definition setIsProcessing (v : bool) : Act unit := upd_isProcessing (fun _ => v).

Definition upd_isGenerationDone (f : bool -> bool) : Act unit :=
  modify_ui (fun s =>
    {| step := step s; isFetchingInitialData := isFetchingInitialData s;
       selectedTemplate := selectedTemplate s; resumeFile := resumeFile s;
       htmlCode := htmlCode s; extractedContext := extractedContext s;
       pdfUrl := pdfUrl s; resumeTitle := resumeTitle s;
       chatMessages := chatMessages s; userPrompt := userPrompt s;
       codeHistory := codeHistory s;
       currentCodeVersionId := currentCodeVersionId s;
       isProcessing := isProcessing s;
       isGenerationDone := f (isGenerationDone s);
       isGeneratingPreview := isGeneratingPreview s;
       isModifying := isModifying s; isSaving := isSaving s |}).

Definition setIsGenerationDone (v : bool) : Act unit := upd_isGenerationDone (fun _ => v).

Definition upd_isGeneratingPreview (f : bool -> bool) : Act unit :=
  modify_ui (fun s =>
    {| step := step s; isFetchingInitialData := isFetchingInitialData s;
       selectedTemplate := selectedTemplate s; resumeFile := resumeFile s;
       htmlCode := htmlCode s; extractedContext := extractedContext s;
       pdfUrl := pdfUrl s; resumeTitle := resumeTitle s;
       chatMessages := chatMessages s; userPrompt := userPrompt s;
       codeHistory := codeHistory s;
       currentCodeVersionId := currentCodeVersionId s;
       isProcessing := isProcessing s;
       isGenerationDone := isGenerationDone s;
       isGeneratingPreview := f (isGeneratingPreview s);
       isModifying := isModifying s; isSaving := isSaving s |}).

Definition setIsGeneratingPreview (v : bool) : Act unit := upd_isGeneratingPreview (fun _ => v).

Definition upd_isModifying (f : bool -> bool) : Act unit :=
  modify_ui (fun s =>
    {| step := step s; isFetchingInitialData := isFetchingInitialData s;
       selectedTemplate := selectedTemplate s; resumeFile := resumeFile s;
       htmlCode := htmlCode s; extractedContext := extractedContext s;
       pdfUrl := pdfUrl s; resumeTitle := resumeTitle s;
       chatMessages := chatMessages s; userPrompt := userPrompt s;
       codeHistory := codeHistory s;
       currentCodeVersionId := currentCodeVersionId s;
       isProcessing := isProcessing s;
       isGenerationDone := isGenerationDone s;
       isGeneratingPreview := isGeneratingPreview s;
       isModifying := f (isModifying s); isSaving := isSaving s |}).

Definition setIsModifying (v : bool) : Act unit := upd_isModifying (fun _ => v).

Definition upd_isSaving (f : bool -> bool) : Act unit :=
  modify_ui (fun s =>
    {| step := step s; isFetchingInitialData := isFetchingInitialData s;
       selectedTemplate := selectedTemplate s; resumeFile := resumeFile s;
       htmlCode := htmlCode s; extractedContext := extractedContext s;
       pdfUrl := pdfUrl s; resumeTitle := resumeTitle s;
       chatMessages := chatMessages s; userPrompt := userPrompt s;
       codeHistory := codeHistory s;
       currentCodeVersionId := currentCodeVersionId s;
       isProcessing := isProcessing s;
       isGenerationDone := isGenerationDone s;
       isGeneratingPreview := isGeneratingPreview s;
       isModifying := isModifying s; isSaving := f (isSaving s) |}).

Definition setIsSaving (v : bool) : Act unit := upd_isSaving (fun _ => v).
Definition upd_selectedTemplate (f : option Template -> option Template) : Act unit :=
  modify_ui (fun s =>
    {| step := step s; isFetchingInitialData := isFetchingInitialData s;
       selectedTemplate := f (selectedTemplate s);
       resumeFile := resumeFile s; htmlCode := htmlCode s;
       extractedContext := extractedContext s; pdfUrl := pdfUrl s;
       resumeTitle := resumeTitle s; chatMessages := chatMessages s;
       userPrompt := userPrompt s; codeHistory := codeHistory s;
       currentCodeVersionId := currentCodeVersionId s;
       isProcessing := isProcessing s;
       isGenerationDone := isGenerationDone s;
       isGeneratingPreview := isGeneratingPreview s;
       isModifying := isModifying s; isSaving := isSaving s |}).

Definition setSelectedTemplate (v : option Template) : Act unit := upd_selectedTemplate (fun _ => v).

Definition upd_resumeFile (f : option File -> option File) : Act unit :=
  modify_ui (fun s =>
    {| step := step s; isFetchingInitialData := isFetchingInitialData s;
       selectedTemplate := selectedTemplate s;
       resumeFile := f (resumeFile s); htmlCode := htmlCode s;
       extractedContext := extractedContext s; pdfUrl := pdfUrl s;
       resumeTitle := resumeTitle s; chatMessages := chatMessages s;
       userPrompt := userPrompt s; codeHistory := codeHistory s;
       currentCodeVersionId := currentCodeVersionId s;
       isProcessing := isProcessing s;
       isGenerationDone := isGenerationDone s;
       isGeneratingPreview := isGeneratingPreview s;
       isModifying := isModifying s; isSaving := isSaving s |}).

Definition setResumeFile (v : option File) : Act unit := upd_resumeFile (fun _ => v).
(** ** Browser and service primitives *)

(** [URL.revokeObjectURL(u)]. *)
Definition revokeObjectURL (u : BlobUrl) : Act unit :=
  emit (Revoked u) ;;
  modify_world (fun w =>
    {| db := db w; blobs := delete u (blobs w); nextUrl := nextUrl w; log := log w |}).

(** [URL.createObjectURL(b)]: a URL that was never handed out before. *)
Definition createObjectURL (b : Blob) : Act BlobUrl :=
  fun s =>
    let u := nextUrl (world s) in
    (modify_world (fun w =>
       {| db := db w; blobs := <[u := b]> (blobs w); nextUrl := S u; log := log w |}) ;;
     emit (Created u) ;;
     ret u) s.

(** [await secureApiRequest(method, endpoint, data)]: the call is recorded
    and its answer is the one the network gives. *)
Definition secureApiRequest {R : Type} (method endpoint : string) (data : Body)
    (ans : Answer R) : Act (Answer R) :=
  emit (Api method endpoint data) ;;
  ret ans.

(** [supabase.from('resumes').update(u).eq('id', row)]: the statement is
    recorded, and the row with that id, if any, is rewritten unless the
    service reports an error. *)
Definition supabase_update (row : string) (u : Updates) (res : UpdateResult) : Act unit :=
  emit (DbUpdate row u) ;;
  if upd_error res then ret tt
  else modify_world (fun w =>
    {| db := alter (apply_updates u) row (db w); blobs := blobs w;
       nextUrl := nextUrl w; log := log w |}).

(** The answer of [.select('*').eq('id', row).single()] from a service that
    is reachable: exactly one row must match. *)
Definition select_single (w : World) (row : string) : SelectResult :=
  match db w !! row with
  | Some r => {| sel_data := Some r; sel_error := false |}
  | None => {| sel_data := None; sel_error := true |}
  end.

(** ** The handlers of [Editor] *)

Section Editor.

(** The route parameter: [const { id } = useParams()]. *)
Variable id : option string.

(** [saveResume(newHtml, newVersion, newTitle = null)].  [now] is the value
    of [new Date()]; [ans] is what getting the client and awaiting the
    update give. *)
Definition saveResume (newHtml : string) (newVersion : Z) (newTitle : option string)
    (now : Z) (ans : Answer UpdateResult) : Act unit :=
  emit (Called_saveResume newHtml newVersion newTitle) ;;
  match id with
  | None => ret tt
  | Some row =>
      if negb (Js.truthy row) || String.eqb row "new" then ret tt
      else
        setIsSaving true ;;
        match ans with
        | Returned res =>
            let updates :=
              {| u_html_content := Some newHtml;
                 u_version := Some newVersion;
                 u_updated_at := now;
                 u_title := if Js.truthy_opt newTitle then newTitle else None |} in
            supabase_update row updates res ;;
            if upd_error res then console_error "Failed to save resume:" else ret tt
        | Threw => console_error "Failed to save resume:"
        end ;;
        setIsSaving false
  end.

(** [handleTitleSave()]; the result of the update is not inspected. *)
Definition handleTitleSave (now : Z) (ans : Answer UpdateResult) : Act unit :=
  r <- render ;;
  match id with
  | None => ret tt
  | Some row =>
      if negb (Js.truthy row) || String.eqb row "new"
         || negb (Js.truthy (Js.trim (resumeTitle r)))
      then ret tt
      else
        match ans with
        | Returned res =>
            supabase_update row
              {| u_html_content := None; u_version := None;
                 u_updated_at := now; u_title := Some (resumeTitle r) |} res
        | Threw => console_error "Failed to update title"
        end
  end.

(** [updatePdfPreview(codeToRender)], called from a handler of render [r]:
    [pdfUrl] is the one of that render. *)
Definition updatePdfPreview (r : EditorState) (codeToRender : string)
    (ans : Answer Blob) : Act unit :=
  emit (Called_updatePdfPreview codeToRender) ;;
  setIsGeneratingPreview true ;;
  match pdfUrl r with
  | Some u => revokeObjectURL u
  | None => ret tt
  end ;;
  response <- secureApiRequest "POST" "/preview-pdf-bytes" (PreviewBody codeToRender) ans ;;
  match response with
  | Returned data =>
      blobUrl <- createObjectURL data ;;
      setPdfUrl (Some blobUrl)
  | Threw => console_error "Preview generation failed"
  end ;;
  setIsGeneratingPreview false.

(** [handleUndo()]. *)
Definition handleUndo (previewAns : Answer Blob)
    (now : Z) (saveAns : Answer UpdateResult) : Act unit :=
  r <- render ;;
  let currentIndex :=
    Js.findIndex (fun item => vid item =? currentCodeVersionId r) (codeHistory r) in
  if 0 <? currentIndex then
    match Js.index (codeHistory r) (currentIndex - 1) with
    | Some prevVersion =>
        setHtmlCode (vcode prevVersion) ;;
        setCurrentCodeVersionId (vid prevVersion) ;;
        updatePdfPreview r (vcode prevVersion) previewAns ;;
        saveResume (vcode prevVersion) (vid prevVersion) None now saveAns
    | None =>
        (* [prevVersion.code] on [undefined] throws before any setter runs;
           the index found by [findIndex] is always in range *)
        ret tt
    end
  else ret tt.

(** [resumeFile.name.replace(/\.[^/.]+$/, "").replace(/_/g, " ")]. *)
Definition autoTitle (file : File) : string :=
  Js.underscores_to_spaces (Js.strip_extension (name file)).

Definition generated_greeting : string :=
  "I've generated your PDF resume! Review the preview on the right. What would you like to change?".

(** [handleExtractAndGenerate()]. *)
Definition handleExtractAndGenerate (ans : Answer ProcessResponse)
    (now : Z) (saveAns : Answer UpdateResult) (previewAns : Answer Blob) : Act unit :=
  r <- render ;;
  match resumeFile r, selectedTemplate r with
  | Some file, Some tpl =>
      setIsProcessing true ;;
      setIsGenerationDone false ;;
      response <- secureApiRequest "POST" "/process_html"
                    (ProcessBody file (template_id tpl)) ans ;;
      match response with
      | Returned data =>
          if pr_success data then
            let initialCode := pr_html_code data in
            let initialVersion := 1 in
            let rawData := Js.or_else (pr_extracted_data data) "" in
            setCodeHistory [{| vid := initialVersion; vcode := initialCode |}] ;;
            setCurrentCodeVersionId initialVersion ;;
            setHtmlCode initialCode ;;
            setExtractedContext rawData ;;
            setResumeTitle (autoTitle file) ;;
            setStep 2 ;;
            saveResume initialCode initialVersion (Some (autoTitle file)) now saveAns ;;
            updatePdfPreview r initialCode previewAns ;;
            setChatMessages
              [{| role := "ai"; content := generated_greeting; codeVersionId := Some 1 |}] ;;
            setIsGenerationDone true
          else
            alert (String.append "Extraction failed: "
                     (Js.or_else (pr_error data) "Unknown error")) ;;
            setIsProcessing false
      | Threw =>
          console_error "Extract error:" ;;
          alert "Server error during generation." ;;
          setIsProcessing false
      end
  | _, _ => alert "Please select a template and upload a resume."
  end.

(** The [{ role, content }] projection sent to the edit service. *)
Definition history_item (msg : ChatMessage) : HistoryItem :=
  {| h_role := role msg; h_content := content msg |}.

(** [codeHistory.find(v => v.id === currentCodeVersionId)?.code || htmlCode]. *)
Definition currentCode (r : EditorState) : string :=
  Js.or_else
    (vcode <$> Js.find (fun v => vid v =? currentCodeVersionId r) (codeHistory r))
    (htmlCode r).

Definition ai_message (text : string) (v : option Z) : ChatMessage :=
  {| role := "ai"; content := text; codeVersionId := v |}.

(** [handleSendMessage()]. *)
Definition handleSendMessage (ans : Answer ModifyResponse)
    (now : Z) (saveAns : Answer UpdateResult) (previewAns : Answer Blob) : Act unit :=
  r <- render ;;
  if negb (Js.truthy (Js.trim (userPrompt r))) then ret tt
  else
    let currentPrompt := userPrompt r in
    setUserPrompt "" ;;
    setIsModifying true ;;
    let newUserMessage :=
      {| role := "user"; content := currentPrompt; codeVersionId := None |} in
    let updatedMessages := chatMessages r ++ [newUserMessage] in
    setChatMessages updatedMessages ;;
    let conversationHistory := history_item <$> updatedMessages in
    response <- secureApiRequest "POST" "/modify-resume"
                  (ModifyBody
                     {| rq_html_code := currentCode r;
                        rq_prompt := currentPrompt;
                        rq_history := Js.slice_from (-5) conversationHistory;
                        rq_extracted_data := extractedContext r |}) ans ;;
    match response with
    | Returned data =>
        if mr_success data then
          let newCode := mr_html_code data in
          let agentReply := mr_reply_text data in
          let isCodeChanged := negb (String.eqb newCode (currentCode r)) in
          let newVersionId :=
            if isCodeChanged then currentCodeVersionId r + 1
            else currentCodeVersionId r in
          (if isCodeChanged then
             upd_codeHistory (fun prev => prev ++ [{| vid := newVersionId; vcode := newCode |}]) ;;
             setCurrentCodeVersionId newVersionId ;;
             setHtmlCode newCode ;;
             saveResume newCode newVersionId None now saveAns ;;
             updatePdfPreview r newCode previewAns
           else ret tt) ;;
          upd_chatMessages (fun prev => prev ++ [ai_message agentReply (Some newVersionId)])
        else
          upd_chatMessages (fun prev =>
            prev ++ [ai_message "Sorry, I couldn't process that request." None])
    | Threw =>
        console_error "Modify error:" ;;
        upd_chatMessages (fun prev =>
          prev ++ [ai_message "Error contacting AI server." None])
    end ;;
    setIsModifying false.

(** [fetchResumeData(resumeId)], called once from the initialisation
    effect. *)
Definition fetchResumeData (resumeId : string) (ans : Answer SelectResult)
    (previewAns : Answer Blob) : Act unit :=
  r <- render ;;
  match ans with
  | Returned res =>
      if sel_error res then console_error "Error loading resume:"
      else
        match sel_data res with
        | Some data =>
            setResumeTitle (Js.or_else (title data) "Untitled Resume") ;;
            match html_content data with
            | Some h =>
                if Js.truthy h && (50 <? Z.of_nat (String.length h)) then
                  setHtmlCode h ;;
                  setCodeHistory [{| vid := version data; vcode := h |}] ;;
                  setCurrentCodeVersionId (version data) ;;
                  setStep 2 ;;
                  updatePdfPreview r h previewAns
                else ret tt
            | None => ret tt
            end
        | None => ret tt
        end
  | Threw => console_error "Error loading resume:"
  end ;;
  setIsFetchingInitialData false.

End Editor.

(** ** Observations on a run of a handler *)

(** The events a handler adds to the log. *)
Definition events (m : Act unit) (s : Session) : list Event :=
  drop (length (log (world s))) (log (world (exec m s))).

(** The bodies posted to the edit service. *)
Fixpoint modify_requests (evs : list Event) : list ModifyRequest :=
  match evs with
  | [] => []
  | Api _ "/modify-resume" (ModifyBody r) :: rest => r :: modify_requests rest
  | _ :: rest => modify_requests rest
  end.

(** The [(newHtml, newVersion)] arguments of the calls to [saveResume]. *)
Fixpoint save_calls (evs : list Event) : list (string * Z) :=
  match evs with
  | [] => []
  | Called_saveResume h v _ :: rest => (h, v) :: save_calls rest
  | _ :: rest => save_calls rest
  end.

(** The arguments of the calls to [updatePdfPreview]. *)
Fixpoint preview_calls (evs : list Event) : list string :=
  match evs with
  | [] => []
  | Called_updatePdfPreview h :: rest => h :: preview_calls rest
  | _ :: rest => preview_calls rest
  end.

(** The update statements sent to the [resumes] table. *)
Fixpoint db_updates (evs : list Event) : list (string * Updates) :=
  match evs with
  | [] => []
  | DbUpdate row u :: rest => (row, u) :: db_updates rest
  | _ :: rest => db_updates rest
  end.

(** The object URLs released. *)
Fixpoint revoked (evs : list Event) : list BlobUrl :=
  match evs with
  | [] => []
  | Revoked u :: rest => u :: revoked rest
  | _ :: rest => revoked rest
  end.

(** The message [{ role: "user", content: text }]. *)
Definition user_message (text : string) : ChatMessage :=
  {| role := "user"; content := text; codeVersionId := None |}.

(** The send button and the Enter key submit only when no edit is in
    flight and the prompt is not blank; the undo button has its own guard. *)
Definition send_enabled (r : EditorState) : bool :=
  negb (isModifying r) && Js.truthy (Js.trim (userPrompt r)).

Definition input_enabled (r : EditorState) : bool := negb (isModifying r).

Definition undo_enabled (r : EditorState) : bool :=
  negb ((Js.findIndex (fun v => vid v =? currentCodeVersionId r) (codeHistory r) <=? 0)
        || isSaving r || isModifying r).

(** The preview pane shows the frame of [pdfUrl] unless a preview is being
    generated or there is no URL; the frame shows the PDF the URL still
    resolves to. *)
Definition displayed_pdf (s : Session) : option Blob :=
  if isGeneratingPreview (ui s) then None
  else match pdfUrl (ui s) with
       | Some u => blobs (world s) !! u
       | None => None
       end.

(** ** Editing sessions

    What the user can do in the editor, with the answers the services give.
    The controls are wired as in the rendered component: the prompt box
    sets [userPrompt]; the send button and the Enter key call
    [handleSendMessage] unless an edit is in flight; the undo button calls
    [handleUndo] unless it is disabled. *)

Inductive Action :=
| Typing (text : string)
| Send (ans : Answer ModifyResponse) (now : Z)
       (saveAns : Answer UpdateResult) (previewAns : Answer Blob)
| Undo (previewAns : Answer Blob) (now : Z) (saveAns : Answer UpdateResult)
| Retitle (text : string) (now : Z) (ans : Answer UpdateResult).

Definition perform (id : option string) (a : Action) : Act unit :=
  match a with
  | Typing text => setUserPrompt text
  | Send ans now saveAns previewAns =>
      r <- render ;;
      if input_enabled r then handleSendMessage id ans now saveAns previewAns
      else ret tt
  | Undo previewAns now saveAns =>
      r <- render ;;
      if undo_enabled r then handleUndo id previewAns now saveAns else ret tt
  | Retitle text now ans =>
      setResumeTitle text ;;
      handleTitleSave id now ans
  end.

Fixpoint run (id : option string) (acts : list Action) : Act unit :=
  match acts with
  | [] => ret tt
  | a :: rest => perform id a ;; run id rest
  end.

(** Choosing a file and a template in the creation step and pressing the
    generate button. *)
Definition generate (id : option string) (file : File) (tpl : Template)
    (ans : Answer ProcessResponse) (now : Z)
    (saveAns : Answer UpdateResult) (previewAns : Answer Blob) : Act unit :=
  setResumeFile (Some file) ;;
  setSelectedTemplate (Some tpl) ;;
  handleExtractAndGenerate id ans now saveAns previewAns.

(** A send that records a new version: the turn is submitted, the service
    reports success and its markup differs from the markup sent. *)
Definition accepts (r : EditorState) (a : Action) : bool :=
  match a with
  | Send (Returned d) _ _ _ =>
      send_enabled r && mr_success d
      && negb (String.eqb (mr_html_code d) (currentCode r))
  | _ => false
  end.

Fixpoint accepted_edits (id : option string) (acts : list Action) (s : Session) : nat :=
  match acts with
  | [] => 0
  | a :: rest =>
      ((if accepts (ui s) a then 1 else 0)
       + accepted_edits id rest (exec (perform id a) s))%nat
  end.

Definition is_undo (a : Action) : bool :=
  match a with Undo _ _ _ => true | _ => false end.

(** The messages a handler adds to the chat log. *)
Definition new_messages (m : Act unit) (s : Session) : list ChatMessage :=
  drop (length (chatMessages (ui s))) (chatMessages (ui (exec m s))).

(** A browser session that has not started: fresh component state, an
    empty log and no object URL alive. *)
Definition fresh (table : gmap string ResumeRow) : Session :=
  {| ui := initial_state;
     world := {| db := table; blobs := ∅; nextUrl := 0%nat; log := [] |} |}.

(** ** Vocabulary of the statements *)

(** An edit turn fails when the call throws or when the response is marked
    unsuccessful. *)
Definition turn_failed (ans : Answer ModifyResponse) : bool :=
  match ans with
  | Threw => true
  | Returned d => negb (mr_success d)
  end.

(** From [s] to [s'] the table is untouched and the log has only grown, by
    events none of which is an update statement. *)
Definition no_write (s s' : Session) : Prop :=
  db (world s') = db (world s)
  /\ exists evs, log (world s') = log (world s) ++ evs /\ db_updates evs = [].

(** The ids of the history are 1, 2, ..., and the current version is the
    last one. *)
Definition consecutive_history (r : EditorState) : Prop :=
  vid <$> codeHistory r = seqZ 1 (Z.of_nat (length (codeHistory r)))
  /\ currentCodeVersionId r = Z.of_nat (length (codeHistory r)).

(** The markup the next turn sends is the HTML the editor shows. *)
Definition in_sync (r : EditorState) : Prop := currentCode r = htmlCode r.

(** ** Sample sessions

    A stored document ["doc-1"] opened in the editor: a resume is generated
    from an uploaded file, which records version 1 and shows its preview. *)

Definition demo_row : ResumeRow :=
  {| title := Some "Untitled Resume"; html_content := Some ""; version := 1;
     updated_at := 0 |}.

Definition demo_table : gmap string ResumeRow := {[ "doc-1" := demo_row ]}.

Definition saved : Answer UpdateResult := Returned {| upd_error := false |}.

Definition edited (html reply : string) : Answer ModifyResponse :=
  Returned {| mr_success := true; mr_html_code := html; mr_reply_text := reply |}.

Definition demo_ingested : Session :=
  exec (generate (Some "doc-1")
          {| name := "jane_doe.resume.pdf" |} {| template_id := "modern-minimal" |}
          (Returned {| pr_success := true; pr_html_code := "<h1>Jane</h1>";
                       pr_extracted_data := Some "Jane Doe, engineer";
                       pr_error := None |})
          100 saved (Returned "%PDF-1"))
       (fresh demo_table).

(** The same session after the user has typed an instruction. *)
Definition demo_typed : Session :=
  exec (setUserPrompt "make the font larger") demo_ingested.

(** Two accepted edits around an undo. *)
Definition undo_then_edit : list Action :=
  [ Typing "make the font larger";
    Send (edited "<h1 class=big>Jane</h1>" "Done.") 101 saved (Returned "%PDF-2");
    Undo (Returned "%PDF-1") 102 saved;
    Typing "use a serif font";
    Send (edited "<h1 class=serif>Jane</h1>" "Done.") 103 saved (Returned "%PDF-3") ].

(** A chat that already holds seven messages when the next one is typed. *)
Definition demo_long_chat : Session :=
  exec (run (Some "doc-1")
          [ Typing "one"; Send (edited "<h1>Jane</h1>" "Which font?") 101 saved Threw;
            Typing "two"; Send (edited "<h1>Jane</h1>" "Which size?") 102 saved Threw;
            Typing "three"; Send (edited "<h1>Jane</h1>" "Which colour?") 103 saved Threw;
            Typing "four" ])
       demo_ingested.

(** A stored document whose markup is long enough to be resumed. *)
Definition stored_row : ResumeRow :=
  {| title := Some "Jane Doe";
     html_content := Some "<html><body><h1>Jane Doe</h1><p>Engineer</p></body></html>";
     version := 7; updated_at := 90 |}.

(** The sample session after its first accepted edit. *)
Definition demo_edited : Session :=
  exec (run (Some "doc-1")
          [ Typing "make the font larger";
            Send (edited "<h1 class=big>Jane</h1>" "Done.") 101 saved (Returned "%PDF-2") ])
       demo_ingested.

(** An accepted edit, a reply that leaves the markup alone, and an undo. *)
Definition edit_reply_undo : list Action :=
  [ Typing "make the font larger";
    Send (edited "<h1 class=big>Jane</h1>" "Done.") 101 saved (Returned "%PDF-2");
    Typing "looks good";
    Send (edited "<h1 class=big>Jane</h1>" "Glad you like it.") 102 saved (Returned "%PDF-2");
    Undo (Returned "%PDF-1") 103 saved ].

(** A table with that document and with one that was just created. *)
Definition stored_table : gmap string ResumeRow :=
  {[ "doc-7" := stored_row; "doc-1" := demo_row ]}.

(** A stored document with a title of its own and markup too short to be
    resumed. *)
Definition short_titled_row : ResumeRow :=
  {| title := Some "Draft of Jane"; html_content := Some "<p>Jane</p>";
     version := 1; updated_at := 80 |}.

Definition short_titled_table : gmap string ResumeRow :=
  {[ "doc-1" := short_titled_row ]}.

(** The sample session after an accepted edit, an undo and a second
    accepted edit: the history has three entries and the editor shows the
    third one, the last that was appended. *)
Definition demo_reedited : Session :=
  exec (run (Some "doc-1") undo_then_edit) demo_ingested.

(** The same session after the user has typed a remark. *)
Definition demo_reedited_typed : Session :=
  exec (setUserPrompt "thanks") demo_reedited.

(** ** Symbolic execution of the handlers *)

Ltac run_handler :=
  cbv beta iota zeta delta
    [events new_messages exec handleSendMessage handleUndo fetchResumeData
     handleExtractAndGenerate handleTitleSave updatePdfPreview saveResume
     secureApiRequest supabase_update createObjectURL revokeObjectURL
     console_error alert emit render bind ret
     setStep setIsFetchingInitialData setSelectedTemplate setResumeFile
     upd_selectedTemplate upd_resumeFile setHtmlCode setExtractedContext
     setPdfUrl setResumeTitle setChatMessages setUserPrompt setCodeHistory
     setCurrentCodeVersionId setIsProcessing setIsGenerationDone
     setIsGeneratingPreview setIsModifying setIsSaving
     upd_step upd_isFetchingInitialData upd_htmlCode upd_extractedContext
     upd_pdfUrl upd_resumeTitle upd_chatMessages upd_userPrompt
     upd_codeHistory upd_currentCodeVersionId upd_isProcessing
     upd_isGenerationDone upd_isGeneratingPreview upd_isModifying
     upd_isSaving modify_ui modify_world
     ui world db blobs nextUrl log
     step isFetchingInitialData selectedTemplate resumeFile htmlCode
     extractedContext pdfUrl resumeTitle chatMessages userPrompt codeHistory
     currentCodeVersionId isProcessing isGenerationDone isGeneratingPreview
     isModifying isSaving fst snd negb andb orb].

(** Brings the added events into the form [old ++ [e1; ...; en]] and cuts
    the old ones off. *)
Ltac new_events :=
  rewrite <- ?List.app_assoc; cbn [app]; rewrite ?drop_app_length.

(** Case analysis on everything a run of a handler still depends on. *)
Ltac split_cases :=
  repeat (run_handler;
          match goal with
          | |- context [match ?x with _ => _ end] =>
              lazymatch x with
              | context [match _ with _ => _ end] => fail
              | _ => destruct x eqn:?
              end
          end);
  run_handler.

(** Closes a goal [no_write s s'] once [s'] is computed. *)
Ltac show_no_write :=
  split;
  [ reflexivity
  | eexists; split;
    [ first [ rewrite <- ?List.app_assoc; cbn [app]; reflexivity
            | symmetry; apply app_nil_r ]
    | reflexivity ] ].

Ltac unsaved_id Hid :=
  destruct Hid as [-> | ->]; run_handler;
  change (Js.truthy "new") with true;
  change (String.eqb "new" "new") with true.

(** ** Further vocabulary: what a session keeps *)




(** The HTML shown is the snapshot of a history entry that carries the
    current version id. *)
Definition shows_recorded_snapshot (r : EditorState) : Prop :=
  In {| vid := currentCodeVersionId r; vcode := htmlCode r |} (codeHistory r).

(** No object URL is alive except the one the editor holds in [pdfUrl]. *)
Definition only_current_url_alive (s : Session) : Prop :=
  forall u, is_Some (blobs (world s) !! u) -> pdfUrl (ui s) = Some u.

(** The callers of [updatePdfPreview] start it without [await]: it runs up
    to its own [await] of the conversion call, and the rest of it runs when
    the answer arrives, possibly after another handler has run.

    [updatePdfPreview(codeToRender)] up to the [await], called from a
    handler of render [r]. *)
Definition preview_requested (r : EditorState) (codeToRender : string) : Act unit :=
  emit (Called_updatePdfPreview codeToRender) ;;
  setIsGeneratingPreview true ;;
  match pdfUrl r with
  | Some u => revokeObjectURL u
  | None => ret tt
  end ;;
  emit (Api "POST" "/preview-pdf-bytes" (PreviewBody codeToRender)).

(** [updatePdfPreview] from the answer of the conversion call on. *)
Definition preview_answered (response : Answer Blob) : Act unit :=
  match response with
  | Returned data =>
      blobUrl <- createObjectURL data ;;
      setPdfUrl (Some blobUrl)
  | Threw => console_error "Preview generation failed"
  end ;;
  setIsGeneratingPreview false.

(** Two previews in flight at once: the second is requested before the
    first is answered, and the answers arrive in the order of the
    requests. *)
Definition overlapping_previews (r1 r2 : EditorState) (code1 code2 : string)
    (ans1 ans2 : Answer Blob) : Act unit :=
  preview_requested r1 code1 ;;
  preview_requested r2 code2 ;;
  preview_answered ans1 ;;
  preview_answered ans2.

(** The undo button pressed once per element of [answers]. *)
Fixpoint undos (id : option string)
    (answers : list (Answer Blob * Z * Answer UpdateResult)) : Act unit :=
  match answers with
  | [] => ret tt
  | (previewAns, now, saveAns) :: rest =>
      handleUndo id previewAns now saveAns ;; undos id rest
  end.

(** The ids of the history are m, m+1, ..., and the current version is the
    last one. *)
Definition numbered_from (m : Z) (r : EditorState) : Prop :=
  vid <$> codeHistory r = seqZ m (Z.of_nat (length (codeHistory r)))
  /\ currentCodeVersionId r = m + Z.of_nat (length (codeHistory r)) - 1.

(** The generate button did not produce a resume: a file or a template is
    missing, the call threw, or the service reported failure. *)
Definition generation_unsuccessful (r : EditorState) (ans : Answer ProcessResponse) : Prop :=
  resumeFile r = None \/ selectedTemplate r = None
  \/ ans = Threw \/ exists d, ans = Returned d /\ pr_success d = false.

(** The alerts among the events. *)
Fixpoint alerts (evs : list Event) : list string :=
  match evs with
  | [] => []
  | Alert msg :: rest => msg :: alerts rest
  | _ :: rest => alerts rest
  end.

(** The calls to [secureApiRequest] among the events. *)
Fixpoint api_calls (evs : list Event) : list (string * string) :=
  match evs with
  | [] => []
  | Api method endpoint _ :: rest => (method, endpoint) :: api_calls rest
  | _ :: rest => api_calls rest
  end.

(** The rename action. *)
Definition is_retitle (a : Action) : bool :=
  match a with Retitle _ _ _ => true | _ => false end.

(** [s.includes(c)] for a single character. *)
Fixpoint has_char (c : ascii) (s : string) : bool :=
  match s with
  | EmptyString => false
  | String x r => Ascii.eqb x c || has_char c r
  end.

(** Loading the stored row gave nothing to resume: the call threw, the
    service reported an error, or it returned no row. *)
Definition load_failed (ans : Answer SelectResult) : Prop :=
  ans = Threw
  \/ exists res, ans = Returned res /\ (sel_error res = true \/ sel_data res = None).

(** ** The rest of the editor component *)

(** [handleDownloadPDF()]: the link the handler creates and clicks, if any.
    The link points at [pdfUrl] and names the file after the title. *)
Record DownloadLink := { href : BlobUrl; download : string }.

Definition handleDownloadPDF (r : EditorState) : option DownloadLink :=
  match pdfUrl r with
  | Some u =>
      Some {| href := u;
              download :=
                String.append (Js.or_else (Some (resumeTitle r)) "Resume") ".pdf" |}
  | None => None
  end.

(** What the click on that link saves: the file name and the PDF the URL
    resolves to, when it still resolves. *)
Definition downloaded_pdf (s : Session) : option (string * Blob) :=
  match handleDownloadPDF (ui s) with
  | Some link =>
      match blobs (world s) !! href link with
      | Some pdf => Some (download link, pdf)
      | None => None
      end
  | None => None
  end.

(** [handleOverlayComplete()], the [onComplete] of the processing overlay. *)
Definition handleOverlayComplete : Act unit :=
  setIsProcessing false ;;
  setIsGenerationDone false.

(** The generate button is disabled while processing and until a file and
    a template are chosen. *)
Definition generate_enabled (r : EditorState) : bool :=
  negb (isProcessing r
        || negb (match resumeFile r with Some _ => true | None => false end)
        || negb (match selectedTemplate r with Some _ => true | None => false end)).

(** The overlay is rendered while [isProcessing] holds. *)
Definition overlay_shown (r : EditorState) : bool := isProcessing r.

(** [getThumbnailHtml(rawHtml)] of the editor's template gallery. *)
Definition thumbnail_head : string :=
  "<!DOCTYPE html><html><head><style>body{margin:0;overflow:hidden;background:white;transform-origin:top left;}html{-webkit-font-smoothing:antialiased;}</style></head><body>".

Definition thumbnail_tail : string := "</body></html>".

Definition getThumbnailHtml (rawHtml : string) : string :=
  if negb (Js.truthy rawHtml) then ""
  else String.append thumbnail_head (String.append rawHtml thumbnail_tail).

(** *** The template gallery of the editor

    The cells [templates] and [isLoadingTemplates] and the function
    [fetchTemplates].  A template of the listing is the object the backend
    returns; the gallery adds [rawHtml] to it.  The answer to the listing
    request is [response.data.templates], absent when the field is missing;
    the answers to the raw-code requests are given by position in the
    listing.  The only event recorded is the logged error. *)

Record TemplateInfo := {
  t_id : string;
  t_name : string;
  t_description : string;
  t_category : string;
  t_filename : string;
  t_tags : list string
}.

Record GalleryTemplate := { info : TemplateInfo; rawHtml : string }.

Record Gallery := {
  templates : list GalleryTemplate;
  isLoadingTemplates : bool
}.

(** The values given to [useState]. *)
Definition initial_gallery : Gallery :=
  {| templates := []; isLoadingTemplates := true |}.

(** One element of [templateList.map(async (t) => ...)]: a failed request
    gives the template with an empty [rawHtml]. *)
Definition with_raw_code (ans : Answer string) (t : TemplateInfo) : GalleryTemplate :=
  match ans with
  | Returned contents => {| info := t; rawHtml := contents |}
  | Threw => {| info := t; rawHtml := "" |}
  end.

Definition fetchTemplates (listing : Answer (option (list TemplateInfo)))
    (raw : nat -> Answer string) (g : Gallery) : Gallery * list Event :=
  match listing with
  | Returned data =>
      let templateList := match data with Some l => l | None => [] end in
      let templatesWithContent := imap (fun i t => with_raw_code (raw i) t) templateList in
      ({| templates := templatesWithContent; isLoadingTemplates := false |}, [])
  | Threw =>
      ({| templates := templates g; isLoadingTemplates := false |},
       [ConsoleError "Failed to load templates"])
  end.

(** A click on a gallery card: [setSelectedTemplate(t)]; the editor reads
    only the id of the selected template. *)
Definition select_template (t : GalleryTemplate) : Act unit :=
  setSelectedTemplate (Some {| template_id := t_id (info t) |}).

(** *** The initialisation effect

    The page is the component state with the gallery cells and the ref
    [dataFetchedRef].  [init_effect] is the effect that depends on
    [[id, session]]; [id_changed] is the one that depends on [[id]]. *)

Record Page := {
  session : Session;
  gallery : Gallery;
  dataFetchedRef : bool
}.

Definition initial_page (table : gmap string ResumeRow) : Page :=
  {| session := fresh table; gallery := initial_gallery; dataFetchedRef := false |}.

Definition log_events (evs : list Event) : Act unit :=
  modify_world (fun w =>
    {| db := db w; blobs := blobs w; nextUrl := nextUrl w; log := log w ++ evs |}).

Definition id_changed (p : Page) : Page :=
  {| session := session p; gallery := gallery p; dataFetchedRef := false |}.

Definition init_effect (hasSession : bool) (id : option string)
    (listing : Answer (option (list TemplateInfo))) (raw : nat -> Answer string)
    (load : Answer SelectResult) (previewAns : Answer Blob) (p : Page) : Page :=
  if negb hasSession || negb (Js.truthy_opt id) || dataFetchedRef p then p
  else
    let (g, evs) := fetchTemplates listing raw (gallery p) in
    let s1 := exec (log_events evs) (session p) in
    let s2 :=
      match id with
      | Some resumeId =>
          if negb (String.eqb resumeId "new")
          then exec (fetchResumeData resumeId load previewAns) s1
          else exec (setIsFetchingInitialData false) s1
      | None => s1
      end in
    {| session := s2; gallery := g; dataFetchedRef := true |}.

(** The component shows the loading screen while [isFetchingInitialData]
    holds. *)
Definition loading_screen (p : Page) : bool := isFetchingInitialData (ui (session p)).

(** The cleanup returned by the initialisation effect: it closes over the
    [pdfUrl] of the render in which the effect ran. *)
Definition init_cleanup (r : EditorState) : Act unit :=
  match pdfUrl r with
  | Some u => revokeObjectURL u
  | None => ret tt
  end.

(** * The dashboard ([frontend/src/Dashboard.js])

    The component state ([resumes], [isLoading], [deletingId]), the table
    of stored resumes with their owners, the route the router was last sent
    to, and the console errors and alerts.  As in the editor, the answer of
    every awaited call is an argument of the handler; a statement the
    service answers without error has taken effect on the table. *)

Module Dashboard.

(** A row of the [resumes] table as the dashboard receives it. *)
Record Resume := { resume_id : string; user_id : string; row : ResumeRow }.

Record Dash := {
  resumes : list Resume;
  isLoading : bool;
  deletingId : option string;
  store : gmap string Resume;
  location : option string;
  notices : list Event
}.

(** The values given to [useState], over a table and with no navigation
    yet. *)
Definition initial (table : gmap string Resume) : Dash :=
  {| resumes := []; isLoading := true; deletingId := None;
     store := table; location := None; notices := [] |}.

Definition setResumes (f : list Resume -> list Resume) (d : Dash) : Dash :=
  {| resumes := f (resumes d); isLoading := isLoading d; deletingId := deletingId d;
     store := store d; location := location d; notices := notices d |}.

Definition setIsLoading (v : bool) (d : Dash) : Dash :=
  {| resumes := resumes d; isLoading := v; deletingId := deletingId d;
     store := store d; location := location d; notices := notices d |}.

Definition setDeletingId (v : option string) (d : Dash) : Dash :=
  {| resumes := resumes d; isLoading := isLoading d; deletingId := v;
     store := store d; location := location d; notices := notices d |}.

Definition with_store (f : gmap string Resume -> gmap string Resume) (d : Dash) : Dash :=
  {| resumes := resumes d; isLoading := isLoading d; deletingId := deletingId d;
     store := f (store d); location := location d; notices := notices d |}.

Definition navigate (path : string) (d : Dash) : Dash :=
  {| resumes := resumes d; isLoading := isLoading d; deletingId := deletingId d;
     store := store d; location := Some path; notices := notices d |}.

Definition notice (e : Event) (d : Dash) : Dash :=
  {| resumes := resumes d; isLoading := isLoading d; deletingId := deletingId d;
     store := store d; location := location d; notices := notices d ++ [e] |}.

(** What the awaited statements destructure into. *)
Record SelectManyResult := { many_data : option (list Resume); many_error : bool }.
Record InsertResult := { ins_data : option (list Resume); ins_error : option string }.
Record DeleteResult := { del_error : bool }.

(** [fetchResumes()]. *)
Definition fetchResumes (ans : Answer SelectManyResult) (d : Dash) : Dash :=
  let d1 := setIsLoading true d in
  let d2 :=
    match ans with
    | Returned res =>
        if many_error res then notice (ConsoleError "Error fetching resumes:") d1
        else setResumes (fun _ => match many_data res with Some l => l | None => [] end) d1
    | Threw => notice (ConsoleError "Unexpected error:") d1
    end in
  setIsLoading false d2.

(** The row [createNewResume] asks the service to insert for [user]; the
    service adds the id and the timestamp. *)
Definition requested_row (now : Z) : ResumeRow :=
  {| title := Some "Untitled Resume"; html_content := Some ""; version := 1;
     updated_at := now |}.

(** The insert has taken effect when it is answered without error: the
    rows it returns are in the table. *)
Definition supabase_insert (res : InsertResult) (d : Dash) : Dash :=
  match ins_error res, ins_data res with
  | None, Some rows =>
      with_store (fun m => foldr (fun r acc => <[resume_id r := r]> acc) m rows) d
  | _, _ => d
  end.

(** [createNewResume()]. *)
Definition createNewResume (ans : Answer InsertResult) (d : Dash) : Dash :=
  match ans with
  | Returned res =>
      let d1 := supabase_insert res d in
      match ins_error res with
      | Some message =>
          notice (Alert (String.append "Failed to create document: " message))
            (notice (ConsoleError "Supabase Error:") d1)
      | None =>
          match ins_data res with
          | Some (r :: _) => navigate (String.append "/editor/" (resume_id r)) d1
          | _ =>
              (* [data[0].id] throws and the outer [catch] takes over *)
              notice (Alert "An unexpected error occurred.")
                (notice (ConsoleError "Unexpected error:") d1)
          end
      end
  | Threw =>
      notice (Alert "An unexpected error occurred.")
        (notice (ConsoleError "Unexpected error:") d)
  end.

(** [handleDeleteResume(e, resumeId)]; [confirmed] is the answer of
    [window.confirm]. *)
Definition handleDeleteResume (confirmed : bool) (resumeId : string)
    (ans : Answer DeleteResult) (d : Dash) : Dash :=
  if negb confirmed then d
  else
    let d1 := setDeletingId (Some resumeId) d in
    let d2 :=
      match ans with
      | Returned res =>
          if negb (del_error res) then
            setResumes
              (List.filter (fun r => negb (String.eqb (resume_id r) resumeId)))
              (with_store (delete resumeId) d1)
          else
            notice (Alert "Failed to delete resume.")
              (notice (ConsoleError "Delete error:") d1)
      | Threw => notice (ConsoleError "Unexpected error:") d1
      end in
    setDeletingId None d2.

(** [getThumbnailHtml(html)] of the dashboard, and what a card shows: the
    thumbnail frame when the resume has markup, the placeholder icon
    otherwise. *)
Definition getThumbnailHtml (html : string) : string :=
  String.append
    "<!DOCTYPE html><html><head><style>body{margin:0;overflow:hidden;background:white;}</style></head><body>"
    (String.append html "</body></html>").

Definition card_thumbnail (r : Resume) : option string :=
  match html_content (row r) with
  | Some html => if Js.truthy html then Some (getThumbnailHtml html) else None
  | None => None
  end.

(** [resume.title || "Untitled"] on a card. *)
Definition card_title (r : Resume) : string := Js.or_else (title (row r)) "Untitled".

(** Every listed resume is a row of the table. *)
Definition listed_in_store (d : Dash) : Prop :=
  forall r, In r (resumes d) -> store d !! resume_id r = Some r.

(** The table as the editor sees it. *)
Definition editor_table (d : Dash) : gmap string ResumeRow := row <$> store d.

End Dashboard.

(** * The template library ([frontend/src/TemplateLibrary.js]) *)

(** The string methods its filter uses. *)
Module JsText.

(** [toLowerCase] on one code unit below 256: the letters A-Z and the
    Latin-1 capitals (192-222 except the multiplication sign 215) move up
    by 32. *)
Definition lower_char (c : ascii) : ascii :=
  let n := N_of_ascii c in
  if (((65 <=? n) && (n <=? 90))
      || ((192 <=? n) && (n <=? 222) && negb (n =? 215)))%N
  then ascii_of_N (n + 32)
  else c.

Fixpoint toLowerCase (s : string) : string :=
  match s with
  | EmptyString => EmptyString
  | String c r => String (lower_char c) (toLowerCase r)
  end.

(** [s.includes(needle)]: [needle] starts at some position of [s]. *)
Fixpoint includes (s needle : string) : bool :=
  String.prefix needle s
  || match s with
     | EmptyString => false
     | String _ r => includes r needle
     end.

End JsText.

Module TemplateLibrary.

Record Template := {
  id : string;
  name : string;
  description : string;
  category : string;
  thumbnailUrl : string;
  tags : list string
}.

(** The [useState] cells; [templates] is absent when [setTemplates] was
    given [undefined]. *)
Record State := {
  templates : option (list Template);
  loading : bool;
  searchTerm : string;
  filterCategory : string;
  hoveredTemplate : option string
}.

Definition initial : State :=
  {| templates := Some []; loading := true; searchTerm := "";
     filterCategory := "all"; hoveredTemplate := None |}.

Definition getMockTemplates : list Template :=
  [ {| id := "modern-minimal"; name := "Modern Minimal";
       description := "Clean design with ample whitespace"; category := "modern";
       thumbnailUrl := "/thumbnails/modern-minimal.svg";
       tags := ["minimal"; "tech"; "startup"] |};
    {| id := "executive-serif"; name := "Executive Serif";
       description := "Traditional and authoritative"; category := "professional";
       thumbnailUrl := "/thumbnails/executive-serif.svg";
       tags := ["corporate"; "executive"; "finance"] |};
    {| id := "creative-grid"; name := "Creative Grid";
       description := "Bold layout for creative professionals"; category := "creative";
       thumbnailUrl := "/thumbnails/creative-grid.svg";
       tags := ["design"; "portfolio"; "creative"] |};
    {| id := "academic-classic"; name := "Academic Classic";
       description := "Perfect for research and academia"; category := "academic";
       thumbnailUrl := "/thumbnails/academic-classic.svg";
       tags := ["academic"; "research"; "university"] |};
    {| id := "tech-sidebar"; name := "Tech Sidebar";
       description := "Two-column with skills highlight"; category := "modern";
       thumbnailUrl := "/thumbnails/tech-sidebar.svg";
       tags := ["tech"; "developer"; "engineer"] |};
    {| id := "elegant-serif"; name := "Elegant Serif";
       description := "Sophisticated serif typography"; category := "professional";
       thumbnailUrl := "/thumbnails/elegant-serif.svg";
       tags := ["law"; "consulting"; "professional"] |} ].

(** The options of the category filter: id and label. *)
Definition categories : list (string * string) :=
  [ ("all", "All Templates"); ("modern", "Modern"); ("professional", "Professional");
    ("creative", "Creative"); ("academic", "Academic") ].

(** What [fetch] resolves to: the [ok] flag and what [response.json()]
    gives, the [templates] field of the parsed object (absent when the
    object has no such field). *)
Record FetchResponse := {
  ok : bool;
  json : Answer (option (list Template))
}.

(** [fetchTemplates()]; the logged error is returned beside the state. *)
Definition fetchTemplates (ans : Answer FetchResponse) (st : State) : State * list Event :=
  let fallback :=
    ({| templates := Some getMockTemplates; loading := false;
        searchTerm := searchTerm st; filterCategory := filterCategory st;
        hoveredTemplate := hoveredTemplate st |},
     [ConsoleError "Failed to fetch templates:"]) in
  match ans with
  | Returned response =>
      if negb (ok response) then fallback
      else
        match json response with
        | Returned data =>
            ({| templates := data; loading := false;
                searchTerm := searchTerm st; filterCategory := filterCategory st;
                hoveredTemplate := hoveredTemplate st |}, [])
        | Threw => fallback
        end
  | Threw => fallback
  end.

(** The search box and the category menu. *)
Definition setSearchTerm (v : string) (st : State) : State :=
  {| templates := templates st; loading := loading st; searchTerm := v;
     filterCategory := filterCategory st; hoveredTemplate := hoveredTemplate st |}.

Definition setFilterCategory (v : string) (st : State) : State :=
  {| templates := templates st; loading := loading st; searchTerm := searchTerm st;
     filterCategory := v; hoveredTemplate := hoveredTemplate st |}.

(** The predicate of [templates.filter(...)]. *)
Definition matches (st : State) (template : Template) : bool :=
  let matchesSearch :=
    JsText.includes (JsText.toLowerCase (name template))
                    (JsText.toLowerCase (searchTerm st))
    || JsText.includes (JsText.toLowerCase (description template))
                       (JsText.toLowerCase (searchTerm st)) in
  let matchesCategory :=
    String.eqb (filterCategory st) "all"
    || String.eqb (category template) (filterCategory st) in
  matchesSearch && matchesCategory.

(** [filteredTemplates], computed at every render: calling [filter] on an
    absent list throws. *)
Definition filteredTemplates (st : State) : option (list Template) :=
  match templates st with
  | Some l => Some (List.filter (matches st) l)
  | None => None
  end.

(** The first three tags shown on a card: [template.tags.slice(0, 3)]. *)
Definition shown_tags (template : Template) : list string := take 3 (tags template).

(** [needle] occurs in [s], whatever the letter case of either. *)
Definition occurs_ignoring_case (needle s : string) : Prop :=
  exists before after,
    JsText.toLowerCase s
    = String.append before (String.append (JsText.toLowerCase needle) after).

End TemplateLibrary.

(** * Further sample inputs *)

(** The sample session with a prompt of white space only. *)
Definition demo_blank : Session := exec (setUserPrompt "   ") demo_ingested.

(** The sample session after its first edit, back in the creation step with
    another file and template chosen. *)
Definition demo_chosen : Session :=
  exec (setResumeFile (Some {| name := "john_smith.docx" |}) ;;
        setSelectedTemplate (Some {| template_id := "executive-serif" |}))
       demo_edited.

Definition regenerated : ProcessResponse :=
  {| pr_success := true; pr_html_code := "<h1>John</h1>";
     pr_extracted_data := None; pr_error := None |}.

(** The sample session with a new title typed. *)
Definition demo_retitled : Session := exec (setResumeTitle "Jane Doe CV") demo_ingested.

(** The row the sample generation has stored. *)
Definition generated_row : ResumeRow :=
  {| title := Some "jane doe.resume"; html_content := Some "<h1>Jane</h1>";
     version := 1; updated_at := 100 |}.

(** Three presses of the undo button. *)
Definition three_undos : list (Answer Blob * Z * Answer UpdateResult) :=
  [ (Returned "%PDF-1", 102, saved); (Threw, 103, saved); (Threw, 104, saved) ].

(** An instruction and its accepted answer. *)
Definition one_edit : list Action :=
  [ Typing "add a summary";
    Send (edited "<html><body><h1>Jane Doe</h1><p>Summary</p></body></html>" "Added.")
         95 saved (Returned "%PDF-8") ].

(** A row a service could return for a newly created document. *)
Definition created_resume : Dashboard.Resume :=
  {| Dashboard.resume_id := "doc-9"; Dashboard.user_id := "user-1";
     Dashboard.row := Dashboard.requested_row 50 |}.

(** A dashboard that lists two stored resumes. *)
Definition demo_dashboard : Dashboard.Dash :=
  Dashboard.fetchResumes
    (Returned {| Dashboard.many_data :=
                   Some [ {| Dashboard.resume_id := "doc-7"; Dashboard.user_id := "user-1";
                             Dashboard.row := stored_row |};
                          {| Dashboard.resume_id := "doc-1"; Dashboard.user_id := "user-1";
                             Dashboard.row := demo_row |} ];
                 Dashboard.many_error := false |})
    (Dashboard.initial
       {[ "doc-7" := {| Dashboard.resume_id := "doc-7"; Dashboard.user_id := "user-1";
                        Dashboard.row := stored_row |};
          "doc-1" := {| Dashboard.resume_id := "doc-1"; Dashboard.user_id := "user-1";
                        Dashboard.row := demo_row |} ]}).

(** The library showing its built-in templates, searched for "SERIF" among
    the professional ones; and the same library without any filter. *)
Definition demo_library : TemplateLibrary.State :=
  {| TemplateLibrary.templates := Some TemplateLibrary.getMockTemplates;
     TemplateLibrary.loading := false;
     TemplateLibrary.searchTerm := "SERIF";
     TemplateLibrary.filterCategory := "professional";
     TemplateLibrary.hoveredTemplate := None |}.

Definition demo_library_unfiltered : TemplateLibrary.State :=
  fst (TemplateLibrary.fetchTemplates Threw TemplateLibrary.initial).

(** ** Facts about the JavaScript primitives *)

Lemma slice_from_last (A : Type) (n : nat) (l : list A) :
  Js.slice_from (- Z.of_nat (S n)) l = drop (length l - S n) l.
Proof.
  unfold Js.slice_from.
  destruct (Z.ltb_spec (- Z.of_nat (S n)) 0) as [_|Hge]; [|lia].
  f_equal. lia.
Qed.

Lemma slice_from_last_length (A : Type) (n : nat) (l : list A) :
  length (Js.slice_from (- Z.of_nat (S n)) l) = Nat.min (S n) (length l).
Proof. rewrite slice_from_last, length_drop. lia. Qed.

Lemma slice_from_suffix (A : Type) (k : Z) (l : list A) :
  Js.slice_from k l `suffix_of` l.
Proof. unfold Js.slice_from. apply suffix_drop. Qed.

Lemma findIndex_from_range (A : Type) (p : A -> bool) (l : list A) (i : Z) :
  0 <= i ->
  Js.findIndex_from p i l = -1
  \/ (i <= Js.findIndex_from p i l < i + Z.of_nat (length l)).
Proof.
  revert i. induction l as [|x l IH]; intros i Hi; cbn [Js.findIndex_from].
  - now left.
  - destruct (p x).
    + right. cbn [length]. lia.
    + destruct (IH (i + 1)) as [->|Hr]; [lia | now left |].
      right. cbn [length]. lia.
Qed.

Lemma findIndex_from_spec (A : Type) (p : A -> bool) (l : list A) (i j : Z) :
  0 <= i -> Js.findIndex_from p i l = j -> j <> -1 ->
  exists x, l !! Z.to_nat (j - i) = Some x /\ p x = true
            /\ forall k y, (k < Z.to_nat (j - i))%nat -> l !! k = Some y -> p y = false.
Proof.
  revert i. induction l as [|x l IH]; intros i Hi Hj Hne; cbn [Js.findIndex_from] in Hj.
  - congruence.
  - destruct (p x) eqn:Hp.
    + subst j. replace (i - i) with 0 by lia. exists x. cbn.
      repeat split; [assumption|]. intros k y Hk. lia.
    + assert (Hr := findIndex_from_range A p l (i + 1) ltac:(lia)).
      rewrite Hj in Hr. destruct Hr as [Hr|Hr]; [congruence|].
      destruct (IH (i + 1) ltac:(lia) Hj Hne) as (y & Hy & Hpy & Hbefore).
      replace (Z.to_nat (j - i)) with (S (Z.to_nat (j - (i + 1)))) by lia.
      exists y. cbn. repeat split; [assumption | assumption |].
      intros [|k] z Hk Hz; cbn in Hz.
      * congruence.
      * apply (Hbefore k z); [lia | assumption].
Qed.

(** ** The conversational edit loop *)

(** The first event of a submitted turn is the request to the edit service,
    and the turn posts nothing else to that endpoint. *)
Lemma handleSendMessage_one_request (id : option string) (s : Session)
    (ans : Answer ModifyResponse) (now : Z)
    (saveAns : Answer UpdateResult) (previewAns : Answer Blob) :
  Js.truthy (Js.trim (userPrompt (ui s))) = true ->
  modify_requests (events (handleSendMessage id ans now saveAns previewAns) s)
  = [ {| rq_html_code := currentCode (ui s);
         rq_prompt := userPrompt (ui s);
         rq_history :=
           Js.slice_from (-5)
             (history_item <$> (chatMessages (ui s) ++ [user_message (userPrompt (ui s))]));
         rq_extracted_data := extractedContext (ui s) |} ].
Proof.
  run_handler. intros Hprompt. rewrite Hprompt.
  split_cases; new_events; reflexivity.
Qed.

(** C8: the [history] field of the request of a submitted turn is the
    conversation so far cut to its last five elements.  The conversation
    is the role and the text of every message of the chat log, in order,
    followed by the role ["user"] and the text that was typed; the request
    carries, as [{role, content}] pairs, the suffix of that list of length
    min(5, number of messages). *)
Theorem C8_request_history_is_last_five (id : option string) (s : Session)
    (ans : Answer ModifyResponse) (now : Z)
    (saveAns : Answer UpdateResult) (previewAns : Answer Blob) :
  Js.truthy (Js.trim (userPrompt (ui s))) = true ->
  let conversation : list (string * string) :=
    ((fun m => (role m, content m)) <$> chatMessages (ui s))
    ++ [("user", userPrompt (ui s))] in
  exists req,
    modify_requests (events (handleSendMessage id ans now saveAns previewAns) s) = [req]
    /\ (fun h => (h_role h, h_content h)) <$> rq_history req
       = drop (length conversation - 5) conversation
    /\ length (rq_history req) = Nat.min 5 (length conversation)
    /\ (length (rq_history req) <= 5)%nat
    /\ ((fun h => (h_role h, h_content h)) <$> rq_history req) `suffix_of` conversation.
Proof.
  intros Hprompt conversation.
  eexists. split; [apply handleSendMessage_one_request; assumption|].
  cbn [rq_history].
  change (-5) with (- Z.of_nat 5).
  rewrite slice_from_last_length, slice_from_last.
  assert (Hpairs :
    (fun h => (h_role h, h_content h))
      <$> (history_item <$> (chatMessages (ui s) ++ [user_message (userPrompt (ui s))]))
    = conversation).
  { rewrite <- list_fmap_compose, fmap_app. reflexivity. }
  rewrite fmap_drop, Hpairs.
  assert (Hlen :
    length (history_item <$> (chatMessages (ui s) ++ [user_message (userPrompt (ui s))]))
    = length conversation).
  { rewrite <- Hpairs, !length_fmap. reflexivity. }
  rewrite Hlen.
  repeat split; [lia | apply suffix_drop].
Qed.

(** C4: a submitted turn whose call throws or whose response is marked
    unsuccessful appends the user message and one assistant message that
    reports the failure; the current version id, the version history, the
    current HTML and the stored rows are as before; the edit service was
    called once, and neither a save nor a preview was started. *)
Theorem C4_failed_turn_leaves_document (id : option string) (s : Session)
    (ans : Answer ModifyResponse) (now : Z)
    (saveAns : Answer UpdateResult) (previewAns : Answer Blob) :
  Js.truthy (Js.trim (userPrompt (ui s))) = true ->
  turn_failed ans = true ->
  let turn := handleSendMessage id ans now saveAns previewAns in
  let s' := exec turn s in
  chatMessages (ui s')
  = chatMessages (ui s)
    ++ [ user_message (userPrompt (ui s));
         {| role := "ai";
            content := match ans with
                       | Threw => "Error contacting AI server."
                       | Returned _ => "Sorry, I couldn't process that request."
                       end;
            codeVersionId := None |} ]
  /\ currentCodeVersionId (ui s') = currentCodeVersionId (ui s)
  /\ codeHistory (ui s') = codeHistory (ui s)
  /\ htmlCode (ui s') = htmlCode (ui s)
  /\ db (world s') = db (world s)
  /\ length (modify_requests (events turn s)) = 1%nat
  /\ save_calls (events turn s) = []
  /\ preview_calls (events turn s) = []
  /\ db_updates (events turn s) = []
  /\ isModifying (ui s') = false.
Proof.
  unfold turn_failed. run_handler. intros Hprompt Hfailed. rewrite Hprompt.
  destruct ans as [|d]; [|destruct (mr_success d); [discriminate|]];
    run_handler; new_events;
    repeat split; rewrite <- ?List.app_assoc; reflexivity.
Qed.

(** What the handler compares the answer with is the markup it sent,
    [currentCode].  When a submitted turn succeeds with markup equal to
    that, no version is appended, the current version id and HTML stay,
    no save and no preview are started, nothing is written to the table,
    and the reply is appended to the chat log with the unchanged current
    version id. *)
Lemma unchanged_sent_markup_is_a_reply_only (id : option string) (s : Session)
    (d : ModifyResponse) (now : Z)
    (saveAns : Answer UpdateResult) (previewAns : Answer Blob) :
  Js.truthy (Js.trim (userPrompt (ui s))) = true ->
  mr_success d = true ->
  mr_html_code d = currentCode (ui s) ->
  let turn := handleSendMessage id (Returned d) now saveAns previewAns in
  let s' := exec turn s in
  codeHistory (ui s') = codeHistory (ui s)
  /\ currentCodeVersionId (ui s') = currentCodeVersionId (ui s)
  /\ htmlCode (ui s') = htmlCode (ui s)
  /\ save_calls (events turn s) = []
  /\ preview_calls (events turn s) = []
  /\ db_updates (events turn s) = []
  /\ db (world s') = db (world s)
  /\ pdfUrl (ui s') = pdfUrl (ui s)
  /\ blobs (world s') = blobs (world s)
  /\ chatMessages (ui s')
     = chatMessages (ui s)
       ++ [ user_message (userPrompt (ui s));
            {| role := "ai"; content := mr_reply_text d;
               codeVersionId := Some (currentCodeVersionId (ui s)) |} ].
Proof.
  run_handler. intros Hprompt Hsuccess Hsame.
  rewrite Hprompt, Hsuccess, Hsame, String.eqb_refl.
  run_handler; new_events.
  repeat split; rewrite <- ?List.app_assoc; reflexivity.
Qed.

(** In a state where the markup sent is the HTML shown, the same holds of
    an answer equal to the HTML shown. *)
Lemma unchanged_shown_markup_is_a_reply_only (id : option string) (s : Session)
    (d : ModifyResponse) (now : Z)
    (saveAns : Answer UpdateResult) (previewAns : Answer Blob) :
  in_sync (ui s) ->
  Js.truthy (Js.trim (userPrompt (ui s))) = true ->
  mr_success d = true ->
  mr_html_code d = htmlCode (ui s) ->
  let turn := handleSendMessage id (Returned d) now saveAns previewAns in
  let s' := exec turn s in
  codeHistory (ui s') = codeHistory (ui s)
  /\ currentCodeVersionId (ui s') = currentCodeVersionId (ui s)
  /\ htmlCode (ui s') = htmlCode (ui s)
  /\ save_calls (events turn s) = []
  /\ preview_calls (events turn s) = []
  /\ db_updates (events turn s) = []
  /\ chatMessages (ui s')
     = chatMessages (ui s)
       ++ [ user_message (userPrompt (ui s));
            {| role := "ai"; content := mr_reply_text d;
               codeVersionId := Some (currentCodeVersionId (ui s)) |} ].
Proof.
  intros Hsync Hprompt Hsuccess Hsame.
  assert (Hsent : mr_html_code d = currentCode (ui s))
    by (rewrite Hsame; symmetry; exact Hsync).
  destruct (unchanged_sent_markup_is_a_reply_only id s d now saveAns previewAns
              Hprompt Hsuccess Hsent)
    as (Hhist & Hcur & Hhtml & Hsave & Hpreview & Hupd & _ & _ & _ & Hchat).
  repeat split; assumption.
Qed.

(** C7: when a submitted turn succeeds with markup that differs from the
    markup sent, the entry appended to the history pairs the new markup
    with the current version id plus one, that entry becomes current, and
    [saveResume] is called once, with exactly that pair; every update the
    turn sends to the table carries that markup and that version.  For a
    stored document whose update is answered there is exactly one such
    update, and when it is answered without error the stored row is
    rewritten with that pair. *)
Theorem C7_save_gets_the_appended_pair (id : option string) (s : Session)
    (d : ModifyResponse) (now : Z)
    (saveAns : Answer UpdateResult) (previewAns : Answer Blob) :
  Js.truthy (Js.trim (userPrompt (ui s))) = true ->
  mr_success d = true ->
  mr_html_code d <> currentCode (ui s) ->
  let turn := handleSendMessage id (Returned d) now saveAns previewAns in
  let s' := exec turn s in
  let appended :=
    {| vid := currentCodeVersionId (ui s) + 1; vcode := mr_html_code d |} in
  let update :=
    {| u_html_content := Some (vcode appended); u_version := Some (vid appended);
       u_updated_at := now; u_title := None |} in
  codeHistory (ui s') = codeHistory (ui s) ++ [appended]
  /\ currentCodeVersionId (ui s') = vid appended
  /\ htmlCode (ui s') = vcode appended
  /\ save_calls (events turn s) = [(vcode appended, vid appended)]
  /\ preview_calls (events turn s) = [vcode appended]
  /\ Forall (fun x => u_html_content (snd x) = Some (vcode appended)
                      /\ u_version (snd x) = Some (vid appended))
            (db_updates (events turn s))
  /\ (forall row res,
        id = Some row -> Js.truthy row = true -> row <> "new" ->
        saveAns = Returned res ->
        db_updates (events turn s) = [(row, update)])
  /\ (forall row,
        id = Some row -> Js.truthy row = true -> row <> "new" ->
        saveAns = Returned {| upd_error := false |} ->
        db (world s') = alter (apply_updates update) row (db (world s))).
Proof.
  run_handler. intros Hprompt Hsuccess Hdiffers.
  apply String.eqb_neq in Hdiffers.
  rewrite Hprompt, Hsuccess, Hdiffers.
  split_cases; new_events;
    do 5 (split; [reflexivity|]);
    (split; [solve [repeat constructor]|]);
    (split;
     [ intros row res Hid Hrow Hnew Hans
     | intros row Hid Hrow Hnew Hans ]);
    first [ discriminate Hid | injection Hid as -> ];
    try congruence;
    try (exfalso; apply Hnew, String.eqb_eq; assumption);
    first [ discriminate Hans | injection Hans as -> ];
    first [ reflexivity | discriminate ].
Qed.

(** C3 (as amended): a submitted turn adds two messages, the user's and one
    assistant message.  The user's message carries no version id.  The
    assistant message carries the version id that is current after the
    turn when the turn succeeded, and none when it failed. *)
Theorem C3_only_successful_replies_carry_a_version (id : option string) (s : Session)
    (ans : Answer ModifyResponse) (now : Z)
    (saveAns : Answer UpdateResult) (previewAns : Answer Blob) :
  Js.truthy (Js.trim (userPrompt (ui s))) = true ->
  let turn := handleSendMessage id ans now saveAns previewAns in
  let s' := exec turn s in
  exists reply,
    new_messages turn s = [user_message (userPrompt (ui s)); reply]
    /\ codeVersionId (user_message (userPrompt (ui s))) = None
    /\ role reply = "ai"
    /\ codeVersionId reply
       = if turn_failed ans then None else Some (currentCodeVersionId (ui s')).
Proof.
  unfold turn_failed. run_handler. intros Hprompt. rewrite Hprompt.
  split_cases; eexists;
    (split; [rewrite <- ?List.app_assoc; cbn [app]; rewrite drop_app_length; reflexivity|]);
    repeat split; reflexivity.
Qed.

(** ** Undo *)

Lemma index_nonneg (A : Type) (l : list A) (j : Z) :
  0 <= j -> Js.index l j = l !! Z.to_nat j.
Proof.
  intros Hj. unfold Js.index.
  destruct (Z.ltb_spec j 0); [lia | reflexivity].
Qed.

(** A positive result of [findIndex] has an element right before it. *)
Lemma findIndex_positive_has_previous (A : Type) (p : A -> bool) (l : list A) :
  0 < Js.findIndex p l ->
  exists prev, Js.index l (Js.findIndex p l - 1) = Some prev.
Proof.
  intros Hpos. unfold Js.findIndex in *.
  destruct (findIndex_from_range A p l 0 ltac:(lia)) as [Hnone|Hrange]; [lia|].
  rewrite index_nonneg by lia.
  apply lookup_lt_is_Some. lia.
Qed.

(** The handler takes as position of the pointer the first entry that
    carries the current version id.  When that position is after the
    first, undo makes the entry right before it current:
    its snapshot becomes the current HTML and its id the current version
    id, the history itself stays, the preview is started once, from that
    snapshot, and [saveResume] is called once, with that entry's snapshot
    and id; every update sent to the table carries that pair.  When that
    position is the first one (or no entry is found), undo changes
    nothing at all. *)
Lemma handleUndo_steps_back_or_does_nothing (id : option string) (s : Session)
    (previewAns : Answer Blob) (now : Z) (saveAns : Answer UpdateResult) :
  let i :=
    Js.findIndex (fun v => vid v =? currentCodeVersionId (ui s)) (codeHistory (ui s)) in
  let undo := handleUndo id previewAns now saveAns in
  let s' := exec undo s in
  (0 < i ->
   exists prev,
     codeHistory (ui s) !! Z.to_nat (i - 1) = Some prev
     /\ htmlCode (ui s') = vcode prev
     /\ currentCodeVersionId (ui s') = vid prev
     /\ codeHistory (ui s') = codeHistory (ui s)
     /\ preview_calls (events undo s) = [vcode prev]
     /\ In (Api "POST" "/preview-pdf-bytes" (PreviewBody (vcode prev))) (events undo s)
     /\ save_calls (events undo s) = [(vcode prev, vid prev)]
     /\ Forall (fun x => u_html_content (snd x) = Some (vcode prev)
                         /\ u_version (snd x) = Some (vid prev))
               (db_updates (events undo s)))
  /\ (i <= 0 -> s' = s).
Proof.
  destruct s as [[] []]. run_handler. split.
  - intros Hpos.
    destruct (findIndex_positive_has_previous _ _ _ Hpos) as [prev Hprev].
    exists prev. rewrite Hprev.
    split; [rewrite <- Hprev; symmetry; apply index_nonneg; lia|].
    apply Z.ltb_lt in Hpos. rewrite Hpos.
    split_cases; new_events;
      repeat split;
      first [ reflexivity | solve [repeat constructor] | cbn [In]; tauto ].
  - intros Hfirst.
    destruct (Z.ltb_spec 0
      (Js.findIndex (fun item => vid item =? currentCodeVersionId0) codeHistory0));
      [lia | reflexivity].
Qed.

(** ** Resuming a stored document *)

Lemma long_string_truthy (h : string) :
  (50 < String.length h)%nat -> Js.truthy h = true.
Proof. destruct h; cbn; [lia | reflexivity]. Qed.

(** C9: when the stored row of the document is loaded, its title is
    loaded whatever the markup is: a stored title that is not empty becomes
    the title of the editor, and a row without title, or with the empty
    title, gives "Untitled Resume".  If the stored markup is
    longer than 50 characters, the history becomes the single entry made of
    the stored version and the stored markup, that entry is current, the
    editor moves to the editing step and exactly one preview is started,
    from the stored markup.  Otherwise the history, the current version,
    the HTML and the step are as before, and no preview is started; in a
    freshly opened editor that is the creation step with an empty
    history. *)
Theorem C9_resume_by_length_heuristic (resumeId : string) (s : Session)
    (data : ResumeRow) (previewAns : Answer Blob) :
  let load :=
    fetchResumeData resumeId
      (Returned {| sel_data := Some data; sel_error := false |}) previewAns in
  let s' := exec load s in
  resumeTitle (ui s') = Js.or_else (title data) "Untitled Resume"
  /\ (forall t, title data = Some t -> t <> "" -> resumeTitle (ui s') = t)
  /\ (title data = None \/ title data = Some "" ->
      resumeTitle (ui s') = "Untitled Resume")
  /\ isFetchingInitialData (ui s') = false
  /\ (forall h,
        html_content data = Some h -> (50 < String.length h)%nat ->
        codeHistory (ui s') = [{| vid := version data; vcode := h |}]
        /\ currentCodeVersionId (ui s') = version data
        /\ htmlCode (ui s') = h
        /\ step (ui s') = 2
        /\ preview_calls (events load s) = [h])
  /\ ((forall h, html_content data = Some h -> (String.length h <= 50)%nat) ->
        codeHistory (ui s') = codeHistory (ui s)
        /\ currentCodeVersionId (ui s') = currentCodeVersionId (ui s)
        /\ htmlCode (ui s') = htmlCode (ui s)
        /\ step (ui s') = step (ui s)
        /\ pdfUrl (ui s') = pdfUrl (ui s)
        /\ preview_calls (events load s) = []
        /\ (ui s = initial_state -> step (ui s') = 1 /\ codeHistory (ui s') = [])).
Proof.
  destruct s as [[] []]. run_handler. cbn [sel_error sel_data]. run_handler.
  assert (Hfresh : forall (r : EditorState) (n : Z) (l : list VersionEntry),
            step r = n -> codeHistory r = l ->
            r = initial_state -> n = 1 /\ l = []).
  { intros r n l <- <- ->. split; reflexivity. }
  assert (Hstored : forall t, title data = Some t -> t <> "" ->
            Js.or_else (title data) "Untitled Resume" = t).
  { intros t -> Ht. destruct t; [contradiction | reflexivity]. }
  assert (Hdefault : title data = None \/ title data = Some "" ->
            Js.or_else (title data) "Untitled Resume" = "Untitled Resume").
  { intros [ -> | -> ]; reflexivity. }
  destruct (html_content data) as [h|] eqn:Hhtml; run_handler.
  - destruct (Z.ltb_spec 50 (Z.of_nat (String.length h))) as [Hlong|Hshort].
    + rewrite (long_string_truthy h) by lia.
      split_cases; new_events;
        (split; [reflexivity|]); (split; [exact Hstored|]);
        (split; [exact Hdefault|]); (split; [reflexivity|]);
        (split;
         [ intros h' Hh' Hlen; inversion Hh'; subst h'; repeat split; reflexivity
         | intros Hall; specialize (Hall h eq_refl); lia ]).
    + destruct (Js.truthy h); run_handler; new_events;
        (split; [reflexivity|]); (split; [exact Hstored|]);
        (split; [exact Hdefault|]); (split; [reflexivity|]);
        (split;
         [ intros h' Hh' Hlen; inversion Hh'; subst h'; lia
         | intros _; rewrite drop_all;
           repeat (split; [reflexivity|]); apply Hfresh; reflexivity ]).
  - new_events.
    (split; [reflexivity|]); (split; [exact Hstored|]);
      (split; [exact Hdefault|]); (split; [reflexivity|]);
      (split;
       [ intros h' Hh' Hlen; discriminate
       | intros _; rewrite drop_all;
         repeat (split; [reflexivity|]); apply Hfresh; reflexivity ]).
Qed.

(** ** The preview renderer *)

(** C2 (as amended): when the conversion call of a preview fails, the
    editor keeps the URL of the previous preview in [pdfUrl] (it is not
    reset), clears the generating flag, logs the failure, and leaves the
    document and every control of the chat as enabled as before; the call
    is made once.  But the object URL of the previous preview, if there
    was one, is released before the call is made: the release is the event
    right before the request, and the failure is logged after it; so the
    URL no longer resolves to the previous PDF. *)
Theorem C2_failed_preview_keeps_url_but_releases_it (s : Session) (codeToRender : string) :
  let preview := updatePdfPreview (ui s) codeToRender Threw in
  let s' := exec preview s in
  pdfUrl (ui s') = pdfUrl (ui s)
  /\ isGeneratingPreview (ui s') = false
  /\ In (ConsoleError "Preview generation failed") (events preview s)
  /\ isModifying (ui s') = isModifying (ui s)
  /\ input_enabled (ui s') = input_enabled (ui s)
  /\ send_enabled (ui s') = send_enabled (ui s)
  /\ undo_enabled (ui s') = undo_enabled (ui s)
  /\ codeHistory (ui s') = codeHistory (ui s)
  /\ currentCodeVersionId (ui s') = currentCodeVersionId (ui s)
  /\ htmlCode (ui s') = htmlCode (ui s)
  /\ preview_calls (events preview s) = [codeToRender]
  /\ match pdfUrl (ui s) with
     | Some u =>
         revoked (events preview s) = [u]
         /\ blobs (world s') = delete u (blobs (world s))
         /\ blobs (world s') !! u = None
         /\ displayed_pdf s' = None
         /\ events preview s
            = [ Called_updatePdfPreview codeToRender;
                Revoked u;
                Api "POST" "/preview-pdf-bytes" (PreviewBody codeToRender);
                ConsoleError "Preview generation failed" ]
     | None =>
         revoked (events preview s) = []
         /\ blobs (world s') = blobs (world s)
         /\ events preview s
            = [ Called_updatePdfPreview codeToRender;
                Api "POST" "/preview-pdf-bytes" (PreviewBody codeToRender);
                ConsoleError "Preview generation failed" ]
     end.
Proof.
  unfold input_enabled, send_enabled, undo_enabled, displayed_pdf.
  destruct s as [[] []]. run_handler.
  destruct pdfUrl0 as [u|]; run_handler; new_events;
    repeat split; try reflexivity; try (cbn [In]; tauto);
    apply lookup_delete_eq.
Qed.

(** C2, as stated, fails: after a failed conversion the resource of the
    preview that was displayed is gone and the pane shows no PDF. *)
Lemma C2_previous_preview_is_released :
  ~ (forall (s : Session) (codeToRender : string),
       let s' := exec (updatePdfPreview (ui s) codeToRender Threw) s in
       (forall u, pdfUrl (ui s) = Some u ->
                  blobs (world s') !! u = blobs (world s) !! u)
       /\ displayed_pdf s' = displayed_pdf s).
Proof.
  intros Hclaim.
  destruct (Hclaim demo_ingested "<h1 class=big>Jane</h1>") as [Hkept _].
  specialize (Hkept 0%nat eq_refl).
  vm_compute in Hkept. discriminate Hkept.
Qed.

(** C3, as stated, fails: the user's message of a turn carries no version
    id at all. *)
Lemma C3_user_message_has_no_version :
  ~ (forall (id : option string) (s : Session) (ans : Answer ModifyResponse)
            (now : Z) (saveAns : Answer UpdateResult) (previewAns : Answer Blob)
            (m : ChatMessage),
       Js.truthy (Js.trim (userPrompt (ui s))) = true ->
       let turn := handleSendMessage id ans now saveAns previewAns in
       In m (new_messages turn s) ->
       codeVersionId m = Some (currentCodeVersionId (ui (exec turn s)))).
Proof.
  intros Hclaim.
  specialize (Hclaim (Some "doc-1") demo_typed
                (edited "<h1 class=big>Jane</h1>" "Done.") 101 saved (Returned "%PDF-2")
                (user_message "make the font larger") eq_refl).
  cbv zeta in Hclaim.
  assert (Hin : In (user_message "make the font larger")
                  (new_messages
                     (handleSendMessage (Some "doc-1")
                        (edited "<h1 class=big>Jane</h1>" "Done.") 101 saved
                        (Returned "%PDF-2")) demo_typed))
    by (vm_compute; left; reflexivity).
  specialize (Hclaim Hin). discriminate Hclaim.
Qed.

(** ** Persistence under the identifier of an unsaved document *)

Lemma db_updates_app (l l' : list Event) :
  db_updates (l ++ l') = db_updates l ++ db_updates l'.
Proof.
  induction l as [|e l IH]; [reflexivity|].
  destruct e; cbn; rewrite ?IH; reflexivity.
Qed.

Lemma no_write_refl (s : Session) : no_write s s.
Proof. split; [reflexivity|]. exists []. split; [symmetry; apply app_nil_r | reflexivity]. Qed.

Lemma no_write_trans (s1 s2 s3 : Session) :
  no_write s1 s2 -> no_write s2 s3 -> no_write s1 s3.
Proof.
  intros [Hdb1 (e1 & Hlog1 & Hq1)] [Hdb2 (e2 & Hlog2 & Hq2)]. split.
  - congruence.
  - exists (e1 ++ e2). split.
    + rewrite Hlog2, Hlog1. symmetry. apply List.app_assoc.
    + rewrite db_updates_app, Hq1, Hq2. reflexivity.
Qed.

Lemma no_write_events (m : Act unit) (s : Session) :
  no_write s (exec m s) -> db_updates (events m s) = [].
Proof.
  intros [_ (evs & Hlog & Hq)]. unfold events. rewrite Hlog, drop_app_length.
  exact Hq.
Qed.

Lemma perform_no_write (id : option string) (a : Action) (s : Session) :
  id = None \/ id = Some "new" ->
  no_write s (exec (perform id a) s).
Proof.
  intros Hid. unfold no_write, perform. destruct s as [[] []].
  destruct a; unsaved_id Hid; split_cases; show_no_write.
Qed.

Lemma run_no_write (id : option string) (acts : list Action) (s : Session) :
  id = None \/ id = Some "new" ->
  no_write s (exec (run id acts) s).
Proof.
  intros Hid. revert s. induction acts as [|a acts IH]; intros s.
  - apply no_write_refl.
  - apply (no_write_trans s (exec (perform id a) s)).
    + apply perform_no_write, Hid.
    + specialize (IH (exec (perform id a) s)).
      unfold exec in *. cbn [run]. unfold bind.
      destruct (perform id a s) as [u s1]. exact IH.
Qed.

Lemma generate_no_write (id : option string) (file : File) (tpl : Template)
    (ans : Answer ProcessResponse) (now : Z)
    (saveAns : Answer UpdateResult) (previewAns : Answer Blob) (s : Session) :
  id = None \/ id = Some "new" ->
  no_write s (exec (generate id file tpl ans now saveAns previewAns) s).
Proof.
  intros Hid. unfold no_write, generate. destruct s as [[] []].
  unsaved_id Hid; split_cases; show_no_write.
Qed.

(** C10: with no document identifier, or with the identifier ["new"],
    [saveResume] returns at once: the component state and the table are
    as before and the call leaves no event but itself (no update, no
    logged error, no alert).  Hence a whole session under such an
    identifier (generation, then any sequence of edits, undos and title
    changes) sends no update and leaves the table as it found it. *)
Theorem C10_unsaved_document_is_never_written (id : option string) :
  id = None \/ id = Some "new" ->
  (forall (s : Session) (newHtml : string) (newVersion : Z)
          (newTitle : option string) (now : Z) (ans : Answer UpdateResult),
     let save := saveResume id newHtml newVersion newTitle now ans in
     ui (exec save s) = ui s
     /\ db (world (exec save s)) = db (world s)
     /\ events save s = [Called_saveResume newHtml newVersion newTitle])
  /\ (forall (s : Session) (acts : list Action),
        db (world (exec (run id acts) s)) = db (world s)
        /\ db_updates (events (run id acts) s) = [])
  /\ (forall (s : Session) (file : File) (tpl : Template)
             (ans : Answer ProcessResponse) (now : Z)
             (saveAns : Answer UpdateResult) (previewAns : Answer Blob)
             (acts : list Action),
        let session :=
          generate id file tpl ans now saveAns previewAns ;; run id acts in
        db (world (exec session s)) = db (world s)
        /\ db_updates (events session s) = []).
Proof.
  intros Hid. split; [|split].
  - intros s newHtml newVersion newTitle now ans.
    destruct s as [[] []].
    unsaved_id Hid; new_events; repeat split; reflexivity.
  - intros s acts. pose proof (run_no_write id acts s Hid) as Hq.
    split; [apply Hq | apply no_write_events, Hq].
  - intros s file tpl ans now saveAns previewAns acts session.
    assert (Hq : no_write s (exec session s)).
    { apply (no_write_trans s
               (exec (generate id file tpl ans now saveAns previewAns) s)).
      - apply generate_no_write, Hid.
      - pose proof (run_no_write id acts
                      (exec (generate id file tpl ans now saveAns previewAns) s) Hid)
          as Hrun.
        unfold session, exec in *. unfold bind.
        destruct (generate id file tpl ans now saveAns previewAns s) as [u s1].
        exact Hrun. }
    split; [apply Hq | apply no_write_events, Hq].
Qed.

(** ** Version numbering over a session *)

(** Any action other than an undo keeps a history numbered from 1 with its
    last entry current, and lengthens it by one exactly when it is an
    accepted edit. *)
Lemma perform_keeps_consecutive (id : option string) (a : Action) (s : Session) :
  is_undo a = false ->
  consecutive_history (ui s) ->
  consecutive_history (ui (exec (perform id a) s))
  /\ length (codeHistory (ui (exec (perform id a) s)))
     = (length (codeHistory (ui s)) + (if accepts (ui s) a then 1 else 0))%nat.
Proof.
  unfold consecutive_history, perform, accepts, send_enabled, input_enabled.
  destruct s as [[] []]. destruct a; try discriminate; intros _; run_handler.
  - intros [Hids Hcur]. rewrite Nat.add_0_r. repeat split; assumption.
  - intros [Hids Hcur].
    split_cases; rewrite ?length_app, ?fmap_app; cbn [length fmap list_fmap];
      rewrite ?Nat.add_0_r, ?Nat.add_1_r, ?seqZ_S;
      repeat split; try assumption; try lia; try congruence.
    all: cbn [vid]; rewrite Hids, Hcur; f_equal; f_equal; lia.
  - intros [Hids Hcur]. split_cases; repeat split; try assumption; lia.
Qed.

(** Without undo, a history numbered from 1 stays numbered from 1 and gains
    one entry per accepted edit. *)
Lemma history_ids_without_undo (id : option string) (acts : list Action) (s : Session) :
  forallb (fun a => negb (is_undo a)) acts = true ->
  consecutive_history (ui s) ->
  let s' := exec (run id acts) s in
  let n := (length (codeHistory (ui s)) + accepted_edits id acts s)%nat in
  vid <$> codeHistory (ui s') = seqZ 1 (Z.of_nat n)
  /\ length (codeHistory (ui s')) = n.
Proof.
  revert s. induction acts as [|a acts IH]; intros s Hacts Hinv; cbn zeta.
  - cbn [accepted_edits]. rewrite Nat.add_0_r. split; [apply Hinv | reflexivity].
  - cbn [forallb] in Hacts. apply andb_prop in Hacts as [Ha Hacts].
    apply negb_true_iff in Ha.
    destruct (perform_keeps_consecutive id a s Ha Hinv) as [Hinv1 Hlen1].
    specialize (IH (exec (perform id a) s) Hacts Hinv1). cbn zeta in IH.
    cbn [accepted_edits].
    replace (exec (run id (a :: acts)) s)
      with (exec (run id acts) (exec (perform id a) s)).
    + rewrite Hlen1 in IH. rewrite Nat.add_assoc. exact IH.
    + unfold exec. cbn [run]. unfold bind.
      destruct (perform id a s) as [u s1]. reflexivity.
Qed.

(** After N accepted edits and no undo in a session that starts from a
    successful generation, the history holds N+1 entries with the ids
    1..N+1. *)
Lemma generated_history_without_undo (id : option string) (file : File)
    (tpl : Template) (d : ProcessResponse) (now : Z)
    (saveAns : Answer UpdateResult) (previewAns : Answer Blob)
    (s0 : Session) (acts : list Action) :
  pr_success d = true ->
  forallb (fun a => negb (is_undo a)) acts = true ->
  let s1 := exec (generate id file tpl (Returned d) now saveAns previewAns) s0 in
  let s' := exec (run id acts) s1 in
  let n := accepted_edits id acts s1 in
  vid <$> codeHistory (ui s') = seqZ 1 (Z.of_nat (S n))
  /\ length (codeHistory (ui s')) = S n.
Proof.
  intros Hok Hacts s1 s' n.
  assert (Hone : codeHistory (ui s1) = [{| vid := 1; vcode := pr_html_code d |}]
                 /\ currentCodeVersionId (ui s1) = 1).
  { unfold s1, generate. destruct s0 as [[] []]. run_handler. rewrite Hok.
    split_cases; split; reflexivity. }
  destruct Hone as [Hhist Hcur].
  assert (Hinv : consecutive_history (ui s1)).
  { unfold consecutive_history. rewrite Hhist, Hcur. split; reflexivity. }
  pose proof (history_ids_without_undo id acts s1 Hacts Hinv) as Hrun.
  cbn zeta in Hrun. rewrite Hhist in Hrun. exact Hrun.
Qed.

(** In a history whose other ids differ from the id of its last entry,
    looking that id up finds the last entry. *)
Lemma find_last_by_id (l : list VersionEntry) (n : Z) (c : string) :
  Forall (fun x => vid x <> n) l ->
  Js.find (fun v => vid v =? n) (l ++ [{| vid := n; vcode := c |}])
  = Some {| vid := n; vcode := c |}.
Proof.
  induction 1 as [|x l Hx _ IH]; cbn [app Js.find].
  - cbn [vid]. rewrite Z.eqb_refl. reflexivity.
  - apply Z.eqb_neq in Hx. rewrite Hx. exact IH.
Qed.

Lemma consecutive_ids_bounded (l : list VersionEntry) :
  vid <$> l = seqZ 1 (Z.of_nat (length l)) ->
  Forall (fun x => vid x <= Z.of_nat (length l)) l.
Proof.
  intros Hids. apply Forall_forall. intros x Hx.
  apply (list_elem_of_fmap_2 vid) in Hx. rewrite Hids in Hx.
  apply elem_of_seqZ in Hx. lia.
Qed.

(** Any action other than an undo, in a history numbered from 1, keeps the
    markup that would be sent equal to the HTML shown. *)
Lemma perform_keeps_in_sync (id : option string) (a : Action) (s : Session) :
  is_undo a = false ->
  consecutive_history (ui s) ->
  in_sync (ui s) ->
  in_sync (ui (exec (perform id a) s)).
Proof.
  unfold consecutive_history, in_sync, perform, input_enabled.
  destruct s as [[] []]. destruct a; try discriminate; intros _; run_handler.
  - intros _ Hsync. exact Hsync.
  - intros [Hids Hcur] Hsync.
    pose proof (consecutive_ids_bounded _ Hids) as Hbound.
    split_cases; try exact Hsync.
    all: unfold currentCode; run_handler.
    all: rewrite (find_last_by_id codeHistory0 (currentCodeVersionId0 + 1)
                    (mr_html_code a))
           by (eapply Forall_impl; [exact Hbound | cbn; intros; lia]).
    all: cbn; destruct (Js.truthy (mr_html_code a)); reflexivity.
  - intros _ Hsync. split_cases; exact Hsync.
Qed.

(** Without undo, a session that starts from a successful generation always
    sends the HTML it shows. *)
Lemma generated_session_in_sync (id : option string) (file : File)
    (tpl : Template) (d : ProcessResponse) (now : Z)
    (saveAns : Answer UpdateResult) (previewAns : Answer Blob)
    (s0 : Session) (acts : list Action) :
  pr_success d = true ->
  forallb (fun a => negb (is_undo a)) acts = true ->
  let s1 := exec (generate id file tpl (Returned d) now saveAns previewAns) s0 in
  in_sync (ui (exec (run id acts) s1)).
Proof.
  intros Hok Hacts s1.
  assert (Hstart : consecutive_history (ui s1) /\ in_sync (ui s1)).
  { unfold s1, generate, consecutive_history, in_sync, currentCode.
    destruct s0 as [[] []]. run_handler. rewrite Hok.
    split_cases; cbn; destruct (Js.truthy (pr_html_code d)); repeat split; reflexivity. }
  clearbody s1. revert s1 Hstart Hacts.
  induction acts as [|a acts IH]; intros s1 [Hinv Hsync] Hacts.
  - exact Hsync.
  - cbn [forallb] in Hacts. apply andb_prop in Hacts as [Ha Hacts].
    apply negb_true_iff in Ha.
    replace (exec (run id (a :: acts)) s1)
      with (exec (run id acts) (exec (perform id a) s1)).
    + apply IH; [|exact Hacts]. split.
      * apply perform_keeps_consecutive; assumption.
      * apply perform_keeps_in_sync; assumption.
    + unfold exec. cbn [run]. unfold bind.
      destruct (perform id a s1) as [u s2]. reflexivity.
Qed.

(** In a history numbered from [m], the entry with id [k] is found at
    position [k - m]. *)
Lemma findIndex_numbered (l : list VersionEntry) (m i k : Z) :
  vid <$> l = seqZ m (Z.of_nat (length l)) ->
  m <= k < m + Z.of_nat (length l) ->
  Js.findIndex_from (fun v => vid v =? k) i l = i + (k - m).
Proof.
  revert m i. induction l as [|x l IH]; intros m i Hids Hk.
  - cbn [length] in Hk. lia.
  - cbn [length] in Hids, Hk. rewrite seqZ_cons in Hids by lia.
    cbn [fmap list_fmap] in Hids. injection Hids as Hx Hrest.
    cbn [Js.findIndex_from]. destruct (Z.eqb_spec (vid x) k) as [Heq|Hne].
    + lia.
    + replace (Z.pred (Z.of_nat (S (length l)))) with (Z.of_nat (length l))
        in Hrest by lia.
      rewrite (IH (Z.succ m) (i + 1) Hrest) by lia. lia.
Qed.

(** Undo in a history numbered from 1, at version k > 1: version k - 1
    becomes current and its snapshot becomes the current HTML. *)
Lemma undo_in_numbered_history (id : option string) (s : Session)
    (previewAns : Answer Blob) (now : Z) (saveAns : Answer UpdateResult) :
  vid <$> codeHistory (ui s) = seqZ 1 (Z.of_nat (length (codeHistory (ui s)))) ->
  1 < currentCodeVersionId (ui s) <= Z.of_nat (length (codeHistory (ui s))) ->
  let s' := exec (handleUndo id previewAns now saveAns) s in
  currentCodeVersionId (ui s') = currentCodeVersionId (ui s) - 1
  /\ codeHistory (ui s) !! Z.to_nat (currentCodeVersionId (ui s) - 2)
     = Some {| vid := currentCodeVersionId (ui s') ; vcode := htmlCode (ui s') |}.
Proof.
  destruct s as [[] []]. run_handler. intros Hids Hk.
  unfold Js.findIndex.
  rewrite (findIndex_numbered codeHistory0 1 0 currentCodeVersionId0 Hids) by lia.
  replace (0 + (currentCodeVersionId0 - 1) - 1) with (currentCodeVersionId0 - 2) by lia.
  destruct (Z.ltb_spec 0 (0 + (currentCodeVersionId0 - 1))) as [_|]; [|lia].
  rewrite index_nonneg by lia.
  destruct (lookup_lt_is_Some_2 codeHistory0 (Z.to_nat (currentCodeVersionId0 - 2))
              ltac:(lia)) as [prev Hprev].
  rewrite Hprev.
  assert (Hid : vid prev = currentCodeVersionId0 - 1).
  { assert (Hlook : (vid <$> codeHistory0) !! Z.to_nat (currentCodeVersionId0 - 2)
                    = Some (vid prev))
      by (rewrite list_lookup_fmap, Hprev; reflexivity).
    rewrite Hids in Hlook. apply lookup_seqZ in Hlook. lia. }
  split_cases; (split; [exact Hid | destruct prev; reflexivity]).
Qed.

(** C1 at the failing input: a generated resume, one accepted edit, an
    undo and a second accepted edit.  The second edit is numbered from the
    current version rather than from the highest one, so the history ends
    with two entries numbered 2 that hold different snapshots, the ids are
    not strictly increasing, and looking the current id up returns the
    older of the two snapshots instead of the current HTML.  Numbering
    from the highest id would have given 3. *)
Theorem C1_edit_after_undo_reuses_version_id :
  let s := exec (run (Some "doc-1") undo_then_edit) demo_ingested in
  accepted_edits (Some "doc-1") undo_then_edit demo_ingested = 2%nat
  /\ codeHistory (ui s)
     = [ {| vid := 1; vcode := "<h1>Jane</h1>" |};
         {| vid := 2; vcode := "<h1 class=big>Jane</h1>" |};
         {| vid := 2; vcode := "<h1 class=serif>Jane</h1>" |} ]
  /\ currentCodeVersionId (ui s) = 2
  /\ htmlCode (ui s) = "<h1 class=serif>Jane</h1>"
  /\ currentCode (ui s) = "<h1 class=big>Jane</h1>"
  /\ save_calls (events (run (Some "doc-1") undo_then_edit) demo_ingested)
     = [ ("<h1 class=big>Jane</h1>", 2); ("<h1>Jane</h1>", 1);
         ("<h1 class=serif>Jane</h1>", 2) ].
Proof. vm_compute. repeat split; reflexivity. Qed.

(** C5 at the failing input: the sample session after an accepted edit,
    an undo and a second accepted edit.  The history holds three entries
    and the editor shows the third, the one appended last, so the pointer
    is not at the first entry and the immediately preceding entry is the
    second (the first edit).  The undo button is enabled; pressing it makes
    the first entry current instead: its snapshot becomes the current
    HTML, the preview is rendered from it and it is saved, as version 1.
    The second entry is skipped: the handler looks the pointer up by
    version id, and the second edit was given the id of the first (the
    defect of C1). *)
Theorem C5_undo_after_reused_id_skips_an_entry :
  let s := demo_reedited in
  let undo := perform (Some "doc-1") (Undo (Returned "%PDF-1") 104 saved) in
  let s' := exec undo s in
  codeHistory (ui s)
  = [ {| vid := 1; vcode := "<h1>Jane</h1>" |};
      {| vid := 2; vcode := "<h1 class=big>Jane</h1>" |};
      {| vid := 2; vcode := "<h1 class=serif>Jane</h1>" |} ]
  /\ htmlCode (ui s) = "<h1 class=serif>Jane</h1>"
  /\ currentCodeVersionId (ui s) = 2
  /\ codeHistory (ui s) !! 2%nat
     = Some {| vid := currentCodeVersionId (ui s); vcode := htmlCode (ui s) |}
  /\ codeHistory (ui s) !! 1%nat
     = Some {| vid := 2; vcode := "<h1 class=big>Jane</h1>" |}
  /\ undo_enabled (ui s) = true
  /\ s' = exec (handleUndo (Some "doc-1") (Returned "%PDF-1") 104 saved) s
  /\ htmlCode (ui s') = "<h1>Jane</h1>"
  /\ currentCodeVersionId (ui s') = 1
  /\ codeHistory (ui s) !! 0%nat
     = Some {| vid := currentCodeVersionId (ui s'); vcode := htmlCode (ui s') |}
  /\ codeHistory (ui s') = codeHistory (ui s)
  /\ preview_calls (events undo s) = ["<h1>Jane</h1>"]
  /\ save_calls (events undo s) = [("<h1>Jane</h1>", 1)]
  /\ htmlCode (ui s') <> "<h1 class=big>Jane</h1>".
Proof. vm_compute. repeat split; first [reflexivity | discriminate]. Qed.

(** C6 at the failing input: the same session, after the user has typed a
    remark.  The editor shows the snapshot of the second edit, and the
    service answers the turn with exactly that HTML.  The handler compares
    the answer with the snapshot it finds under the current version id,
    which is the one of the first edit (the defect of C1: both edits are
    numbered 2), so it takes the answer for a change: a fourth entry is
    appended with the HTML already shown, numbered 3, it is saved and
    written to the table, the preview is rendered again, and the reply
    enters the chat log with version 3 instead of the unchanged 2. *)
Theorem C6_reply_equal_to_shown_html_is_recorded_again :
  let s := demo_reedited_typed in
  let reply := edited "<h1 class=serif>Jane</h1>" "You are welcome." in
  let turn := perform (Some "doc-1") (Send reply 104 saved (Returned "%PDF-3")) in
  let s' := exec turn s in
  htmlCode (ui s) = "<h1 class=serif>Jane</h1>"
  /\ currentCodeVersionId (ui s) = 2
  /\ send_enabled (ui s) = true
  /\ s' = exec (handleSendMessage (Some "doc-1") reply 104 saved (Returned "%PDF-3")) s
  /\ currentCode (ui s) = "<h1 class=big>Jane</h1>"
  /\ codeHistory (ui s')
     = codeHistory (ui s) ++ [{| vid := 3; vcode := "<h1 class=serif>Jane</h1>" |}]
  /\ currentCodeVersionId (ui s') = 3
  /\ htmlCode (ui s') = htmlCode (ui s)
  /\ save_calls (events turn s) = [("<h1 class=serif>Jane</h1>", 3)]
  /\ preview_calls (events turn s) = ["<h1 class=serif>Jane</h1>"]
  /\ db_updates (events turn s)
     = [ ("doc-1",
          {| u_html_content := Some "<h1 class=serif>Jane</h1>"; u_version := Some 3;
             u_updated_at := 104; u_title := None |}) ]
  /\ new_messages turn s
     = [ user_message "thanks";
         {| role := "ai"; content := "You are welcome."; codeVersionId := Some 3 |} ].
Proof. vm_compute. repeat split; reflexivity. Qed.

(** ** A whole session

    Generation gives the history [[(1, H1)]]; an instruction answered with
    new markup H2 appends (2, H2) and saves (H2, 2); an instruction
    answered with H2 again changes nothing and saves nothing; undo makes
    version 1 current, renders H1 and saves (H1, 1).  The stored row ends
    up with H1 at version 1. *)
Example session_edit_reply_undo :
  let s := exec (run (Some "doc-1") edit_reply_undo) demo_ingested in
  codeHistory (ui demo_ingested) = [{| vid := 1; vcode := "<h1>Jane</h1>" |}]
  /\ currentCodeVersionId (ui demo_ingested) = 1
  /\ codeHistory (ui s)
     = [ {| vid := 1; vcode := "<h1>Jane</h1>" |};
         {| vid := 2; vcode := "<h1 class=big>Jane</h1>" |} ]
  /\ currentCodeVersionId (ui s) = 1
  /\ htmlCode (ui s) = "<h1>Jane</h1>"
  /\ save_calls (events (run (Some "doc-1") edit_reply_undo) demo_ingested)
     = [ ("<h1 class=big>Jane</h1>", 2); ("<h1>Jane</h1>", 1) ]
  /\ preview_calls (events (run (Some "doc-1") edit_reply_undo) demo_ingested)
     = [ "<h1 class=big>Jane</h1>"; "<h1>Jane</h1>" ]
  /\ (content <$> chatMessages (ui s))
     = [ generated_greeting; "make the font larger"; "Done.";
         "looks good"; "Glad you like it." ]
  /\ db (world s) !! "doc-1"
     = Some {| title := Some "jane doe.resume"; html_content := Some "<h1>Jane</h1>";
               version := 1; updated_at := 103 |}
  /\ displayed_pdf s = Some "%PDF-1".
Proof. vm_compute. repeat split; reflexivity. Qed.

(** ** The statements at the sample sessions *)

(** C8 at a chat of seven messages: the eighth is typed, and the request
    carries the last five of the eight, with their roles and texts. *)
Lemma C8_witness :
  Js.truthy (Js.trim (userPrompt (ui demo_long_chat))) = true
  /\ exists req,
       modify_requests
         (events (handleSendMessage (Some "doc-1") Threw 104 saved Threw) demo_long_chat)
       = [req]
       /\ (fun h => (h_role h, h_content h)) <$> rq_history req
          = [ ("user", "two"); ("ai", "Which size?"); ("user", "three");
              ("ai", "Which colour?"); ("user", "four") ].
Proof.
  split; [reflexivity|].
  destruct (C8_request_history_is_last_five (Some "doc-1") demo_long_chat
              Threw 104 saved Threw eq_refl) as (req & Hreq & Hhist & _).
  exists req. split; [exact Hreq|].
  rewrite Hhist. vm_compute. reflexivity.
Defined.

(** C4 at the sample session, with a call that throws. *)
Lemma C4_witness :
  Js.truthy (Js.trim (userPrompt (ui demo_typed))) = true
  /\ turn_failed (@Threw ModifyResponse) = true
  /\ currentCodeVersionId
       (ui (exec (handleSendMessage (Some "doc-1") Threw 101 saved Threw) demo_typed))
     = currentCodeVersionId (ui demo_typed)
  /\ codeHistory
       (ui (exec (handleSendMessage (Some "doc-1") Threw 101 saved Threw) demo_typed))
     = codeHistory (ui demo_typed).
Proof.
  split; [reflexivity|]. split; [reflexivity|].
  destruct (C4_failed_turn_leaves_document (Some "doc-1") demo_typed
              Threw 101 saved Threw eq_refl eq_refl)
    as (_ & Hcur & Hhist & _).
  split; [exact Hcur | exact Hhist].
Defined.

(** At the sample session, a reply that returns the markup sent. *)
Lemma unchanged_sent_markup_at_sample_session :
  Js.truthy (Js.trim (userPrompt (ui demo_typed))) = true
  /\ mr_html_code {| mr_success := true; mr_html_code := "<h1>Jane</h1>";
                     mr_reply_text := "Which font?" |}
     = currentCode (ui demo_typed)
  /\ codeHistory
       (ui (exec (handleSendMessage (Some "doc-1")
                    (edited "<h1>Jane</h1>" "Which font?") 101 saved Threw) demo_typed))
     = codeHistory (ui demo_typed).
Proof.
  split; [reflexivity|]. split; [reflexivity|].
  destruct (unchanged_sent_markup_is_a_reply_only (Some "doc-1") demo_typed
              {| mr_success := true; mr_html_code := "<h1>Jane</h1>";
                 mr_reply_text := "Which font?" |}
              101 saved Threw eq_refl eq_refl eq_refl)
    as (Hhist & _).
  exact Hhist.
Defined.

(** C7 at the sample session, with a reply that changes the markup. *)
Lemma C7_witness :
  Js.truthy (Js.trim (userPrompt (ui demo_typed))) = true
  /\ "<h1 class=big>Jane</h1>" <> currentCode (ui demo_typed)
  /\ save_calls
       (events (handleSendMessage (Some "doc-1")
                  (edited "<h1 class=big>Jane</h1>" "Done.") 101 saved (Returned "%PDF-2"))
               demo_typed)
     = [("<h1 class=big>Jane</h1>", 2)].
Proof.
  assert (Hdiffers : "<h1 class=big>Jane</h1>" <> currentCode (ui demo_typed))
    by (vm_compute; discriminate).
  split; [reflexivity|]. split; [exact Hdiffers|].
  destruct (C7_save_gets_the_appended_pair (Some "doc-1") demo_typed
              {| mr_success := true; mr_html_code := "<h1 class=big>Jane</h1>";
                 mr_reply_text := "Done." |}
              101 saved (Returned "%PDF-2") eq_refl eq_refl Hdiffers)
    as (_ & _ & _ & Hsave & _).
  exact Hsave.
Defined.

(** C3 at the sample session: the reply of a failed turn has no version. *)
Lemma C3_witness :
  Js.truthy (Js.trim (userPrompt (ui demo_typed))) = true
  /\ exists reply,
       new_messages (handleSendMessage (Some "doc-1") Threw 101 saved Threw) demo_typed
       = [user_message "make the font larger"; reply]
       /\ codeVersionId reply = None.
Proof.
  split; [reflexivity|].
  destruct (C3_only_successful_replies_carry_a_version (Some "doc-1") demo_typed
              Threw 101 saved Threw eq_refl) as (reply & Hnew & _ & _ & Hversion).
  exists reply. split; [exact Hnew | exact Hversion].
Defined.

(** At the sample sessions: undo after one accepted edit brings the
    generated markup back, and undo right after generation does nothing. *)
Lemma handleUndo_at_sample_sessions :
  htmlCode (ui (exec (handleUndo (Some "doc-1") (Returned "%PDF-1") 102 saved) demo_edited))
  = "<h1>Jane</h1>"
  /\ exec (handleUndo (Some "doc-1") (Returned "%PDF-1") 102 saved) demo_ingested
     = demo_ingested.
Proof.
  destruct (handleUndo_steps_back_or_does_nothing (Some "doc-1") demo_edited
              (Returned "%PDF-1") 102 saved) as [Hback _].
  destruct (handleUndo_steps_back_or_does_nothing (Some "doc-1") demo_ingested
              (Returned "%PDF-1") 102 saved) as [_ Hnothing].
  split.
  - destruct (Hback ltac:(vm_compute; reflexivity)) as (prev & Hprev & Hhtml & _).
    vm_compute in Hprev. injection Hprev as <-. exact Hhtml.
  - apply Hnothing. vm_compute. discriminate.
Defined.

(** C9 at two stored rows, as the table serves them: one with real
    markup, one with the empty markup of a document that was just
    created.  Both titles are loaded; only the first row is resumed. *)
Lemma C9_witness :
  resumeTitle
    (ui (exec (fetchResumeData "doc-7"
                 (Returned (select_single (world (fresh stored_table)) "doc-7"))
                 (Returned "%PDF-7"))
              (fresh stored_table)))
  = "Jane Doe"
  /\ codeHistory
       (ui (exec (fetchResumeData "doc-7"
                    (Returned (select_single (world (fresh stored_table)) "doc-7"))
                    (Returned "%PDF-7"))
                 (fresh stored_table)))
     = [{| vid := 7;
           vcode := "<html><body><h1>Jane Doe</h1><p>Engineer</p></body></html>" |}]
  /\ resumeTitle
       (ui (exec (fetchResumeData "doc-1"
                    (Returned (select_single (world (fresh short_titled_table)) "doc-1"))
                    (Returned "%PDF-7"))
                 (fresh short_titled_table)))
     = "Draft of Jane"
  /\ step
       (ui (exec (fetchResumeData "doc-1"
                    (Returned (select_single (world (fresh short_titled_table)) "doc-1"))
                    (Returned "%PDF-7"))
                 (fresh short_titled_table)))
     = 1.
Proof.
  destruct (C9_resume_by_length_heuristic "doc-7" (fresh stored_table) stored_row
              (Returned "%PDF-7")) as (_ & Htitle & _ & _ & Hlong & _).
  destruct (C9_resume_by_length_heuristic "doc-1" (fresh short_titled_table)
              short_titled_row (Returned "%PDF-7"))
    as (_ & Htitle' & _ & _ & _ & Hshort).
  split; [|split; [|split]].
  - apply Htitle; [reflexivity | discriminate].
  - destruct (Hlong _ eq_refl ltac:(vm_compute; lia)) as (Hhist & _).
    exact Hhist.
  - apply Htitle'; [reflexivity | discriminate].
  - destruct Hshort as (_ & _ & _ & Hstep & _).
    + intros h Hh. injection Hh as <-. vm_compute. lia.
    + exact Hstep.
Defined.

(** C10 under the identifier ["new"]: generation, an accepted edit, an undo
    and a second accepted edit send no update. *)
Lemma C10_witness :
  (Some "new" = @None string \/ Some "new" = Some "new")
  /\ db_updates
       (events (generate (Some "new")
                  {| name := "jane_doe.resume.pdf" |} {| template_id := "modern-minimal" |}
                  (Returned {| pr_success := true; pr_html_code := "<h1>Jane</h1>";
                               pr_extracted_data := None; pr_error := None |})
                  100 saved (Returned "%PDF-1") ;;
                run (Some "new") undo_then_edit)
               (fresh demo_table))
     = [].
Proof.
  split; [right; reflexivity|].
  destruct (C10_unsaved_document_is_never_written (Some "new") (or_intror eq_refl))
    as (_ & _ & Hsession).
  apply Hsession.
Defined.

(** * Further properties of the editor *)

(** ** Submitting a turn *)

(** A prompt that is empty or all white space is dropped: the handler
    returns before any setter or request, and the session is exactly as it
    was. *)
Theorem blank_prompt_is_dropped (id : option string) (s : Session)
    (ans : Answer ModifyResponse) (now : Z)
    (saveAns : Answer UpdateResult) (previewAns : Answer Blob) :
  Js.truthy (Js.trim (userPrompt (ui s))) = false ->
  exec (handleSendMessage id ans now saveAns previewAns) s = s.
Proof.
  run_handler. intros Hblank. rewrite Hblank. reflexivity.
Qed.

(** Whatever the services answer, a submitted turn leaves the prompt box
    empty and the input unlocked, and it touches neither the title nor the
    extracted context. *)
Theorem turn_clears_prompt_and_unlocks (id : option string) (s : Session)
    (ans : Answer ModifyResponse) (now : Z)
    (saveAns : Answer UpdateResult) (previewAns : Answer Blob) :
  Js.truthy (Js.trim (userPrompt (ui s))) = true ->
  let s' := exec (handleSendMessage id ans now saveAns previewAns) s in
  userPrompt (ui s') = ""
  /\ isModifying (ui s') = false
  /\ resumeTitle (ui s') = resumeTitle (ui s)
  /\ extractedContext (ui s') = extractedContext (ui s)
  /\ step (ui s') = step (ui s).
Proof.
  run_handler. intros Hprompt. rewrite Hprompt.
  split_cases; repeat split; reflexivity.
Qed.

(** ** What every sequence of actions keeps *)

Lemma exec_run_cons (id : option string) (a : Action) (acts : list Action) (s : Session) :
  exec (run id (a :: acts)) s = exec (run id acts) (exec (perform id a) s).
Proof.
  unfold exec. cbn [run]. unfold bind.
  destruct (perform id a s) as [u s1]. reflexivity.
Qed.

(** A property kept by every allowed action is kept by every sequence of
    allowed actions. *)
Lemma run_invariant (id : option string) (P : Session -> Prop) (allowed : Action -> bool) :
  (forall a s, allowed a = true -> P s -> P (exec (perform id a) s)) ->
  forall acts s, forallb allowed acts = true -> P s -> P (exec (run id acts) s).
Proof.
  intros Hstep acts. induction acts as [|a acts IH]; intros s Hall HP.
  - exact HP.
  - cbn [forallb] in Hall. apply andb_prop in Hall as [Ha Hall].
    rewrite exec_run_cons. apply IH; [exact Hall|]. apply Hstep; assumption.
Qed.

Lemma forallb_always (acts : list Action) : forallb (fun _ => true) acts = true.
Proof. induction acts; [reflexivity | assumption]. Qed.

Lemma perform_only_appends (id : option string) (a : Action) (s : Session) :
  codeHistory (ui s) `prefix_of` codeHistory (ui (exec (perform id a) s))
  /\ chatMessages (ui s) `prefix_of` chatMessages (ui (exec (perform id a) s)).
Proof.
  unfold perform, input_enabled, undo_enabled. destruct s as [[] []].
  destruct a; split_cases; split; repeat apply prefix_app_r; reflexivity.
Qed.

(** Typing, sending, undoing and renaming never remove or rewrite a
    history entry or a chat message: after any sequence of such actions the
    old history is a prefix of the new one, and so is the old chat log. *)
Theorem run_only_appends (id : option string) (acts : list Action) (s : Session) :
  codeHistory (ui s) `prefix_of` codeHistory (ui (exec (run id acts) s))
  /\ chatMessages (ui s) `prefix_of` chatMessages (ui (exec (run id acts) s)).
Proof.
  apply (run_invariant id
           (fun s' => codeHistory (ui s) `prefix_of` codeHistory (ui s')
                      /\ chatMessages (ui s) `prefix_of` chatMessages (ui s'))
           (fun _ => true)).
  - intros a s1 _ [Hhist Hchat].
    destruct (perform_only_appends id a s1) as [Hhist1 Hchat1].
    split; etransitivity; eassumption.
  - apply forallb_always.
  - split; reflexivity.
Qed.

Lemma index_In (A : Type) (l : list A) (j : Z) (x : A) :
  Js.index l j = Some x -> In x l.
Proof.
  unfold Js.index. destruct (j <? 0); [discriminate|].
  intros Hx. apply list_elem_of_In. eapply list_elem_of_lookup_2. exact Hx.
Qed.

Lemma perform_shows_recorded_snapshot (id : option string) (a : Action) (s : Session) :
  shows_recorded_snapshot (ui s) ->
  shows_recorded_snapshot (ui (exec (perform id a) s)).
Proof.
  unfold shows_recorded_snapshot, perform, input_enabled, undo_enabled.
  destruct s as [[] []]. run_handler. intros Hshown.
  destruct a; split_cases;
    first
      [ exact Hshown
      | apply in_or_app; right; left; reflexivity
      | match goal with
        | H : Js.index _ _ = Some ?v |- _ =>
            apply index_In in H; destruct v; exact H
        end ].
Qed.

(** The HTML the editor shows is always a recorded snapshot: once a
    resume was generated or a stored one was resumed, after any sequence
    of actions (undo included) the history holds an entry made of the
    current version id and the current HTML. *)
Theorem shown_html_is_recorded (id : option string) :
  (forall (s0 : Session) (file : File) (tpl : Template) (d : ProcessResponse)
          (now : Z) (saveAns : Answer UpdateResult) (previewAns : Answer Blob),
     pr_success d = true ->
     shows_recorded_snapshot
       (ui (exec (generate id file tpl (Returned d) now saveAns previewAns) s0)))
  /\ (forall (s0 : Session) (resumeId h : string) (data : ResumeRow)
             (previewAns : Answer Blob),
        html_content data = Some h -> (50 < String.length h)%nat ->
        shows_recorded_snapshot
          (ui (exec (fetchResumeData resumeId
                       (Returned {| sel_data := Some data; sel_error := false |})
                       previewAns) s0)))
  /\ (forall (s : Session) (acts : list Action),
        shows_recorded_snapshot (ui s) ->
        shows_recorded_snapshot (ui (exec (run id acts) s))).
Proof.
  split; [|split].
  - intros s0 file tpl d now saveAns previewAns Hok.
    unfold shows_recorded_snapshot, generate. destruct s0 as [[] []].
    run_handler. rewrite Hok. split_cases; left; reflexivity.
  - intros s0 resumeId h data previewAns Hhtml Hlong.
    unfold shows_recorded_snapshot. destruct s0 as [[] []].
    run_handler. cbn [sel_error sel_data]. run_handler. rewrite Hhtml.
    run_handler. rewrite (long_string_truthy h Hlong).
    destruct (Z.ltb_spec 50 (Z.of_nat (String.length h))) as [_|]; [|lia].
    split_cases; left; reflexivity.
  - intros s acts Hshown.
    apply (run_invariant id (fun s' => shows_recorded_snapshot (ui s')) (fun _ => true));
      [ intros a s1 _; apply perform_shows_recorded_snapshot
      | apply forallb_always | exact Hshown ].
Qed.

(** ** Object URLs *)

(** Settles which URLs resolve after the inserts and deletes of a run. *)
Ltac alive_cases Hinv :=
  let v := fresh "v" in
  let Hv := fresh "Hv" in
  intros v Hv;
  repeat (rewrite lookup_insert in Hv || rewrite lookup_delete in Hv);
  repeat case_decide; subst;
  first [ reflexivity
        | exfalso; apply is_Some_None in Hv; exact Hv
        | pose proof (Hinv _ Hv); congruence ].

(** A preview that runs to its end is its two halves, one after the
    other. *)
Lemma updatePdfPreview_in_two_steps (r : EditorState) (codeToRender : string)
    (ans : Answer Blob) (s : Session) :
  updatePdfPreview r codeToRender ans s
  = (preview_requested r codeToRender ;; preview_answered ans) s.
Proof.
  unfold preview_requested, preview_answered. destruct s as [[] []].
  run_handler. split_cases; reflexivity.
Qed.

(** A preview releases the object URL held by the render it was started
    from and, when the conversion succeeds, makes one new URL current.
    When it runs to its end from the render that is current, no URL but
    the current one is left alive.  But previews are started without being
    awaited, so a second one can be requested before the first is
    answered: then, whatever the renders they were started from, when both
    conversions succeed the URL created by the first still resolves to its
    PDF though [pdfUrl] holds only the second; it is one more live URL per
    overlap, and no later preview releases it.  In the sample session,
    with two previews started from the same render: both release the URL
    numbered 0, and the URLs numbered 1 and 2 are alive at the end. *)
Theorem overlapping_previews_leak_a_url :
  (forall (s : Session) (r : EditorState) (code : string) (ans : Answer Blob),
     pdfUrl r = pdfUrl (ui s) ->
     only_current_url_alive s ->
     only_current_url_alive (exec (updatePdfPreview r code ans) s))
  /\ (forall (s : Session) (r1 r2 : EditorState) (code1 code2 : string)
             (pdf1 pdf2 : Blob),
        let s' :=
          exec (overlapping_previews r1 r2 code1 code2 (Returned pdf1) (Returned pdf2)) s in
        let u1 := nextUrl (world s) in
        pdfUrl (ui s') = Some (S u1)
        /\ blobs (world s') !! u1 = Some pdf1
        /\ blobs (world s') !! S u1 = Some pdf2
        /\ ~ only_current_url_alive s'
        /\ (forall (r3 : EditorState) (code3 : string) (ans3 : Answer Blob),
              pdfUrl r3 = pdfUrl (ui s') ->
              blobs (world (exec (updatePdfPreview r3 code3 ans3) s')) !! u1 = Some pdf1))
  /\ (let overlap :=
        overlapping_previews (ui demo_ingested) (ui demo_ingested)
          "<h1 class=big>Jane</h1>" "<h1>Jane</h1>"
          (Returned "%PDF-2") (Returned "%PDF-1") in
      let s' := exec overlap demo_ingested in
      pdfUrl (ui demo_ingested) = Some 0%nat
      /\ revoked (events overlap demo_ingested) = [0%nat; 0%nat]
      /\ pdfUrl (ui s') = Some 2%nat
      /\ blobs (world s') !! 0%nat = None
      /\ blobs (world s') !! 1%nat = Some "%PDF-2"
      /\ blobs (world s') !! 2%nat = Some "%PDF-1").
Proof.
  split; [|split].
  - intros s r code ans. unfold only_current_url_alive. destruct s as [[] []].
    run_handler. intros Hr Hinv. cbn in Hr. rewrite Hr.
    split_cases; alive_cases Hinv.
  - intros s r1 r2 code1 code2 pdf1 pdf2.
    unfold only_current_url_alive, overlapping_previews,
      preview_requested, preview_answered.
    destruct s as [[] []]. run_handler.
    assert (Hfirst : forall m : gmap BlobUrl Blob,
              <[S nextUrl0 := pdf2]> (<[nextUrl0 := pdf1]> m) !! nextUrl0 = Some pdf1).
    { intros m. rewrite lookup_insert_ne by lia. apply lookup_insert_eq. }
    split_cases;
      (split; [reflexivity|]);
      (split; [apply Hfirst|]);
      (split; [apply lookup_insert_eq|]);
      (split;
       [ intros Hinv;
         assert (Hsome : Some (S nextUrl0) = Some nextUrl0)
           by (apply Hinv; rewrite Hfirst; eexists; reflexivity);
         injection Hsome; lia
       | intros r3 code3 ans3 Hr3; cbn in Hr3; rewrite Hr3;
         split_cases;
         rewrite ?lookup_insert_ne, ?lookup_delete_ne by lia;
         apply Hfirst ]).
  - vm_compute. repeat split; reflexivity.
Qed.

(** ** The stored row *)



(** ** Repeated undo *)

Lemma exec_undos_cons (id : option string) (previewAns : Answer Blob) (now : Z)
    (saveAns : Answer UpdateResult)
    (rest : list (Answer Blob * Z * Answer UpdateResult)) (s : Session) :
  exec (undos id ((previewAns, now, saveAns) :: rest)) s
  = exec (undos id rest) (exec (handleUndo id previewAns now saveAns) s).
Proof.
  unfold exec. cbn [undos]. unfold bind.
  destruct (handleUndo id previewAns now saveAns s) as [u s1]. reflexivity.
Qed.

Lemma handleUndo_keeps_history (id : option string) (s : Session)
    (previewAns : Answer Blob) (now : Z) (saveAns : Answer UpdateResult) :
  codeHistory (ui (exec (handleUndo id previewAns now saveAns) s)) = codeHistory (ui s).
Proof. destruct s as [[] []]. split_cases; reflexivity. Qed.

Lemma undo_at_first_version (id : option string) (s : Session)
    (previewAns : Answer Blob) (now : Z) (saveAns : Answer UpdateResult) :
  vid <$> codeHistory (ui s) = seqZ 1 (Z.of_nat (length (codeHistory (ui s)))) ->
  currentCodeVersionId (ui s) = 1 ->
  (0 < length (codeHistory (ui s)))%nat ->
  exec (handleUndo id previewAns now saveAns) s = s.
Proof.
  destruct s as [[] []]. run_handler. intros Hids Hcur Hlen.
  unfold Js.findIndex.
  rewrite (findIndex_numbered codeHistory0 1 0 currentCodeVersionId0 Hids) by lia.
  destruct (Z.ltb_spec 0 (0 + (currentCodeVersionId0 - 1))) as [|_]; [lia|].
  reflexivity.
Qed.

Lemma undos_in_numbered_history (id : option string)
    (answers : list (Answer Blob * Z * Answer UpdateResult)) (s : Session) :
  vid <$> codeHistory (ui s) = seqZ 1 (Z.of_nat (length (codeHistory (ui s)))) ->
  1 <= currentCodeVersionId (ui s) <= Z.of_nat (length (codeHistory (ui s))) ->
  let s' := exec (undos id answers) s in
  codeHistory (ui s') = codeHistory (ui s)
  /\ currentCodeVersionId (ui s')
     = Z.max 1 (currentCodeVersionId (ui s) - Z.of_nat (length answers))
  /\ (currentCodeVersionId (ui s') = currentCodeVersionId (ui s) ->
      htmlCode (ui s') = htmlCode (ui s))
  /\ (currentCodeVersionId (ui s') < currentCodeVersionId (ui s) ->
      codeHistory (ui s) !! Z.to_nat (currentCodeVersionId (ui s') - 1)
      = Some {| vid := currentCodeVersionId (ui s'); vcode := htmlCode (ui s') |}).
Proof.
  revert s. induction answers as [|[[previewAns now] saveAns] rest IH];
    intros s Hids Hcur; cbn zeta.
  - change (exec (undos id []) s) with s. cbn [length].
    repeat split; try reflexivity; lia.
  - rewrite exec_undos_cons.
    destruct (Z.eq_dec (currentCodeVersionId (ui s)) 1) as [Hone|Hmore].
    + rewrite (undo_at_first_version id s previewAns now saveAns Hids Hone) by lia.
      destruct (IH s Hids Hcur) as (Hhist & Hver & Hsame & Hless).
      cbn [length]. repeat split; try assumption. lia.
    + pose proof (handleUndo_keeps_history id s previewAns now saveAns) as Hkeep.
      destruct (undo_in_numbered_history id s previewAns now saveAns Hids ltac:(lia))
        as [Hver1 Hlook1].
      set (s1 := exec (handleUndo id previewAns now saveAns) s) in *.
      assert (Hids1 : vid <$> codeHistory (ui s1)
                      = seqZ 1 (Z.of_nat (length (codeHistory (ui s1)))))
        by (rewrite Hkeep; exact Hids).
      assert (Hcur1 : 1 <= currentCodeVersionId (ui s1)
                      <= Z.of_nat (length (codeHistory (ui s1))))
        by (rewrite Hkeep; lia).
      destruct (IH s1 Hids1 Hcur1) as (Hhist & Hver & Hsame & Hless).
      cbn [length]. split; [congruence|]. split; [lia|]. split; [lia|].
      intros _.
      destruct (Z.eq_dec (currentCodeVersionId (ui (exec (undos id rest) s1)))
                         (currentCodeVersionId (ui s1))) as [Heq|Hne].
      * rewrite Heq, (Hsame Heq).
        replace (currentCodeVersionId (ui s1) - 1)
          with (currentCodeVersionId (ui s) - 2) by lia.
        exact Hlook1.
      * rewrite <- Hkeep. apply Hless. lia.
Qed.

(** In a history numbered from 1, pressing undo n times from version k
    leads to version max(1, k - n): each press steps one version back until
    version 1, where further presses do nothing.  The history itself is
    never shortened, and once a step was made the HTML shown is the
    snapshot recorded for the version reached. *)
Theorem repeated_undo_reaches_first_version (id : option string)
    (answers : list (Answer Blob * Z * Answer UpdateResult)) (s : Session) :
  vid <$> codeHistory (ui s) = seqZ 1 (Z.of_nat (length (codeHistory (ui s)))) ->
  1 <= currentCodeVersionId (ui s) <= Z.of_nat (length (codeHistory (ui s))) ->
  let s' := exec (undos id answers) s in
  codeHistory (ui s') = codeHistory (ui s)
  /\ currentCodeVersionId (ui s')
     = Z.max 1 (currentCodeVersionId (ui s) - Z.of_nat (length answers))
  /\ (currentCodeVersionId (ui s') < currentCodeVersionId (ui s) ->
      codeHistory (ui s) !! Z.to_nat (currentCodeVersionId (ui s') - 1)
      = Some {| vid := currentCodeVersionId (ui s'); vcode := htmlCode (ui s') |}).
Proof.
  intros Hids Hcur.
  destruct (undos_in_numbered_history id answers s Hids Hcur)
    as (Hhist & Hver & _ & Hless).
  repeat split; assumption.
Qed.

(** ** Generating a resume *)

(** A generation that does not succeed leaves the document alone: when a
    file or a template is missing, when the call throws, or when the
    service reports failure, the history, the current version, the HTML,
    the chat log, the title and the step are as before, the user is told by
    exactly one alert, and neither a save nor a preview is started.
    Without a file or a template no request is made at all; otherwise the
    overlay flag is cleared again. *)
Theorem unsuccessful_generation_changes_nothing (id : option string) (s : Session)
    (ans : Answer ProcessResponse) (now : Z)
    (saveAns : Answer UpdateResult) (previewAns : Answer Blob) :
  generation_unsuccessful (ui s) ans ->
  let gen := handleExtractAndGenerate id ans now saveAns previewAns in
  let s' := exec gen s in
  codeHistory (ui s') = codeHistory (ui s)
  /\ currentCodeVersionId (ui s') = currentCodeVersionId (ui s)
  /\ htmlCode (ui s') = htmlCode (ui s)
  /\ chatMessages (ui s') = chatMessages (ui s)
  /\ resumeTitle (ui s') = resumeTitle (ui s)
  /\ step (ui s') = step (ui s)
  /\ db (world s') = db (world s)
  /\ length (alerts (events gen s)) = 1%nat
  /\ save_calls (events gen s) = []
  /\ preview_calls (events gen s) = []
  /\ (resumeFile (ui s) = None \/ selectedTemplate (ui s) = None ->
      api_calls (events gen s) = [] /\ ui s' = ui s)
  /\ (resumeFile (ui s) <> None -> selectedTemplate (ui s) <> None ->
      isProcessing (ui s') = false
      /\ api_calls (events gen s) = [("POST", "/process_html")]).
Proof.
  unfold generation_unsuccessful. destruct s as [[] []]. run_handler.
  intros Hwhy.
  destruct resumeFile0 as [file|]; [destruct selectedTemplate0 as [tpl|]|];
    run_handler.
  - destruct Hwhy as [Hwhy|[Hwhy|[->|(d & -> & Hfail)]]]; try discriminate;
      run_handler; rewrite ?Hfail; run_handler; new_events;
      repeat split;
      first [ reflexivity | congruence
            | match goal with H : _ \/ _ |- _ => destruct H; discriminate end ].
  - new_events. repeat split; first [ reflexivity | congruence ].
  - new_events. repeat split; first [ reflexivity | congruence ].
Qed.

(** A successful generation starts the document over, whatever the editor
    held before: the history is the single entry (1, generated HTML), that
    entry is current, the chat log is the single greeting tagged with
    version 1, the title is derived from the file name, the editor is in
    the editing step, and [saveResume] and the preview are each called
    once, with the generated HTML (and version 1). *)
Theorem successful_generation_starts_over (id : option string) (s : Session)
    (file : File) (tpl : Template) (d : ProcessResponse) (now : Z)
    (saveAns : Answer UpdateResult) (previewAns : Answer Blob) :
  resumeFile (ui s) = Some file ->
  selectedTemplate (ui s) = Some tpl ->
  pr_success d = true ->
  let gen := handleExtractAndGenerate id (Returned d) now saveAns previewAns in
  let s' := exec gen s in
  codeHistory (ui s') = [{| vid := 1; vcode := pr_html_code d |}]
  /\ currentCodeVersionId (ui s') = 1
  /\ htmlCode (ui s') = pr_html_code d
  /\ chatMessages (ui s')
     = [{| role := "ai"; content := generated_greeting; codeVersionId := Some 1 |}]
  /\ resumeTitle (ui s') = autoTitle file
  /\ extractedContext (ui s') = Js.or_else (pr_extracted_data d) ""
  /\ step (ui s') = 2
  /\ isGenerationDone (ui s') = true
  /\ alerts (events gen s) = []
  /\ api_calls (events gen s)
     = [("POST", "/process_html"); ("POST", "/preview-pdf-bytes")]
  /\ save_calls (events gen s) = [(pr_html_code d, 1)]
  /\ preview_calls (events gen s) = [pr_html_code d].
Proof.
  destruct s as [[] []]. run_handler. intros -> -> Hok.
  run_handler. rewrite Hok.
  split_cases; new_events; repeat split; reflexivity.
Qed.

(** ** Renaming *)

(** A rename that goes through rewrites the title and the timestamp of the
    document's row and nothing else: its markup and version stay, every
    other row stays, and the component state is untouched. *)
Theorem rename_writes_only_the_title (row : string) (s : Session)
    (now : Z) (stored : ResumeRow) :
  Js.truthy row = true -> row <> "new" ->
  Js.truthy (Js.trim (resumeTitle (ui s))) = true ->
  db (world s) !! row = Some stored ->
  let s' := exec (handleTitleSave (Some row) now (Returned {| upd_error := false |})) s in
  db (world s') !! row
  = Some {| title := Some (resumeTitle (ui s));
            html_content := html_content stored;
            version := version stored;
            updated_at := now |}
  /\ (forall other, other <> row -> db (world s') !! other = db (world s) !! other)
  /\ ui s' = ui s.
Proof.
  destruct s as [[] []]. run_handler. intros Hrow Hnew Htitle Hstored.
  apply String.eqb_neq in Hnew. rewrite Hrow, Hnew, Htitle. run_handler.
  cbn [upd_error]. run_handler.
  split; [|split].
  - rewrite lookup_alter_eq, Hstored. reflexivity.
  - intros other Hother. apply lookup_alter_ne. congruence.
  - reflexivity.
Qed.

(** A rename is skipped, leaving the session exactly as it was, when the
    title is empty or all white space or when the document has no
    identifier of its own (absent, empty or ["new"]). *)
Theorem rename_is_skipped (id : option string) (s : Session)
    (now : Z) (ans : Answer UpdateResult) :
  Js.truthy (Js.trim (resumeTitle (ui s))) = false
  \/ id = None \/ id = Some "" \/ id = Some "new" ->
  exec (handleTitleSave id now ans) s = s.
Proof.
  destruct s as [[] []]. run_handler.
  intros [Hblank | [ -> | [ -> | -> ] ] ]; run_handler; try reflexivity.
  destruct id as [row|]; [|reflexivity].
  rewrite Hblank.
  destruct (Js.truthy row); destruct (String.eqb row "new"); reflexivity.
Qed.

(** ** What the editor writes to the table *)

Lemma perform_writes_own_row (id : option string) (a : Action) (s : Session)
    (other : string) :
  id <> Some other ->
  db (world (exec (perform id a) s)) !! other = db (world s) !! other.
Proof.
  unfold perform, input_enabled, undo_enabled. destruct s as [[] []].
  intros Hother. destruct id as [row|];
    destruct a; split_cases;
    first [ reflexivity | apply lookup_alter_ne; congruence ].
Qed.

(** The editor writes to no row but the one of its own document: after a
    generation and any sequence of actions, every other row of the table
    is as it was. *)
Theorem editor_writes_only_its_own_row (id : option string) (other : string)
    (s : Session) (file : File) (tpl : Template) (ans : Answer ProcessResponse)
    (now : Z) (saveAns : Answer UpdateResult) (previewAns : Answer Blob)
    (acts : list Action) :
  id <> Some other ->
  db (world (exec (generate id file tpl ans now saveAns previewAns) s)) !! other
  = db (world s) !! other
  /\ db (world (exec (run id acts) s)) !! other = db (world s) !! other.
Proof.
  intros Hother. split.
  - unfold generate. destruct s as [[] []].
    destruct id as [row|]; split_cases;
      first [ reflexivity | apply lookup_alter_ne; congruence ].
  - apply (run_invariant id
             (fun s' => db (world s') !! other = db (world s) !! other)
             (fun _ => true)).
    + intros a s1 _ Hsame. rewrite perform_writes_own_row by exact Hother.
      exact Hsame.
    + apply forallb_always.
    + reflexivity.
Qed.

Lemma perform_keeps_stored_title (id : option string) (a : Action) (s : Session)
    (row : string) :
  is_retitle a = false ->
  title <$> db (world (exec (perform id a) s)) !! row = title <$> db (world s) !! row.
Proof.
  unfold perform, input_enabled, undo_enabled. destruct s as [[] []].
  intros Hkind. destruct a; try discriminate; split_cases;
    try reflexivity;
    rewrite lookup_alter; case_decide; subst; try reflexivity;
    match goal with |- context [db0 !! ?k] => destruct (db0 !! k); reflexivity end.
Qed.

(** Edit turns and undos save the markup and the version but never the
    title: over any sequence of actions without a rename, the stored title
    of every row stays what it was. *)
Theorem edits_keep_stored_title (id : option string) (acts : list Action)
    (s : Session) (row : string) :
  forallb (fun a => negb (is_retitle a)) acts = true ->
  title <$> db (world (exec (run id acts) s)) !! row = title <$> db (world s) !! row.
Proof.
  intros Hacts.
  apply (run_invariant id
           (fun s' => title <$> db (world s') !! row = title <$> db (world s) !! row)
           (fun a => negb (is_retitle a))).
  - intros a s1 Ha Hsame. apply negb_true_iff in Ha.
    rewrite perform_keeps_stored_title by exact Ha. exact Hsame.
  - exact Hacts.
  - reflexivity.
Qed.

(** ** The title derived from the file name *)

Lemma no_slash_dot_app_dot (x y : string) :
  Js.no_slash_dot (String.append x (String "."%char y)) = false.
Proof.
  induction x as [|c x IH].
  - reflexivity.
  - change (Js.no_slash_dot (String c (String.append x (String "."%char y))) = false).
    cbn [Js.no_slash_dot]. rewrite IH. apply andb_false_r.
Qed.

Lemma strip_extension_last (base body : string) :
  Js.truthy body = true -> Js.no_slash_dot body = true ->
  Js.strip_extension (String.append base (String "."%char body)) = base.
Proof.
  intros Hbody Hplain.
  induction base as [|c base IH].
  - change (Js.strip_extension (String "."%char body) = "").
    cbn [Js.strip_extension]. rewrite Hbody, Hplain. reflexivity.
  - change (Js.strip_extension
              (String c (String.append base (String "."%char body)))
            = String c base).
    cbn [Js.strip_extension].
    rewrite no_slash_dot_app_dot, andb_false_r, IH. reflexivity.
Qed.

Lemma strip_extension_no_dot (s : string) :
  has_char "."%char s = false -> Js.strip_extension s = s.
Proof.
  induction s as [|c s IH]; cbn; [reflexivity|].
  intros Hno. apply orb_false_elim in Hno as [Hc Hs].
  rewrite Hc, (IH Hs). reflexivity.
Qed.

Lemma strip_extension_length (s : string) :
  (String.length (Js.strip_extension s) <= String.length s)%nat.
Proof.
  induction s as [|c s IH]; cbn; [lia|].
  destruct (Ascii.eqb c "." && Js.truthy s && Js.no_slash_dot s); cbn; lia.
Qed.

Lemma underscores_to_spaces_length (s : string) :
  String.length (Js.underscores_to_spaces s) = String.length s.
Proof. induction s as [|c s IH]; cbn; [reflexivity | rewrite IH; reflexivity]. Qed.

Lemma underscores_to_spaces_clean (s : string) :
  has_char "_"%char (Js.underscores_to_spaces s) = false.
Proof.
  induction s as [|c s IH]; cbn; [reflexivity|].
  rewrite IH, orb_false_r.
  destruct (Ascii.eqb_spec c "_"%char) as [->|Hne]; [reflexivity|].
  apply Ascii.eqb_neq. exact Hne.
Qed.

(** The title derived from a file name drops exactly its last extension: a
    name that ends in a dot followed by one or more characters other than a
    slash and a dot loses that ending, however many dots come before, and
    its underscores become spaces. *)
Theorem autoTitle_drops_last_extension (base body : string) :
  Js.truthy body = true -> Js.no_slash_dot body = true ->
  autoTitle {| name := String.append base (String "."%char body) |}
  = Js.underscores_to_spaces base.
Proof.
  intros Hbody Hplain. unfold autoTitle. cbn [name].
  rewrite strip_extension_last by assumption. reflexivity.
Qed.

(** The derived title never contains an underscore and is never longer
    than the file name; a name without a dot is kept whole, up to its
    underscores. *)
Theorem autoTitle_is_clean (file : File) :
  has_char "_"%char (autoTitle file) = false
  /\ (String.length (autoTitle file) <= String.length (name file))%nat
  /\ (has_char "."%char (name file) = false ->
      autoTitle file = Js.underscores_to_spaces (name file)).
Proof.
  unfold autoTitle. split; [|split].
  - apply underscores_to_spaces_clean.
  - rewrite underscores_to_spaces_length. apply strip_extension_length.
  - intros Hno. rewrite strip_extension_no_dot by exact Hno. reflexivity.
Qed.

(** ** A preview that succeeds *)

(** When the conversion call answers, the preview pane shows exactly the
    PDF it returned: [pdfUrl] is a newly created object URL that resolves
    to that PDF, the generating flag is cleared, and the URL of the
    previous preview, if any, has been released. *)
Theorem successful_preview_is_displayed (s : Session) (codeToRender : string)
    (data : Blob) :
  let preview := updatePdfPreview (ui s) codeToRender (Returned data) in
  let s' := exec preview s in
  pdfUrl (ui s') = Some (nextUrl (world s))
  /\ blobs (world s') !! nextUrl (world s) = Some data
  /\ displayed_pdf s' = Some data
  /\ nextUrl (world s') = S (nextUrl (world s))
  /\ revoked (events preview s)
     = match pdfUrl (ui s) with Some u => [u] | None => [] end
  /\ (forall u, pdfUrl (ui s) = Some u -> u <> nextUrl (world s) ->
               blobs (world s') !! u = None)
  /\ codeHistory (ui s') = codeHistory (ui s)
  /\ htmlCode (ui s') = htmlCode (ui s).
Proof.
  unfold displayed_pdf. destruct s as [[] []]. run_handler.
  destruct pdfUrl0 as [u|]; run_handler; new_events;
    rewrite ?lookup_insert_eq;
    (repeat split; try reflexivity);
    intros v Hv Hfresh; try discriminate Hv.
  injection Hv as <-.
  rewrite lookup_insert_ne by congruence. apply lookup_delete_eq.
Qed.

(** ** A load that fails *)

(** When the stored row cannot be loaded (the call throws, the service
    reports an error, or no row comes back), the editor only clears its
    loading flag: title, history, version, HTML, step and preview are as
    before, and no preview is started. *)
Theorem failed_load_changes_nothing (resumeId : string) (s : Session)
    (ans : Answer SelectResult) (previewAns : Answer Blob) :
  load_failed ans ->
  let load := fetchResumeData resumeId ans previewAns in
  let s' := exec load s in
  isFetchingInitialData (ui s') = false
  /\ resumeTitle (ui s') = resumeTitle (ui s)
  /\ codeHistory (ui s') = codeHistory (ui s)
  /\ currentCodeVersionId (ui s') = currentCodeVersionId (ui s)
  /\ htmlCode (ui s') = htmlCode (ui s)
  /\ step (ui s') = step (ui s)
  /\ pdfUrl (ui s') = pdfUrl (ui s)
  /\ blobs (world s') = blobs (world s)
  /\ preview_calls (events load s) = []
  /\ alerts (events load s) = [].
Proof.
  unfold load_failed. destruct s as [[] []]. run_handler.
  intros [->|(res & -> & Hwhy)]; run_handler.
  - new_events. repeat split; reflexivity.
  - destruct (sel_error res) eqn:Herr; run_handler.
    + new_events. repeat split; reflexivity.
    + destruct Hwhy as [Hwhy|Hwhy]; [discriminate|]. rewrite Hwhy. run_handler.
      rewrite drop_all. repeat split; reflexivity.
Qed.

(** ** Version numbers after resuming *)

Lemma perform_keeps_numbered (id : option string) (m : Z) (a : Action) (s : Session) :
  is_undo a = false ->
  numbered_from m (ui s) ->
  numbered_from m (ui (exec (perform id a) s))
  /\ length (codeHistory (ui (exec (perform id a) s)))
     = (length (codeHistory (ui s)) + (if accepts (ui s) a then 1 else 0))%nat.
Proof.
  unfold numbered_from, perform, accepts, send_enabled, input_enabled.
  destruct s as [[] []]. destruct a; try discriminate; intros _; run_handler.
  - intros [Hids Hcur]. rewrite Nat.add_0_r. repeat split; assumption.
  - intros [Hids Hcur].
    split_cases; rewrite ?length_app, ?fmap_app; cbn [length fmap list_fmap];
      rewrite ?Nat.add_0_r, ?Nat.add_1_r, ?seqZ_S;
      repeat split; try assumption; try lia; try congruence.
    all: cbn [vid]; rewrite Hids, Hcur; f_equal; f_equal; lia.
  - intros [Hids Hcur]. split_cases; repeat split; try assumption; lia.
Qed.

Lemma run_keeps_numbered (id : option string) (m : Z) (acts : list Action) (s : Session) :
  forallb (fun a => negb (is_undo a)) acts = true ->
  numbered_from m (ui s) ->
  numbered_from m (ui (exec (run id acts) s))
  /\ length (codeHistory (ui (exec (run id acts) s)))
     = (length (codeHistory (ui s)) + accepted_edits id acts s)%nat.
Proof.
  revert s. induction acts as [|a acts IH]; intros s Hacts Hinv.
  - cbn [accepted_edits]. rewrite Nat.add_0_r. split; [exact Hinv | reflexivity].
  - cbn [forallb] in Hacts. apply andb_prop in Hacts as [Ha Hacts].
    apply negb_true_iff in Ha.
    destruct (perform_keeps_numbered id m a s Ha Hinv) as [Hinv1 Hlen1].
    destruct (IH (exec (perform id a) s) Hacts Hinv1) as [Hinv2 Hlen2].
    rewrite exec_run_cons. cbn [accepted_edits].
    split; [exact Hinv2 | lia].
Qed.

(** A resumed session continues the stored numbering: after resuming a
    stored document at version v, N accepted edits and no undo leave a
    history of N+1 entries numbered v, v+1, ..., v+N, with version v+N
    current. *)
Theorem resumed_history_continues_stored_version (id : option string)
    (resumeId h : string) (data : ResumeRow) (previewAns : Answer Blob)
    (s0 : Session) (acts : list Action) :
  html_content data = Some h -> (50 < String.length h)%nat ->
  forallb (fun a => negb (is_undo a)) acts = true ->
  let s1 := exec (fetchResumeData resumeId
                    (Returned {| sel_data := Some data; sel_error := false |})
                    previewAns) s0 in
  let s' := exec (run id acts) s1 in
  let n := accepted_edits id acts s1 in
  vid <$> codeHistory (ui s') = seqZ (version data) (Z.of_nat (S n))
  /\ length (codeHistory (ui s')) = S n
  /\ currentCodeVersionId (ui s') = version data + Z.of_nat n.
Proof.
  intros Hhtml Hlong Hacts s1 s' n.
  assert (Hone : codeHistory (ui s1) = [{| vid := version data; vcode := h |}]
                 /\ currentCodeVersionId (ui s1) = version data).
  { unfold s1. destruct s0 as [[] []].
    run_handler. cbn [sel_error sel_data]. run_handler. rewrite Hhtml.
    run_handler. rewrite (long_string_truthy h Hlong).
    destruct (Z.ltb_spec 50 (Z.of_nat (String.length h))) as [_|]; [|lia].
    split_cases; split; reflexivity. }
  destruct Hone as [Hhist Hcur].
  assert (Hinv : numbered_from (version data) (ui s1)).
  { unfold numbered_from. rewrite Hhist, Hcur. cbn [length]. split.
    - reflexivity.
    - lia. }
  destruct (run_keeps_numbered id (version data) acts s1 Hacts Hinv)
    as [[Hids Hver] Hlen].
  fold s' in Hids, Hver, Hlen. fold n in Hlen.
  rewrite Hhist in Hlen. cbn [length] in Hlen.
  rewrite Hlen in Hids, Hver.
  repeat split; [exact Hids | exact Hlen | lia].
Qed.

(** ** Downloading the PDF *)

(** The download follows the last preview.  Without a preview URL the
    button does nothing.  After a preview that succeeded, the click saves
    exactly the PDF that is displayed, named after the title (or "Resume"
    when the title is empty).  After a preview that failed, the button
    still offers the link of the previous preview, but that URL has been
    released and the click saves nothing. *)
Theorem download_follows_last_preview (s : Session) (codeToRender : string) :
  (handleDownloadPDF (ui s) = None <-> pdfUrl (ui s) = None)
  /\ (forall data,
        downloaded_pdf (exec (updatePdfPreview (ui s) codeToRender (Returned data)) s)
        = Some (String.append (Js.or_else (Some (resumeTitle (ui s))) "Resume") ".pdf",
                data))
  /\ (forall u,
        pdfUrl (ui s) = Some u ->
        let s' := exec (updatePdfPreview (ui s) codeToRender Threw) s in
        handleDownloadPDF (ui s')
        = Some {| href := u;
                  download :=
                    String.append (Js.or_else (Some (resumeTitle (ui s))) "Resume")
                                  ".pdf" |}
        /\ downloaded_pdf s' = None).
Proof.
  unfold downloaded_pdf, handleDownloadPDF. destruct s as [[] []]. run_handler.
  split; [|split].
  - destruct pdfUrl0; split; intros H; first [discriminate H | reflexivity].
  - intros data. destruct pdfUrl0 as [u|]; run_handler; cbn [href download];
      rewrite lookup_insert_eq; reflexivity.
  - intros u ->. run_handler. cbn [href download].
    rewrite lookup_delete_eq. split; reflexivity.
Qed.

(** ** The processing overlay *)

(** The overlay never outlasts the generation.  A successful generation
    leaves the overlay up, marked as done, with the generate button
    disabled; its completion callback takes the overlay down, re-enables
    the button and touches nothing else of the document.  A generation
    that was started and failed takes the overlay down by itself. *)
Theorem overlay_ends_with_generation (id : option string) (s : Session)
    (file : File) (tpl : Template) (ans : Answer ProcessResponse) (now : Z)
    (saveAns : Answer UpdateResult) (previewAns : Answer Blob) :
  resumeFile (ui s) = Some file ->
  selectedTemplate (ui s) = Some tpl ->
  let s1 := exec (handleExtractAndGenerate id ans now saveAns previewAns) s in
  let s2 := exec handleOverlayComplete s1 in
  (forall d, ans = Returned d -> pr_success d = true ->
     overlay_shown (ui s1) = true
     /\ isGenerationDone (ui s1) = true
     /\ generate_enabled (ui s1) = false
     /\ overlay_shown (ui s2) = false
     /\ isGenerationDone (ui s2) = false
     /\ generate_enabled (ui s2) = true
     /\ codeHistory (ui s2) = codeHistory (ui s1)
     /\ chatMessages (ui s2) = chatMessages (ui s1)
     /\ htmlCode (ui s2) = htmlCode (ui s1)
     /\ step (ui s2) = 2
     /\ world s2 = world s1)
  /\ (ans = Threw \/ (exists d, ans = Returned d /\ pr_success d = false) ->
      overlay_shown (ui s1) = false /\ generate_enabled (ui s1) = true).
Proof.
  unfold overlay_shown, generate_enabled, handleOverlayComplete.
  destruct s as [[] []]. run_handler. intros -> ->. run_handler. split.
  - intros d -> Hok. run_handler. rewrite Hok.
    split_cases; repeat split; reflexivity.
  - intros [->|(d & -> & Hfail)]; run_handler; rewrite ?Hfail; run_handler;
      split; reflexivity.
Qed.

(** ** The template gallery *)

(** A failing raw-code request does not fail the gallery.  When the
    listing is answered, the gallery shows every listed template, in the
    order of the listing; a template whose raw code arrived carries it, a
    template whose request failed carries the empty string and gets the
    empty thumbnail.  When the listing itself fails, the templates shown
    before are kept.  In every case the loading flag is cleared. *)
Theorem gallery_survives_failed_requests
    (listing : Answer (option (list TemplateInfo))) (raw : nat -> Answer string)
    (g : Gallery) :
  let g' := fst (fetchTemplates listing raw g) in
  isLoadingTemplates g' = false
  /\ (forall l, listing = Returned (Some l) ->
        info <$> templates g' = l
        /\ forall i t, templates g' !! i = Some t ->
             match raw i with
             | Returned contents => rawHtml t = contents
             | Threw => rawHtml t = "" /\ getThumbnailHtml (rawHtml t) = ""
             end)
  /\ (listing = Returned None -> templates g' = [])
  /\ (listing = Threw -> templates g' = templates g).
Proof.
  split; [|split; [|split]].
  - destruct listing; reflexivity.
  - intros l ->. cbn [fetchTemplates fst templates]. split.
    + apply list_eq. intros i. rewrite list_lookup_fmap, list_lookup_imap.
      destruct (l !! i); cbn; [|reflexivity].
      destruct (raw i); reflexivity.
    + intros i t Ht. rewrite list_lookup_imap in Ht.
      destruct (l !! i) as [x|]; cbn in Ht; [|discriminate].
      injection Ht as <-. destruct (raw i); cbn; [split|]; reflexivity.
  - intros ->. reflexivity.
  - intros ->. reflexivity.
Qed.

(** ** Initialisation *)

Lemma fetchResumeData_clears_loading (resumeId : string) (ans : Answer SelectResult)
    (previewAns : Answer Blob) (s : Session) :
  isFetchingInitialData (ui (exec (fetchResumeData resumeId ans previewAns) s)) = false.
Proof. destruct s as [[] []]. split_cases; reflexivity. Qed.

(** The loading screen always ends.  With a session and a document id, the
    first run of the initialisation effect clears the loading screen and
    the gallery's loading flag whatever the three services answer, and
    marks the data as fetched; a further run of the effect does nothing
    until the id changes.  Under the id ["new"] the document state and the
    table are not touched and no preview is started.  The cleanup
    registered by the first run in a freshly mounted editor closes over an
    absent [pdfUrl] and releases nothing. *)
Theorem initialisation_ends_loading (id : option string)
    (listing : Answer (option (list TemplateInfo))) (raw : nat -> Answer string)
    (load : Answer SelectResult) (previewAns : Answer Blob) (p : Page) :
  Js.truthy_opt id = true ->
  dataFetchedRef p = false ->
  let p' := init_effect true id listing raw load previewAns p in
  loading_screen p' = false
  /\ isLoadingTemplates (gallery p') = false
  /\ dataFetchedRef p' = true
  /\ (forall listing2 raw2 load2 previewAns2,
        init_effect true id listing2 raw2 load2 previewAns2 p' = p')
  /\ dataFetchedRef (id_changed p') = false
  /\ (id = Some "new" ->
      codeHistory (ui (session p')) = codeHistory (ui (session p))
      /\ htmlCode (ui (session p')) = htmlCode (ui (session p))
      /\ step (ui (session p')) = step (ui (session p))
      /\ resumeTitle (ui (session p')) = resumeTitle (ui (session p))
      /\ db (world (session p')) = db (world (session p))
      /\ blobs (world (session p')) = blobs (world (session p)))
  /\ (forall table s, exec (init_cleanup (ui (session (initial_page table)))) s = s).
Proof.
  intros Hid Href p'.
  destruct id as [resumeId|]; [|discriminate Hid].
  assert (Hp' : exists g evs s2,
             fetchTemplates listing raw (gallery p) = (g, evs)
             /\ p' = {| session := s2; gallery := g; dataFetchedRef := true |}
             /\ s2 = (if negb (String.eqb resumeId "new")
                      then exec (fetchResumeData resumeId load previewAns)
                             (exec (log_events evs) (session p))
                      else exec (setIsFetchingInitialData false)
                             (exec (log_events evs) (session p)))).
  { unfold p', init_effect. rewrite Hid, Href. cbn [negb orb].
    destruct (fetchTemplates listing raw (gallery p)) as [g evs].
    eexists _, _, _. repeat split. }
  destruct Hp' as (g & evs & s2 & Hfetch & Hp' & Hs2). clearbody p'. subst p'.
  assert (Hg : isLoadingTemplates g = false).
  { destruct listing; cbn in Hfetch; injection Hfetch as <- _; reflexivity. }
  split; [|split; [|split; [|split; [|split; [|split]]]]].
  - unfold loading_screen. cbn [session]. rewrite Hs2.
    destruct (String.eqb resumeId "new"); cbn [negb].
    + reflexivity.
    + apply fetchResumeData_clears_loading.
  - exact Hg.
  - reflexivity.
  - intros listing2 raw2 load2 previewAns2. unfold init_effect.
    cbn [dataFetchedRef]. rewrite Hid. reflexivity.
  - reflexivity.
  - intros Hnew. injection Hnew as ->. cbn [session]. rewrite Hs2.
    change (String.eqb "new" "new") with true. cbn [negb].
    destruct (session p) as [[] []]. repeat split; reflexivity.
  - intros table s. reflexivity.
Qed.

(** * The dashboard *)

Lemma filter_sublist (A : Type) (f : A -> bool) (l : list A) :
  List.filter f l `sublist_of` l.
Proof.
  induction l as [|x l IH]; cbn [List.filter].
  - reflexivity.
  - destruct (f x); [apply sublist_skip | apply sublist_cons]; exact IH.
Qed.

(** A confirmed delete that the service answers without error removes
    exactly that resume: the list keeps, in order, the resumes with another
    id and only those; the table loses that row and no other; nothing is
    reported, no navigation happens, and the spinner of the card is
    taken back.  A list that showed only rows of the table still does. *)
Theorem delete_removes_exactly_that_resume (resumeId : string) (d : Dashboard.Dash) :
  let d' := Dashboard.handleDeleteResume true resumeId
              (Returned {| Dashboard.del_error := false |}) d in
  (forall r, In r (Dashboard.resumes d')
             <-> In r (Dashboard.resumes d) /\ Dashboard.resume_id r <> resumeId)
  /\ Dashboard.resumes d' `sublist_of` Dashboard.resumes d
  /\ Dashboard.store d' !! resumeId = None
  /\ (forall other, other <> resumeId ->
        Dashboard.store d' !! other = Dashboard.store d !! other)
  /\ Dashboard.deletingId d' = None
  /\ Dashboard.notices d' = Dashboard.notices d
  /\ Dashboard.location d' = Dashboard.location d
  /\ (Dashboard.listed_in_store d -> Dashboard.listed_in_store d').
Proof.
  cbn. split; [|split; [|split; [|split; [|split; [|split; [|split]]]]]].
  - intros r. rewrite filter_In, negb_true_iff, String.eqb_neq. reflexivity.
  - apply filter_sublist.
  - apply lookup_delete_eq.
  - intros other Hother. apply lookup_delete_ne. congruence.
  - reflexivity.
  - reflexivity.
  - reflexivity.
  - intros Hlisted r Hin. cbn in *. apply filter_In in Hin as [Hin Hne].
    apply negb_true_iff, String.eqb_neq in Hne.
    rewrite lookup_delete_ne by congruence. apply Hlisted. exact Hin.
Qed.

(** A delete that is declined, that throws or that the service rejects
    keeps every resume listed and every row stored.  Declining changes
    nothing at all; a rejection is reported by one alert; a thrown call is
    only logged, without an alert.  In the last two cases the spinner of
    the card is taken back. *)
Theorem unfinished_delete_keeps_everything (confirmed : bool) (resumeId : string)
    (ans : Answer Dashboard.DeleteResult) (d : Dashboard.Dash) :
  confirmed = false \/ ans = Threw
  \/ ans = Returned {| Dashboard.del_error := true |} ->
  let d' := Dashboard.handleDeleteResume confirmed resumeId ans d in
  Dashboard.resumes d' = Dashboard.resumes d
  /\ Dashboard.store d' = Dashboard.store d
  /\ Dashboard.location d' = Dashboard.location d
  /\ (confirmed = false -> d' = d)
  /\ (confirmed = true ->
      Dashboard.deletingId d' = None
      /\ alerts (drop (length (Dashboard.notices d)) (Dashboard.notices d'))
         = match ans with
           | Threw => []
           | Returned _ => ["Failed to delete resume."]
           end).
Proof.
  intros Hwhy. destruct confirmed.
  - destruct Hwhy as [Hwhy | [ -> | -> ] ]; [discriminate| |];
      cbn; rewrite <- ?List.app_assoc, ?drop_app_length;
      repeat split; try reflexivity; discriminate.
  - cbn. rewrite drop_all. repeat split; try reflexivity; discriminate.
Qed.

(** Loading the list always ends the loading state and never touches the
    table.  An answer without error replaces the list by the rows
    returned (by the empty list when none are returned); an error or a
    thrown call keeps the list shown before and is only logged. *)
Theorem fetch_resumes_outcomes (ans : Answer Dashboard.SelectManyResult)
    (d : Dashboard.Dash) :
  let d' := Dashboard.fetchResumes ans d in
  Dashboard.isLoading d' = false
  /\ Dashboard.store d' = Dashboard.store d
  /\ alerts (drop (length (Dashboard.notices d)) (Dashboard.notices d')) = []
  /\ match ans with
     | Returned res =>
         if Dashboard.many_error res
         then Dashboard.resumes d' = Dashboard.resumes d
         else match Dashboard.many_data res with
              | Some rows => Dashboard.resumes d' = rows
              | None => Dashboard.resumes d' = []
              end
     | Threw => Dashboard.resumes d' = Dashboard.resumes d
     end.
Proof.
  destruct ans as [|res]; [|destruct res as [data []]; [|destruct data]];
    cbn; rewrite ?drop_app_length, ?drop_all; repeat split; reflexivity.
Qed.

(** A document created on the dashboard opens empty in the editor.  When
    the service stores the requested row and returns it, the dashboard
    navigates to the editor of that id, reports nothing, and the table
    holds the row; its card would show the placeholder and the default
    title.  Opening the editor on that id then loads the row, ends the
    loading screen and stays in the creation step: the title is
    "Untitled Resume", the history is empty and no preview is started. *)
Theorem created_document_opens_empty (d : Dashboard.Dash) (r : Dashboard.Resume)
    (now : Z) (listing : Answer (option (list TemplateInfo)))
    (raw : nat -> Answer string) (previewAns : Answer Blob) :
  Dashboard.row r = Dashboard.requested_row now ->
  Js.truthy (Dashboard.resume_id r) = true ->
  Dashboard.resume_id r <> "new" ->
  let d' := Dashboard.createNewResume
              (Returned {| Dashboard.ins_data := Some [r];
                           Dashboard.ins_error := None |}) d in
  let table := Dashboard.editor_table d' in
  let p' := init_effect true (Some (Dashboard.resume_id r)) listing raw
              (Returned (select_single (world (fresh table)) (Dashboard.resume_id r)))
              previewAns (initial_page table) in
  Dashboard.location d' = Some (String.append "/editor/" (Dashboard.resume_id r))
  /\ Dashboard.notices d' = Dashboard.notices d
  /\ Dashboard.store d' !! Dashboard.resume_id r = Some r
  /\ Dashboard.card_thumbnail r = None
  /\ Dashboard.card_title r = "Untitled Resume"
  /\ loading_screen p' = false
  /\ step (ui (session p')) = 1
  /\ resumeTitle (ui (session p')) = "Untitled Resume"
  /\ codeHistory (ui (session p')) = []
  /\ htmlCode (ui (session p')) = ""
  /\ pdfUrl (ui (session p')) = None
  /\ preview_calls (log (world (session p'))) = [].
Proof.
  intros Hrow Hid Hnew d' table p'.
  assert (Hstored : Dashboard.store d' !! Dashboard.resume_id r = Some r)
    by (cbn; apply lookup_insert_eq).
  assert (Hload : select_single (world (fresh table)) (Dashboard.resume_id r)
                  = {| sel_data := Some (Dashboard.requested_row now);
                       sel_error := false |}).
  { unfold select_single, table, Dashboard.editor_table. cbn [world fresh db].
    rewrite lookup_fmap, Hstored. cbn. rewrite Hrow. reflexivity. }
  split; [reflexivity|]. split; [reflexivity|]. split; [exact Hstored|].
  split; [unfold Dashboard.card_thumbnail; rewrite Hrow; reflexivity|].
  split; [unfold Dashboard.card_title; rewrite Hrow; reflexivity|].
  unfold p', loading_screen, init_effect. rewrite Hload.
  cbn [Js.truthy_opt]. rewrite Hid.
  apply String.eqb_neq in Hnew. rewrite Hnew.
  cbn [initial_page dataFetchedRef gallery negb orb].
  destruct (fetchTemplates listing raw initial_gallery) as [g evs] eqn:Hfetch.
  assert (Hevs : preview_calls evs = []).
  { destruct listing; cbn in Hfetch; injection Hfetch as _ <-; reflexivity. }
  cbn [session]. unfold log_events, fresh, initial_state.
  run_handler. cbn [sel_error sel_data]. run_handler.
  unfold Dashboard.requested_row. cbn [title html_content]. run_handler.
  repeat split; try reflexivity.
  rewrite <- ?List.app_assoc. cbn [app]. rewrite ?app_nil_r. exact Hevs.
Qed.

(** * The template library *)

Lemma append_cons (c : ascii) (a b : string) :
  String.append (String c a) b = String c (String.append a b).
Proof. reflexivity. Qed.

Lemma append_empty (b : string) : String.append "" b = b.
Proof. reflexivity. Qed.

Lemma prefix_spec (needle s : string) :
  String.prefix needle s = true <-> exists rest, s = String.append needle rest.
Proof.
  revert s. induction needle as [|a needle IH]; intros s.
  - split; [intros _; exists s; reflexivity | intros _; destruct s; reflexivity].
  - destruct s as [|b s]; cbn [String.prefix].
    + split; [discriminate | intros [rest Hrest]; discriminate Hrest].
    + destruct (Ascii.ascii_dec a b) as [->|Hne].
      * rewrite IH. split; intros [rest Hrest]; exists rest.
        -- rewrite append_cons, <- Hrest. reflexivity.
        -- rewrite append_cons in Hrest. injection Hrest as ->. reflexivity.
      * split; [discriminate|]. intros [rest Hrest].
        rewrite append_cons in Hrest. injection Hrest as Hab _. congruence.
Qed.

Lemma includes_spec (s needle : string) :
  JsText.includes s needle = true
  <-> exists before after, s = String.append before (String.append needle after).
Proof.
  induction s as [|c s IH]; cbn [JsText.includes].
  - rewrite orb_false_r, prefix_spec. split.
    + intros [rest Hrest]. exists "", rest. exact Hrest.
    + intros (before & after & Hs). destruct before as [|b before].
      * exists after. exact Hs.
      * rewrite append_cons in Hs. discriminate Hs.
  - rewrite orb_true_iff, prefix_spec, IH. split.
    + intros [[rest Hrest] | (before & after & Hs)].
      * exists "", rest. exact Hrest.
      * exists (String c before), after. rewrite append_cons, <- Hs. reflexivity.
    + intros (before & after & Hs). destruct before as [|b before].
      * left. exists after. exact Hs.
      * right. rewrite append_cons in Hs. injection Hs as _ Hs.
        exists before, after. exact Hs.
Qed.

Lemma lower_char_idem (c : ascii) :
  JsText.lower_char (JsText.lower_char c) = JsText.lower_char c.
Proof. destruct c as [[] [] [] [] [] [] [] []]; reflexivity. Qed.

Lemma toLowerCase_idem (s : string) :
  JsText.toLowerCase (JsText.toLowerCase s) = JsText.toLowerCase s.
Proof.
  induction s as [|c s IH]; cbn [JsText.toLowerCase]; [reflexivity|].
  rewrite lower_char_idem, IH. reflexivity.
Qed.

Lemma filter_all (A : Type) (f : A -> bool) (l : list A) :
  (forall x, In x l -> f x = true) -> List.filter f l = l.
Proof.
  induction l as [|x l IH]; intros Hall; cbn [List.filter]; [reflexivity|].
  rewrite (Hall x (or_introl eq_refl)), IH; [reflexivity|].
  intros y Hy. apply Hall. right. exact Hy.
Qed.

(** The library shows exactly the matching templates, in the order of the
    list: a template is shown if and only if the search term occurs in its
    name or in its description, whatever the letter case of either, and
    its category is the chosen one or the choice is "all". *)
Theorem filtered_templates_are_the_matches (st : TemplateLibrary.State)
    (l : list TemplateLibrary.Template) :
  TemplateLibrary.templates st = Some l ->
  exists shown,
    TemplateLibrary.filteredTemplates st = Some shown
    /\ shown `sublist_of` l
    /\ forall t,
         In t shown
         <-> In t l
             /\ (TemplateLibrary.occurs_ignoring_case
                   (TemplateLibrary.searchTerm st) (TemplateLibrary.name t)
                 \/ TemplateLibrary.occurs_ignoring_case
                      (TemplateLibrary.searchTerm st) (TemplateLibrary.description t))
             /\ (TemplateLibrary.filterCategory st = "all"
                 \/ TemplateLibrary.category t = TemplateLibrary.filterCategory st).
Proof.
  intros Hl. unfold TemplateLibrary.filteredTemplates. rewrite Hl.
  eexists. split; [reflexivity|]. split; [apply filter_sublist|].
  intros t. rewrite filter_In. unfold TemplateLibrary.matches.
  rewrite andb_true_iff, !orb_true_iff, !includes_spec, !String.eqb_eq.
  unfold TemplateLibrary.occurs_ignoring_case. tauto.
Qed.

(** With an empty search box and the category "all", every template of the
    list is shown. *)
Theorem no_filter_shows_every_template (st : TemplateLibrary.State)
    (l : list TemplateLibrary.Template) :
  TemplateLibrary.templates st = Some l ->
  TemplateLibrary.searchTerm st = "" ->
  TemplateLibrary.filterCategory st = "all" ->
  TemplateLibrary.filteredTemplates st = Some l.
Proof.
  intros Hl Hterm Hcat. unfold TemplateLibrary.filteredTemplates. rewrite Hl.
  f_equal. apply filter_all. intros t _.
  unfold TemplateLibrary.matches. rewrite Hterm, Hcat.
  cbn [JsText.toLowerCase].
  assert (Hempty : forall s, JsText.includes s "" = true).
  { intros s. apply includes_spec. exists "", s. reflexivity. }
  rewrite Hempty. reflexivity.
Qed.

(** The search ignores the letter case of the term: two terms with the
    same lower-case form select the same templates; in particular a term
    and its lower-case form do. *)
Theorem search_ignores_case (st : TemplateLibrary.State) (term : string) :
  JsText.toLowerCase term = JsText.toLowerCase (TemplateLibrary.searchTerm st) ->
  TemplateLibrary.filteredTemplates (TemplateLibrary.setSearchTerm term st)
  = TemplateLibrary.filteredTemplates st
  /\ TemplateLibrary.filteredTemplates
       (TemplateLibrary.setSearchTerm
          (JsText.toLowerCase (TemplateLibrary.searchTerm st)) st)
     = TemplateLibrary.filteredTemplates st.
Proof.
  intros Hsame.
  assert (Hgen : forall term',
            JsText.toLowerCase term' = JsText.toLowerCase (TemplateLibrary.searchTerm st) ->
            TemplateLibrary.filteredTemplates (TemplateLibrary.setSearchTerm term' st)
            = TemplateLibrary.filteredTemplates st).
  { intros term' Hterm'. unfold TemplateLibrary.filteredTemplates.
    cbn [TemplateLibrary.setSearchTerm TemplateLibrary.templates].
    destruct (TemplateLibrary.templates st) as [l|]; [|reflexivity].
    f_equal. apply filter_ext. intros t. unfold TemplateLibrary.matches.
    cbn [TemplateLibrary.setSearchTerm TemplateLibrary.searchTerm
         TemplateLibrary.filterCategory].
    rewrite Hterm'. reflexivity. }
  split; [apply Hgen; exact Hsame | apply Hgen, toLowerCase_idem].
Qed.

(** Loading the library always ends the loading state and keeps the search
    and the category.  When the request throws, is answered with a status
    that is not ok, or its body cannot be parsed, the built-in
    templates are shown instead and the failure is logged.  When the
    answer is ok, the list is the [templates] field of the body; if the
    body has no such field the list is undefined, the built-in templates
    are not used, and the next render has nothing to filter. *)
Theorem template_fetch_outcomes (ans : Answer TemplateLibrary.FetchResponse)
    (st : TemplateLibrary.State) :
  let st' := fst (TemplateLibrary.fetchTemplates ans st) in
  TemplateLibrary.loading st' = false
  /\ TemplateLibrary.searchTerm st' = TemplateLibrary.searchTerm st
  /\ TemplateLibrary.filterCategory st' = TemplateLibrary.filterCategory st
  /\ (ans = Threw
      \/ (exists response, ans = Returned response
            /\ (TemplateLibrary.ok response = false
                \/ TemplateLibrary.json response = Threw)) ->
      TemplateLibrary.templates st' = Some TemplateLibrary.getMockTemplates
      /\ snd (TemplateLibrary.fetchTemplates ans st)
         = [ConsoleError "Failed to fetch templates:"])
  /\ (forall data,
        ans = Returned {| TemplateLibrary.ok := true;
                          TemplateLibrary.json := Returned data |} ->
        TemplateLibrary.templates st' = data
        /\ snd (TemplateLibrary.fetchTemplates ans st) = []
        /\ (data = None -> TemplateLibrary.filteredTemplates st' = None)).
Proof.
  split; [|split; [|split; [|split]]].
  - destruct ans as [|[[] []]]; reflexivity.
  - destruct ans as [|[[] []]]; reflexivity.
  - destruct ans as [|[[] []]]; reflexivity.
  - intros [->|(response & -> & Hwhy)]; [repeat split|].
    destruct response as [okay body]. cbn in Hwhy.
    destruct Hwhy as [->| ->]; [|destruct okay]; repeat split.
  - intros data ->. cbn. repeat split. intros ->. reflexivity.
Qed.

(** * The further properties at the sample inputs *)

Lemma blank_prompt_is_dropped_witness :
  Js.truthy (Js.trim (userPrompt (ui demo_blank))) = false
  /\ exec (handleSendMessage (Some "doc-1") (edited "<h1>X</h1>" "Done.") 101 saved Threw)
          demo_blank
     = demo_blank.
Proof.
  split; [reflexivity|].
  apply (blank_prompt_is_dropped (Some "doc-1") demo_blank). reflexivity.
Defined.

Lemma turn_clears_prompt_and_unlocks_witness :
  Js.truthy (Js.trim (userPrompt (ui demo_typed))) = true
  /\ userPrompt
       (ui (exec (handleSendMessage (Some "doc-1") Threw 101 saved Threw) demo_typed))
     = ""
  /\ isModifying
       (ui (exec (handleSendMessage (Some "doc-1") Threw 101 saved Threw) demo_typed))
     = false.
Proof.
  split; [reflexivity|].
  destruct (turn_clears_prompt_and_unlocks (Some "doc-1") demo_typed
              Threw 101 saved Threw eq_refl) as (Hprompt & Hunlocked & _).
  split; [exact Hprompt | exact Hunlocked].
Defined.


Lemma repeated_undo_reaches_first_version_witness :
  vid <$> codeHistory (ui demo_edited)
  = seqZ 1 (Z.of_nat (length (codeHistory (ui demo_edited))))
  /\ 1 <= currentCodeVersionId (ui demo_edited)
       <= Z.of_nat (length (codeHistory (ui demo_edited)))
  /\ currentCodeVersionId (ui (exec (undos (Some "doc-1") three_undos) demo_edited)) = 1.
Proof.
  assert (Hids : vid <$> codeHistory (ui demo_edited)
                 = seqZ 1 (Z.of_nat (length (codeHistory (ui demo_edited)))))
    by reflexivity.
  assert (Hcur : 1 <= currentCodeVersionId (ui demo_edited)
                   <= Z.of_nat (length (codeHistory (ui demo_edited))))
    by (vm_compute; split; discriminate).
  split; [exact Hids|]. split; [exact Hcur|].
  destruct (repeated_undo_reaches_first_version (Some "doc-1") three_undos
              demo_edited Hids Hcur) as (_ & Hver & _).
  exact Hver.
Defined.

Lemma unsuccessful_generation_changes_nothing_witness :
  generation_unsuccessful (ui (fresh demo_table)) (@Threw ProcessResponse)
  /\ alerts (events (handleExtractAndGenerate (Some "doc-1") Threw 100 saved Threw)
                    (fresh demo_table))
     = ["Please select a template and upload a resume."]
  /\ api_calls (events (handleExtractAndGenerate (Some "doc-1") Threw 100 saved Threw)
                       (fresh demo_table))
     = [].
Proof.
  assert (Hwhy : generation_unsuccessful (ui (fresh demo_table)) (@Threw ProcessResponse))
    by (left; reflexivity).
  split; [exact Hwhy|].
  destruct (unsuccessful_generation_changes_nothing (Some "doc-1") (fresh demo_table)
              Threw 100 saved Threw Hwhy)
    as (_ & _ & _ & _ & _ & _ & _ & _ & _ & _ & Hnone & _).
  split; [reflexivity|].
  apply Hnone. left. reflexivity.
Defined.

Lemma successful_generation_starts_over_witness :
  resumeFile (ui demo_chosen) = Some {| name := "john_smith.docx" |}
  /\ pr_success regenerated = true
  /\ length (codeHistory (ui demo_chosen)) = 2%nat
  /\ codeHistory
       (ui (exec (handleExtractAndGenerate (Some "doc-1") (Returned regenerated)
                    110 saved (Returned "%PDF-J")) demo_chosen))
     = [{| vid := 1; vcode := "<h1>John</h1>" |}]
  /\ resumeTitle
       (ui (exec (handleExtractAndGenerate (Some "doc-1") (Returned regenerated)
                    110 saved (Returned "%PDF-J")) demo_chosen))
     = "john smith".
Proof.
  split; [reflexivity|]. split; [reflexivity|]. split; [reflexivity|].
  destruct (successful_generation_starts_over (Some "doc-1") demo_chosen
              {| name := "john_smith.docx" |} {| template_id := "executive-serif" |}
              regenerated 110 saved (Returned "%PDF-J") eq_refl eq_refl eq_refl)
    as (Hhist & _ & _ & _ & Htitle & _).
  split; [exact Hhist | exact Htitle].
Defined.

Lemma rename_writes_only_the_title_witness :
  Js.truthy (Js.trim (resumeTitle (ui demo_retitled))) = true
  /\ db (world demo_retitled) !! "doc-1" = Some generated_row
  /\ db (world (exec (handleTitleSave (Some "doc-1") 120
                        (Returned {| upd_error := false |})) demo_retitled))
       !! "doc-1"
     = Some {| title := Some "Jane Doe CV"; html_content := Some "<h1>Jane</h1>";
               version := 1; updated_at := 120 |}.
Proof.
  assert (Hnew : "doc-1" <> "new") by discriminate.
  assert (Hstored : db (world demo_retitled) !! "doc-1" = Some generated_row)
    by (vm_compute; reflexivity).
  split; [reflexivity|]. split; [exact Hstored|].
  destruct (rename_writes_only_the_title "doc-1" demo_retitled 120 generated_row
              eq_refl Hnew eq_refl Hstored) as (Hrow & _).
  exact Hrow.
Defined.

Lemma rename_is_skipped_witness :
  (Js.truthy (Js.trim (resumeTitle (ui demo_retitled))) = false
   \/ Some "new" = @None string \/ Some "new" = Some "" \/ Some "new" = Some "new")
  /\ exec (handleTitleSave (Some "new") 120 saved) demo_retitled = demo_retitled.
Proof.
  split; [right; right; right; reflexivity|].
  apply rename_is_skipped. right. right. right. reflexivity.
Defined.

Lemma editor_writes_only_its_own_row_witness :
  Some "doc-1" <> Some "doc-7"
  /\ db (world (exec (run (Some "doc-1") undo_then_edit) (fresh stored_table))) !! "doc-7"
     = db (world (fresh stored_table)) !! "doc-7".
Proof.
  assert (Hother : Some "doc-1" <> Some "doc-7") by discriminate.
  split; [exact Hother|].
  destruct (editor_writes_only_its_own_row (Some "doc-1") "doc-7" (fresh stored_table)
              {| name := "jane_doe.resume.pdf" |} {| template_id := "modern-minimal" |}
              Threw 100 saved Threw undo_then_edit Hother) as [_ Hrun].
  exact Hrun.
Defined.

Lemma edits_keep_stored_title_witness :
  forallb (fun a => negb (is_retitle a)) undo_then_edit = true
  /\ title <$> db (world (exec (run (Some "doc-1") undo_then_edit) demo_ingested)) !! "doc-1"
     = Some (Some "jane doe.resume").
Proof.
  split; [reflexivity|].
  rewrite (edits_keep_stored_title (Some "doc-1") undo_then_edit demo_ingested "doc-1"
             eq_refl).
  vm_compute. reflexivity.
Defined.

Lemma autoTitle_drops_last_extension_witness :
  Js.truthy "pdf" = true
  /\ Js.no_slash_dot "pdf" = true
  /\ autoTitle {| name := "jane_doe.resume.pdf" |} = "jane doe.resume".
Proof.
  split; [reflexivity|]. split; [reflexivity|].
  exact (autoTitle_drops_last_extension "jane_doe.resume" "pdf" eq_refl eq_refl).
Defined.

Lemma failed_load_changes_nothing_witness :
  load_failed (@Threw SelectResult)
  /\ isFetchingInitialData
       (ui (exec (fetchResumeData "doc-7" Threw Threw) (fresh stored_table)))
     = false
  /\ step (ui (exec (fetchResumeData "doc-7" Threw Threw) (fresh stored_table))) = 1.
Proof.
  assert (Hwhy : load_failed (@Threw SelectResult)) by (left; reflexivity).
  split; [exact Hwhy|].
  destruct (failed_load_changes_nothing "doc-7" (fresh stored_table) Threw Threw Hwhy)
    as (Hflag & _ & _ & _ & _ & Hstep & _).
  split; [exact Hflag | exact Hstep].
Defined.

Lemma resumed_history_continues_stored_version_witness :
  html_content stored_row
  = Some "<html><body><h1>Jane Doe</h1><p>Engineer</p></body></html>"
  /\ forallb (fun a => negb (is_undo a)) one_edit = true
  /\ vid <$> codeHistory
               (ui (exec (run (Some "doc-7") one_edit)
                         (exec (fetchResumeData "doc-7"
                                  (Returned {| sel_data := Some stored_row;
                                               sel_error := false |})
                                  (Returned "%PDF-7"))
                               (fresh stored_table))))
     = [7; 8].
Proof.
  split; [reflexivity|]. split; [reflexivity|].
  destruct (resumed_history_continues_stored_version (Some "doc-7") "doc-7"
              "<html><body><h1>Jane Doe</h1><p>Engineer</p></body></html>"
              stored_row (Returned "%PDF-7") (fresh stored_table) one_edit
              eq_refl ltac:(vm_compute; lia) eq_refl) as (Hids & _).
  exact Hids.
Defined.

Lemma overlay_ends_with_generation_witness :
  resumeFile (ui demo_chosen) = Some {| name := "john_smith.docx" |}
  /\ selectedTemplate (ui demo_chosen) = Some {| template_id := "executive-serif" |}
  /\ overlay_shown
       (ui (exec handleOverlayComplete
              (exec (handleExtractAndGenerate (Some "doc-1") (Returned regenerated)
                       110 saved (Returned "%PDF-J")) demo_chosen)))
     = false.
Proof.
  split; [reflexivity|]. split; [reflexivity|].
  destruct (overlay_ends_with_generation (Some "doc-1") demo_chosen
              {| name := "john_smith.docx" |} {| template_id := "executive-serif" |}
              (Returned regenerated) 110 saved (Returned "%PDF-J") eq_refl eq_refl)
    as [Hdone _].
  destruct (Hdone regenerated eq_refl eq_refl) as (_ & _ & _ & Hdown & _).
  exact Hdown.
Defined.

Lemma initialisation_ends_loading_witness :
  Js.truthy_opt (Some "doc-7") = true
  /\ dataFetchedRef (initial_page stored_table) = false
  /\ loading_screen
       (init_effect true (Some "doc-7") Threw (fun _ => Threw)
          (Returned (select_single (world (fresh stored_table)) "doc-7"))
          (Returned "%PDF-7") (initial_page stored_table))
     = false.
Proof.
  split; [reflexivity|]. split; [reflexivity|].
  destruct (initialisation_ends_loading (Some "doc-7") Threw (fun _ => Threw)
              (Returned (select_single (world (fresh stored_table)) "doc-7"))
              (Returned "%PDF-7") (initial_page stored_table) eq_refl eq_refl)
    as (Hdone & _).
  exact Hdone.
Defined.

Lemma unfinished_delete_keeps_everything_witness :
  (false = false \/ @Threw Dashboard.DeleteResult = Threw
   \/ @Threw Dashboard.DeleteResult = Returned {| Dashboard.del_error := true |})
  /\ Dashboard.handleDeleteResume false "doc-7" Threw demo_dashboard = demo_dashboard.
Proof.
  split; [left; reflexivity|].
  destruct (unfinished_delete_keeps_everything false "doc-7" Threw demo_dashboard
              (or_introl eq_refl)) as (_ & _ & _ & Hsame & _).
  apply Hsame. reflexivity.
Defined.

Lemma created_document_opens_empty_witness :
  Dashboard.row created_resume = Dashboard.requested_row 50
  /\ Js.truthy (Dashboard.resume_id created_resume) = true
  /\ Dashboard.resume_id created_resume <> "new"
  /\ Dashboard.location
       (Dashboard.createNewResume
          (Returned {| Dashboard.ins_data := Some [created_resume];
                       Dashboard.ins_error := None |}) demo_dashboard)
     = Some "/editor/doc-9".
Proof.
  assert (Hnew : Dashboard.resume_id created_resume <> "new") by discriminate.
  split; [reflexivity|]. split; [reflexivity|]. split; [exact Hnew|].
  destruct (created_document_opens_empty demo_dashboard created_resume 50
              Threw (fun _ => Threw) Threw eq_refl eq_refl Hnew) as (Hloc & _).
  exact Hloc.
Defined.

Lemma filtered_templates_are_the_matches_witness :
  TemplateLibrary.templates demo_library = Some TemplateLibrary.getMockTemplates
  /\ exists shown,
       TemplateLibrary.filteredTemplates demo_library = Some shown
       /\ shown `sublist_of` TemplateLibrary.getMockTemplates.
Proof.
  split; [reflexivity|].
  destruct (filtered_templates_are_the_matches demo_library
              TemplateLibrary.getMockTemplates eq_refl) as (shown & Hshown & Hsub & _).
  exists shown. split; [exact Hshown | exact Hsub].
Defined.

Lemma no_filter_shows_every_template_witness :
  TemplateLibrary.searchTerm demo_library_unfiltered = ""
  /\ TemplateLibrary.filterCategory demo_library_unfiltered = "all"
  /\ TemplateLibrary.filteredTemplates demo_library_unfiltered
     = Some TemplateLibrary.getMockTemplates.
Proof.
  split; [reflexivity|]. split; [reflexivity|].
  exact (no_filter_shows_every_template demo_library_unfiltered
           TemplateLibrary.getMockTemplates eq_refl eq_refl eq_refl).
Defined.

Lemma search_ignores_case_witness :
  JsText.toLowerCase "Serif" = JsText.toLowerCase (TemplateLibrary.searchTerm demo_library)
  /\ TemplateLibrary.filteredTemplates (TemplateLibrary.setSearchTerm "Serif" demo_library)
     = TemplateLibrary.filteredTemplates demo_library.
Proof.
  split; [reflexivity|].
  destruct (search_ignores_case demo_library "Serif" eq_refl) as [Hsame _].
  exact Hsame.
Defined.

(** The sample library, searched for "SERIF" among the professional
    templates, shows the two serif templates. *)
Example demo_library_shows_serif_templates :
  fmap (M := option) (fmap (M := list) TemplateLibrary.id)
       (TemplateLibrary.filteredTemplates demo_library)
  = Some ["executive-serif"; "elegant-serif"].
Proof. vm_compute. reflexivity. Qed.
